(** * SMM Matrix: a shallow embedding of the Express/SQLite application

    The development follows [smm-matrix-node.js] (and its sibling revision,
    which carries the [/checkout] routes): the JavaScript primitives the
    handlers rely on, the SQLite store with the statements the handlers
    prepare, the session cookie, the role gate and the route handlers,
    written in a small state-and-exception monad that also records every
    store access.  The theorems at the end settle the properties stated
    for the application. *)

From Stdlib Require Import ZArith Lia Ascii String.
From stdpp Require Import gmap strings list pretty.

Open Scope Z_scope.

(** ** JavaScript primitives *)

Module Js.

(** Strings are sequences of bytes: a character beyond ASCII is held as
    the bytes of its UTF-8 encoding, which is how SQLite stores and
    compares a text.  The characters the application inspects one by one
    (the five that [escapeHtml] replaces, digits, signs) are ASCII, where
    bytes, code units and characters coincide; [toLowerCase] and [trim]
    look at the code points.

    Numbers.  The application manipulates identifiers, counters and
    millisecond timestamps.  A JS number is modelled as an integer, as
    [NaN], or as another number: a fraction or an infinity, of which the
    model keeps the sign only.  Negative zero is the integer zero. *)
Inductive number := Int (z : Z) | NaN | Other (negative : bool).

(** The values a form field, a session entry or a column can hold. *)
Inductive value :=
| Undefined
| Null
| Bool (b : bool)
| Num (n : number)
| Str (s : string).

#[global] Instance number_eq_dec : EqDecision number.
Proof. solve_decision. Defined.
#[global] Instance value_eq_dec : EqDecision value.
Proof. solve_decision. Defined.

(** [ToBoolean]. *)
Definition truthy (v : value) : bool :=
  match v with
  | Undefined | Null => false
  | Bool b => b
  | Num (Int z) => negb (z =? 0)
  | Num NaN => false
  | Num (Other _) => true
  | Str s => negb (String.eqb s "")
  end.

(** [a || b]. *)
Definition or (a b : value) : value := if truthy a then a else b.

(** [String(v)].  The handlers convert form fields and their defaults,
    never a number; of a number that is not an integer only the infinite
    ones have their numeral here. *)
Definition ToString (v : value) : string :=
  match v with
  | Undefined => "undefined"
  | Null => "null"
  | Bool true => "true"
  | Bool false => "false"
  | Num (Int z) => pretty z
  | Num NaN => "NaN"
  | Num (Other false) => "Infinity"
  | Num (Other true) => "-Infinity"
  | Str s => s
  end.

(** *** Code points

    A string stands for a text by its UTF-8 bytes. *)
Definition byte (a : ascii) : Z := Z.of_N (N_of_ascii a).

Definition of_byte (z : Z) : ascii := ascii_of_N (Z.to_N z).

(** The Unicode scalar values: the code points that are no surrogates. *)
Definition scalar (c : Z) : bool :=
  ((0 <=? c) && (c <? 0xD800)) || ((0xE000 <=? c) && (c <? 0x110000)).

Definition continuation (a : ascii) : option Z :=
  let b := byte a in
  if (0x80 <=? b) && (b <? 0xC0) then Some (b - 0x80) else None.

(** The code points of a string, when it is well-formed UTF-8: shortest
    forms only, no surrogates, nothing above U+10FFFF. *)
Fixpoint code_points (s : string) : option (list Z) :=
  match s with
  | EmptyString => Some []
  | String.String a r =>
      let b := byte a in
      if b <? 0x80 then cons b <$> code_points r
      else if b <? 0xE0 then
        match r with
        | String.String a1 r1 =>
            match continuation a1 with
            | Some x1 =>
                let c := (b - 0xC0) * 64 + x1 in
                if 0x80 <=? c then cons c <$> code_points r1 else None
            | None => None
            end
        | _ => None
        end
      else if b <? 0xF0 then
        match r with
        | String.String a1 (String.String a2 r2) =>
            match continuation a1, continuation a2 with
            | Some x1, Some x2 =>
                let c := (b - 0xE0) * 4096 + x1 * 64 + x2 in
                if (0x800 <=? c) && scalar c then cons c <$> code_points r2
                else None
            | _, _ => None
            end
        | _ => None
        end
      else
        match r with
        | String.String a1 (String.String a2 (String.String a3 r3)) =>
            match continuation a1, continuation a2, continuation a3 with
            | Some x1, Some x2, Some x3 =>
                let c := (b - 0xF0) * 262144 + x1 * 4096 + x2 * 64 + x3 in
                if (0x10000 <=? c) && (c <? 0x110000)
                then cons c <$> code_points r3 else None
            | _, _, _ => None
            end
        | _ => None
        end
  end.

(** The bytes of one code point, put before [r]. *)
Definition utf8_bytes (c : Z) (r : string) : string :=
  let tail x := of_byte (0x80 + x mod 64) in
  if c <? 0x80 then String.String (of_byte c) r
  else if c <? 0x800 then
    String.String (of_byte (0xC0 + c / 64)) (String.String (tail c) r)
  else if c <? 0x10000 then
    String.String (of_byte (0xE0 + c / 4096))
      (String.String (tail (c / 64)) (String.String (tail c) r))
  else
    String.String (of_byte (0xF0 + c / 262144))
      (String.String (tail (c / 4096))
         (String.String (tail (c / 64)) (String.String (tail c) r))).

Definition utf8 (l : list Z) : string := foldr utf8_bytes EmptyString l.

(** *** Lower case

    [s.toLowerCase()] is the lower-case mapping of the Unicode Default
    Case Conversion, here with the data of Unicode 14.0.  [lower_table]
    lists the code points with a lower-case mapping of one code point:
    [(first, last, step, delta)] stands for the code points [first],
    [first + step], ... up to [last], each mapped [delta] further.
    [cased_table] and [case_ignorable_table] list the ranges of the
    properties Cased and Case_Ignorable. *)
Definition lower_table : list (Z * Z * Z * Z) :=
  [
    (0x41, 0x5A, 1, 32); (0xC0, 0xD6, 1, 32); (0xD8, 0xDE, 1, 32);
    (0x100, 0x12E, 2, 1); (0x132, 0x136, 2, 1); (0x139, 0x147, 2, 1);
    (0x14A, 0x176, 2, 1); (0x178, 0x178, 1, -121); (0x179, 0x17D, 2, 1);
    (0x181, 0x181, 1, 210); (0x182, 0x184, 2, 1); (0x186, 0x186, 1, 206);
    (0x187, 0x187, 1, 1); (0x189, 0x18A, 1, 205); (0x18B, 0x18B, 1, 1);
    (0x18E, 0x18E, 1, 79); (0x18F, 0x18F, 1, 202); (0x190, 0x190, 1, 203);
    (0x191, 0x191, 1, 1); (0x193, 0x193, 1, 205); (0x194, 0x194, 1, 207);
    (0x196, 0x196, 1, 211); (0x197, 0x197, 1, 209); (0x198, 0x198, 1, 1);
    (0x19C, 0x19C, 1, 211); (0x19D, 0x19D, 1, 213); (0x19F, 0x19F, 1, 214);
    (0x1A0, 0x1A4, 2, 1); (0x1A6, 0x1A6, 1, 218); (0x1A7, 0x1A7, 1, 1);
    (0x1A9, 0x1A9, 1, 218); (0x1AC, 0x1AC, 1, 1); (0x1AE, 0x1AE, 1, 218);
    (0x1AF, 0x1AF, 1, 1); (0x1B1, 0x1B2, 1, 217); (0x1B3, 0x1B5, 2, 1);
    (0x1B7, 0x1B7, 1, 219); (0x1B8, 0x1B8, 1, 1); (0x1BC, 0x1BC, 1, 1);
    (0x1C4, 0x1C4, 1, 2); (0x1C5, 0x1C5, 1, 1); (0x1C7, 0x1C7, 1, 2);
    (0x1C8, 0x1C8, 1, 1); (0x1CA, 0x1CA, 1, 2); (0x1CB, 0x1DB, 2, 1);
    (0x1DE, 0x1EE, 2, 1); (0x1F1, 0x1F1, 1, 2); (0x1F2, 0x1F4, 2, 1);
    (0x1F6, 0x1F6, 1, -97); (0x1F7, 0x1F7, 1, -56); (0x1F8, 0x21E, 2, 1);
    (0x220, 0x220, 1, -130); (0x222, 0x232, 2, 1); (0x23A, 0x23A, 1, 10795);
    (0x23B, 0x23B, 1, 1); (0x23D, 0x23D, 1, -163); (0x23E, 0x23E, 1, 10792);
    (0x241, 0x241, 1, 1); (0x243, 0x243, 1, -195); (0x244, 0x244, 1, 69);
    (0x245, 0x245, 1, 71); (0x246, 0x24E, 2, 1); (0x370, 0x372, 2, 1);
    (0x376, 0x376, 1, 1); (0x37F, 0x37F, 1, 116); (0x386, 0x386, 1, 38);
    (0x388, 0x38A, 1, 37); (0x38C, 0x38C, 1, 64); (0x38E, 0x38F, 1, 63);
    (0x391, 0x3A1, 1, 32); (0x3A3, 0x3AB, 1, 32); (0x3CF, 0x3CF, 1, 8);
    (0x3D8, 0x3EE, 2, 1); (0x3F4, 0x3F4, 1, -60); (0x3F7, 0x3F7, 1, 1);
    (0x3F9, 0x3F9, 1, -7); (0x3FA, 0x3FA, 1, 1); (0x3FD, 0x3FF, 1, -130);
    (0x400, 0x40F, 1, 80); (0x410, 0x42F, 1, 32); (0x460, 0x480, 2, 1);
    (0x48A, 0x4BE, 2, 1); (0x4C0, 0x4C0, 1, 15); (0x4C1, 0x4CD, 2, 1);
    (0x4D0, 0x52E, 2, 1); (0x531, 0x556, 1, 48); (0x10A0, 0x10C5, 1, 7264);
    (0x10C7, 0x10C7, 1, 7264); (0x10CD, 0x10CD, 1, 7264); (0x13A0, 0x13EF, 1, 38864);
    (0x13F0, 0x13F5, 1, 8); (0x1C90, 0x1CBA, 1, -3008); (0x1CBD, 0x1CBF, 1, -3008);
    (0x1E00, 0x1E94, 2, 1); (0x1E9E, 0x1E9E, 1, -7615); (0x1EA0, 0x1EFE, 2, 1);
    (0x1F08, 0x1F0F, 1, -8); (0x1F18, 0x1F1D, 1, -8); (0x1F28, 0x1F2F, 1, -8);
    (0x1F38, 0x1F3F, 1, -8); (0x1F48, 0x1F4D, 1, -8); (0x1F59, 0x1F5F, 2, -8);
    (0x1F68, 0x1F6F, 1, -8); (0x1F88, 0x1F8F, 1, -8); (0x1F98, 0x1F9F, 1, -8);
    (0x1FA8, 0x1FAF, 1, -8); (0x1FB8, 0x1FB9, 1, -8); (0x1FBA, 0x1FBB, 1, -74);
    (0x1FBC, 0x1FBC, 1, -9); (0x1FC8, 0x1FCB, 1, -86); (0x1FCC, 0x1FCC, 1, -9);
    (0x1FD8, 0x1FD9, 1, -8); (0x1FDA, 0x1FDB, 1, -100); (0x1FE8, 0x1FE9, 1, -8);
    (0x1FEA, 0x1FEB, 1, -112); (0x1FEC, 0x1FEC, 1, -7); (0x1FF8, 0x1FF9, 1, -128);
    (0x1FFA, 0x1FFB, 1, -126); (0x1FFC, 0x1FFC, 1, -9); (0x2126, 0x2126, 1, -7517);
    (0x212A, 0x212A, 1, -8383); (0x212B, 0x212B, 1, -8262); (0x2132, 0x2132, 1, 28);
    (0x2160, 0x216F, 1, 16); (0x2183, 0x2183, 1, 1); (0x24B6, 0x24CF, 1, 26);
    (0x2C00, 0x2C2F, 1, 48); (0x2C60, 0x2C60, 1, 1); (0x2C62, 0x2C62, 1, -10743);
    (0x2C63, 0x2C63, 1, -3814); (0x2C64, 0x2C64, 1, -10727); (0x2C67, 0x2C6B, 2, 1);
    (0x2C6D, 0x2C6D, 1, -10780); (0x2C6E, 0x2C6E, 1, -10749); (0x2C6F, 0x2C6F, 1, -10783);
    (0x2C70, 0x2C70, 1, -10782); (0x2C72, 0x2C72, 1, 1); (0x2C75, 0x2C75, 1, 1);
    (0x2C7E, 0x2C7F, 1, -10815); (0x2C80, 0x2CE2, 2, 1); (0x2CEB, 0x2CED, 2, 1);
    (0x2CF2, 0x2CF2, 1, 1); (0xA640, 0xA66C, 2, 1); (0xA680, 0xA69A, 2, 1);
    (0xA722, 0xA72E, 2, 1); (0xA732, 0xA76E, 2, 1); (0xA779, 0xA77B, 2, 1);
    (0xA77D, 0xA77D, 1, -35332); (0xA77E, 0xA786, 2, 1); (0xA78B, 0xA78B, 1, 1);
    (0xA78D, 0xA78D, 1, -42280); (0xA790, 0xA792, 2, 1); (0xA796, 0xA7A8, 2, 1);
    (0xA7AA, 0xA7AA, 1, -42308); (0xA7AB, 0xA7AB, 1, -42319); (0xA7AC, 0xA7AC, 1, -42315);
    (0xA7AD, 0xA7AD, 1, -42305); (0xA7AE, 0xA7AE, 1, -42308); (0xA7B0, 0xA7B0, 1, -42258);
    (0xA7B1, 0xA7B1, 1, -42282); (0xA7B2, 0xA7B2, 1, -42261); (0xA7B3, 0xA7B3, 1, 928);
    (0xA7B4, 0xA7C2, 2, 1); (0xA7C4, 0xA7C4, 1, -48); (0xA7C5, 0xA7C5, 1, -42307);
    (0xA7C6, 0xA7C6, 1, -35384); (0xA7C7, 0xA7C9, 2, 1); (0xA7D0, 0xA7D0, 1, 1);
    (0xA7D6, 0xA7D8, 2, 1); (0xA7F5, 0xA7F5, 1, 1); (0xFF21, 0xFF3A, 1, 32);
    (0x10400, 0x10427, 1, 40); (0x104B0, 0x104D3, 1, 40); (0x10570, 0x1057A, 1, 39);
    (0x1057C, 0x1058A, 1, 39); (0x1058C, 0x10592, 1, 39); (0x10594, 0x10595, 1, 39);
    (0x10C80, 0x10CB2, 1, 64); (0x118A0, 0x118BF, 1, 32); (0x16E40, 0x16E5F, 1, 32);
    (0x1E900, 0x1E921, 1, 34) ].

Definition cased_table : list (Z * Z) :=
  [
    (0x41, 0x5A); (0x61, 0x7A); (0xAA, 0xAA); (0xB5, 0xB5);
    (0xBA, 0xBA); (0xC0, 0xD6); (0xD8, 0xF6); (0xF8, 0x1BA);
    (0x1BC, 0x1BF); (0x1C4, 0x293); (0x295, 0x2B8); (0x2C0, 0x2C1);
    (0x2E0, 0x2E4); (0x345, 0x345); (0x370, 0x373); (0x376, 0x377);
    (0x37A, 0x37D); (0x37F, 0x37F); (0x386, 0x386); (0x388, 0x38A);
    (0x38C, 0x38C); (0x38E, 0x3A1); (0x3A3, 0x3F5); (0x3F7, 0x481);
    (0x48A, 0x52F); (0x531, 0x556); (0x560, 0x588); (0x10A0, 0x10C5);
    (0x10C7, 0x10C7); (0x10CD, 0x10CD); (0x10D0, 0x10FA); (0x10FD, 0x10FF);
    (0x13A0, 0x13F5); (0x13F8, 0x13FD); (0x1C80, 0x1C88); (0x1C90, 0x1CBA);
    (0x1CBD, 0x1CBF); (0x1D00, 0x1DBF); (0x1E00, 0x1F15); (0x1F18, 0x1F1D);
    (0x1F20, 0x1F45); (0x1F48, 0x1F4D); (0x1F50, 0x1F57); (0x1F59, 0x1F59);
    (0x1F5B, 0x1F5B); (0x1F5D, 0x1F5D); (0x1F5F, 0x1F7D); (0x1F80, 0x1FB4);
    (0x1FB6, 0x1FBC); (0x1FBE, 0x1FBE); (0x1FC2, 0x1FC4); (0x1FC6, 0x1FCC);
    (0x1FD0, 0x1FD3); (0x1FD6, 0x1FDB); (0x1FE0, 0x1FEC); (0x1FF2, 0x1FF4);
    (0x1FF6, 0x1FFC); (0x2071, 0x2071); (0x207F, 0x207F); (0x2090, 0x209C);
    (0x2102, 0x2102); (0x2107, 0x2107); (0x210A, 0x2113); (0x2115, 0x2115);
    (0x2119, 0x211D); (0x2124, 0x2124); (0x2126, 0x2126); (0x2128, 0x2128);
    (0x212A, 0x212D); (0x212F, 0x2134); (0x2139, 0x2139); (0x213C, 0x213F);
    (0x2145, 0x2149); (0x214E, 0x214E); (0x2160, 0x217F); (0x2183, 0x2184);
    (0x24B6, 0x24E9); (0x2C00, 0x2CE4); (0x2CEB, 0x2CEE); (0x2CF2, 0x2CF3);
    (0x2D00, 0x2D25); (0x2D27, 0x2D27); (0x2D2D, 0x2D2D); (0xA640, 0xA66D);
    (0xA680, 0xA69D); (0xA722, 0xA787); (0xA78B, 0xA78E); (0xA790, 0xA7CA);
    (0xA7D0, 0xA7D1); (0xA7D3, 0xA7D3); (0xA7D5, 0xA7D9); (0xA7F5, 0xA7F6);
    (0xA7F8, 0xA7FA); (0xAB30, 0xAB5A); (0xAB5C, 0xAB68); (0xAB70, 0xABBF);
    (0xFB00, 0xFB06); (0xFB13, 0xFB17); (0xFF21, 0xFF3A); (0xFF41, 0xFF5A);
    (0x10400, 0x1044F); (0x104B0, 0x104D3); (0x104D8, 0x104FB); (0x10570, 0x1057A);
    (0x1057C, 0x1058A); (0x1058C, 0x10592); (0x10594, 0x10595); (0x10597, 0x105A1);
    (0x105A3, 0x105B1); (0x105B3, 0x105B9); (0x105BB, 0x105BC); (0x10780, 0x10780);
    (0x10783, 0x10785); (0x10787, 0x107B0); (0x107B2, 0x107BA); (0x10C80, 0x10CB2);
    (0x10CC0, 0x10CF2); (0x118A0, 0x118DF); (0x16E40, 0x16E7F); (0x1D400, 0x1D454);
    (0x1D456, 0x1D49C); (0x1D49E, 0x1D49F); (0x1D4A2, 0x1D4A2); (0x1D4A5, 0x1D4A6);
    (0x1D4A9, 0x1D4AC); (0x1D4AE, 0x1D4B9); (0x1D4BB, 0x1D4BB); (0x1D4BD, 0x1D4C3);
    (0x1D4C5, 0x1D505); (0x1D507, 0x1D50A); (0x1D50D, 0x1D514); (0x1D516, 0x1D51C);
    (0x1D51E, 0x1D539); (0x1D53B, 0x1D53E); (0x1D540, 0x1D544); (0x1D546, 0x1D546);
    (0x1D54A, 0x1D550); (0x1D552, 0x1D6A5); (0x1D6A8, 0x1D6C0); (0x1D6C2, 0x1D6DA);
    (0x1D6DC, 0x1D6FA); (0x1D6FC, 0x1D714); (0x1D716, 0x1D734); (0x1D736, 0x1D74E);
    (0x1D750, 0x1D76E); (0x1D770, 0x1D788); (0x1D78A, 0x1D7A8); (0x1D7AA, 0x1D7C2);
    (0x1D7C4, 0x1D7CB); (0x1DF00, 0x1DF09); (0x1DF0B, 0x1DF1E); (0x1E900, 0x1E943);
    (0x1F130, 0x1F149); (0x1F150, 0x1F169); (0x1F170, 0x1F189) ].

Definition case_ignorable_table : list (Z * Z) :=
  [
    (0x27, 0x27); (0x2E, 0x2E); (0x3A, 0x3A); (0x5E, 0x5E);
    (0x60, 0x60); (0xA8, 0xA8); (0xAD, 0xAD); (0xAF, 0xAF);
    (0xB4, 0xB4); (0xB7, 0xB8); (0x2B0, 0x36F); (0x374, 0x375);
    (0x37A, 0x37A); (0x384, 0x385); (0x387, 0x387); (0x483, 0x489);
    (0x559, 0x559); (0x55F, 0x55F); (0x591, 0x5BD); (0x5BF, 0x5BF);
    (0x5C1, 0x5C2); (0x5C4, 0x5C5); (0x5C7, 0x5C7); (0x5F4, 0x5F4);
    (0x600, 0x605); (0x610, 0x61A); (0x61C, 0x61C); (0x640, 0x640);
    (0x64B, 0x65F); (0x670, 0x670); (0x6D6, 0x6DD); (0x6DF, 0x6E8);
    (0x6EA, 0x6ED); (0x70F, 0x70F); (0x711, 0x711); (0x730, 0x74A);
    (0x7A6, 0x7B0); (0x7EB, 0x7F5); (0x7FA, 0x7FA); (0x7FD, 0x7FD);
    (0x816, 0x82D); (0x859, 0x85B); (0x888, 0x888); (0x890, 0x891);
    (0x898, 0x89F); (0x8C9, 0x902); (0x93A, 0x93A); (0x93C, 0x93C);
    (0x941, 0x948); (0x94D, 0x94D); (0x951, 0x957); (0x962, 0x963);
    (0x971, 0x971); (0x981, 0x981); (0x9BC, 0x9BC); (0x9C1, 0x9C4);
    (0x9CD, 0x9CD); (0x9E2, 0x9E3); (0x9FE, 0x9FE); (0xA01, 0xA02);
    (0xA3C, 0xA3C); (0xA41, 0xA42); (0xA47, 0xA48); (0xA4B, 0xA4D);
    (0xA51, 0xA51); (0xA70, 0xA71); (0xA75, 0xA75); (0xA81, 0xA82);
    (0xABC, 0xABC); (0xAC1, 0xAC5); (0xAC7, 0xAC8); (0xACD, 0xACD);
    (0xAE2, 0xAE3); (0xAFA, 0xAFF); (0xB01, 0xB01); (0xB3C, 0xB3C);
    (0xB3F, 0xB3F); (0xB41, 0xB44); (0xB4D, 0xB4D); (0xB55, 0xB56);
    (0xB62, 0xB63); (0xB82, 0xB82); (0xBC0, 0xBC0); (0xBCD, 0xBCD);
    (0xC00, 0xC00); (0xC04, 0xC04); (0xC3C, 0xC3C); (0xC3E, 0xC40);
    (0xC46, 0xC48); (0xC4A, 0xC4D); (0xC55, 0xC56); (0xC62, 0xC63);
    (0xC81, 0xC81); (0xCBC, 0xCBC); (0xCBF, 0xCBF); (0xCC6, 0xCC6);
    (0xCCC, 0xCCD); (0xCE2, 0xCE3); (0xD00, 0xD01); (0xD3B, 0xD3C);
    (0xD41, 0xD44); (0xD4D, 0xD4D); (0xD62, 0xD63); (0xD81, 0xD81);
    (0xDCA, 0xDCA); (0xDD2, 0xDD4); (0xDD6, 0xDD6); (0xE31, 0xE31);
    (0xE34, 0xE3A); (0xE46, 0xE4E); (0xEB1, 0xEB1); (0xEB4, 0xEBC);
    (0xEC6, 0xEC6); (0xEC8, 0xECD); (0xF18, 0xF19); (0xF35, 0xF35);
    (0xF37, 0xF37); (0xF39, 0xF39); (0xF71, 0xF7E); (0xF80, 0xF84);
    (0xF86, 0xF87); (0xF8D, 0xF97); (0xF99, 0xFBC); (0xFC6, 0xFC6);
    (0x102D, 0x1030); (0x1032, 0x1037); (0x1039, 0x103A); (0x103D, 0x103E);
    (0x1058, 0x1059); (0x105E, 0x1060); (0x1071, 0x1074); (0x1082, 0x1082);
    (0x1085, 0x1086); (0x108D, 0x108D); (0x109D, 0x109D); (0x10FC, 0x10FC);
    (0x135D, 0x135F); (0x1712, 0x1714); (0x1732, 0x1733); (0x1752, 0x1753);
    (0x1772, 0x1773); (0x17B4, 0x17B5); (0x17B7, 0x17BD); (0x17C6, 0x17C6);
    (0x17C9, 0x17D3); (0x17D7, 0x17D7); (0x17DD, 0x17DD); (0x180B, 0x180F);
    (0x1843, 0x1843); (0x1885, 0x1886); (0x18A9, 0x18A9); (0x1920, 0x1922);
    (0x1927, 0x1928); (0x1932, 0x1932); (0x1939, 0x193B); (0x1A17, 0x1A18);
    (0x1A1B, 0x1A1B); (0x1A56, 0x1A56); (0x1A58, 0x1A5E); (0x1A60, 0x1A60);
    (0x1A62, 0x1A62); (0x1A65, 0x1A6C); (0x1A73, 0x1A7C); (0x1A7F, 0x1A7F);
    (0x1AA7, 0x1AA7); (0x1AB0, 0x1ACE); (0x1B00, 0x1B03); (0x1B34, 0x1B34);
    (0x1B36, 0x1B3A); (0x1B3C, 0x1B3C); (0x1B42, 0x1B42); (0x1B6B, 0x1B73);
    (0x1B80, 0x1B81); (0x1BA2, 0x1BA5); (0x1BA8, 0x1BA9); (0x1BAB, 0x1BAD);
    (0x1BE6, 0x1BE6); (0x1BE8, 0x1BE9); (0x1BED, 0x1BED); (0x1BEF, 0x1BF1);
    (0x1C2C, 0x1C33); (0x1C36, 0x1C37); (0x1C78, 0x1C7D); (0x1CD0, 0x1CD2);
    (0x1CD4, 0x1CE0); (0x1CE2, 0x1CE8); (0x1CED, 0x1CED); (0x1CF4, 0x1CF4);
    (0x1CF8, 0x1CF9); (0x1D2C, 0x1D6A); (0x1D78, 0x1D78); (0x1D9B, 0x1DFF);
    (0x1FBD, 0x1FBD); (0x1FBF, 0x1FC1); (0x1FCD, 0x1FCF); (0x1FDD, 0x1FDF);
    (0x1FED, 0x1FEF); (0x1FFD, 0x1FFE); (0x200B, 0x200F); (0x2018, 0x2019);
    (0x2024, 0x2024); (0x2027, 0x2027); (0x202A, 0x202E); (0x2060, 0x2064);
    (0x2066, 0x206F); (0x2071, 0x2071); (0x207F, 0x207F); (0x2090, 0x209C);
    (0x20D0, 0x20F0); (0x2C7C, 0x2C7D); (0x2CEF, 0x2CF1); (0x2D6F, 0x2D6F);
    (0x2D7F, 0x2D7F); (0x2DE0, 0x2DFF); (0x2E2F, 0x2E2F); (0x3005, 0x3005);
    (0x302A, 0x302D); (0x3031, 0x3035); (0x303B, 0x303B); (0x3099, 0x309E);
    (0x30FC, 0x30FE); (0xA015, 0xA015); (0xA4F8, 0xA4FD); (0xA60C, 0xA60C);
    (0xA66F, 0xA672); (0xA674, 0xA67D); (0xA67F, 0xA67F); (0xA69C, 0xA69F);
    (0xA6F0, 0xA6F1); (0xA700, 0xA721); (0xA770, 0xA770); (0xA788, 0xA78A);
    (0xA7F2, 0xA7F4); (0xA7F8, 0xA7F9); (0xA802, 0xA802); (0xA806, 0xA806);
    (0xA80B, 0xA80B); (0xA825, 0xA826); (0xA82C, 0xA82C); (0xA8C4, 0xA8C5);
    (0xA8E0, 0xA8F1); (0xA8FF, 0xA8FF); (0xA926, 0xA92D); (0xA947, 0xA951);
    (0xA980, 0xA982); (0xA9B3, 0xA9B3); (0xA9B6, 0xA9B9); (0xA9BC, 0xA9BD);
    (0xA9CF, 0xA9CF); (0xA9E5, 0xA9E6); (0xAA29, 0xAA2E); (0xAA31, 0xAA32);
    (0xAA35, 0xAA36); (0xAA43, 0xAA43); (0xAA4C, 0xAA4C); (0xAA70, 0xAA70);
    (0xAA7C, 0xAA7C); (0xAAB0, 0xAAB0); (0xAAB2, 0xAAB4); (0xAAB7, 0xAAB8);
    (0xAABE, 0xAABF); (0xAAC1, 0xAAC1); (0xAADD, 0xAADD); (0xAAEC, 0xAAED);
    (0xAAF3, 0xAAF4); (0xAAF6, 0xAAF6); (0xAB5B, 0xAB5F); (0xAB69, 0xAB6B);
    (0xABE5, 0xABE5); (0xABE8, 0xABE8); (0xABED, 0xABED); (0xFB1E, 0xFB1E);
    (0xFBB2, 0xFBC2); (0xFE00, 0xFE0F); (0xFE13, 0xFE13); (0xFE20, 0xFE2F);
    (0xFE52, 0xFE52); (0xFE55, 0xFE55); (0xFEFF, 0xFEFF); (0xFF07, 0xFF07);
    (0xFF0E, 0xFF0E); (0xFF1A, 0xFF1A); (0xFF3E, 0xFF3E); (0xFF40, 0xFF40);
    (0xFF70, 0xFF70); (0xFF9E, 0xFF9F); (0xFFE3, 0xFFE3); (0xFFF9, 0xFFFB);
    (0x101FD, 0x101FD); (0x102E0, 0x102E0); (0x10376, 0x1037A); (0x10780, 0x10785);
    (0x10787, 0x107B0); (0x107B2, 0x107BA); (0x10A01, 0x10A03); (0x10A05, 0x10A06);
    (0x10A0C, 0x10A0F); (0x10A38, 0x10A3A); (0x10A3F, 0x10A3F); (0x10AE5, 0x10AE6);
    (0x10D24, 0x10D27); (0x10EAB, 0x10EAC); (0x10F46, 0x10F50); (0x10F82, 0x10F85);
    (0x11001, 0x11001); (0x11038, 0x11046); (0x11070, 0x11070); (0x11073, 0x11074);
    (0x1107F, 0x11081); (0x110B3, 0x110B6); (0x110B9, 0x110BA); (0x110BD, 0x110BD);
    (0x110C2, 0x110C2); (0x110CD, 0x110CD); (0x11100, 0x11102); (0x11127, 0x1112B);
    (0x1112D, 0x11134); (0x11173, 0x11173); (0x11180, 0x11181); (0x111B6, 0x111BE);
    (0x111C9, 0x111CC); (0x111CF, 0x111CF); (0x1122F, 0x11231); (0x11234, 0x11234);
    (0x11236, 0x11237); (0x1123E, 0x1123E); (0x112DF, 0x112DF); (0x112E3, 0x112EA);
    (0x11300, 0x11301); (0x1133B, 0x1133C); (0x11340, 0x11340); (0x11366, 0x1136C);
    (0x11370, 0x11374); (0x11438, 0x1143F); (0x11442, 0x11444); (0x11446, 0x11446);
    (0x1145E, 0x1145E); (0x114B3, 0x114B8); (0x114BA, 0x114BA); (0x114BF, 0x114C0);
    (0x114C2, 0x114C3); (0x115B2, 0x115B5); (0x115BC, 0x115BD); (0x115BF, 0x115C0);
    (0x115DC, 0x115DD); (0x11633, 0x1163A); (0x1163D, 0x1163D); (0x1163F, 0x11640);
    (0x116AB, 0x116AB); (0x116AD, 0x116AD); (0x116B0, 0x116B5); (0x116B7, 0x116B7);
    (0x1171D, 0x1171F); (0x11722, 0x11725); (0x11727, 0x1172B); (0x1182F, 0x11837);
    (0x11839, 0x1183A); (0x1193B, 0x1193C); (0x1193E, 0x1193E); (0x11943, 0x11943);
    (0x119D4, 0x119D7); (0x119DA, 0x119DB); (0x119E0, 0x119E0); (0x11A01, 0x11A0A);
    (0x11A33, 0x11A38); (0x11A3B, 0x11A3E); (0x11A47, 0x11A47); (0x11A51, 0x11A56);
    (0x11A59, 0x11A5B); (0x11A8A, 0x11A96); (0x11A98, 0x11A99); (0x11C30, 0x11C36);
    (0x11C38, 0x11C3D); (0x11C3F, 0x11C3F); (0x11C92, 0x11CA7); (0x11CAA, 0x11CB0);
    (0x11CB2, 0x11CB3); (0x11CB5, 0x11CB6); (0x11D31, 0x11D36); (0x11D3A, 0x11D3A);
    (0x11D3C, 0x11D3D); (0x11D3F, 0x11D45); (0x11D47, 0x11D47); (0x11D90, 0x11D91);
    (0x11D95, 0x11D95); (0x11D97, 0x11D97); (0x11EF3, 0x11EF4); (0x13430, 0x13438);
    (0x16AF0, 0x16AF4); (0x16B30, 0x16B36); (0x16B40, 0x16B43); (0x16F4F, 0x16F4F);
    (0x16F8F, 0x16F9F); (0x16FE0, 0x16FE1); (0x16FE3, 0x16FE4); (0x1AFF0, 0x1AFF3);
    (0x1AFF5, 0x1AFFB); (0x1AFFD, 0x1AFFE); (0x1BC9D, 0x1BC9E); (0x1BCA0, 0x1BCA3);
    (0x1CF00, 0x1CF2D); (0x1CF30, 0x1CF46); (0x1D167, 0x1D169); (0x1D173, 0x1D182);
    (0x1D185, 0x1D18B); (0x1D1AA, 0x1D1AD); (0x1D242, 0x1D244); (0x1DA00, 0x1DA36);
    (0x1DA3B, 0x1DA6C); (0x1DA75, 0x1DA75); (0x1DA84, 0x1DA84); (0x1DA9B, 0x1DA9F);
    (0x1DAA1, 0x1DAAF); (0x1E000, 0x1E006); (0x1E008, 0x1E018); (0x1E01B, 0x1E021);
    (0x1E023, 0x1E024); (0x1E026, 0x1E02A); (0x1E130, 0x1E13D); (0x1E2AE, 0x1E2AE);
    (0x1E2EC, 0x1E2EF); (0x1E8D0, 0x1E8D6); (0x1E944, 0x1E94B); (0x1F3FB, 0x1F3FF);
    (0xE0001, 0xE0001); (0xE0020, 0xE007F); (0xE0100, 0xE01EF) ].

Definition in_ranges (c : Z) (t : list (Z * Z)) : bool :=
  existsb (λ '(lo, hi), (lo <=? c) && (c <=? hi)) t.

Definition cased (c : Z) : bool := in_ranges c cased_table.

Definition case_ignorable (c : Z) : bool := in_ranges c case_ignorable_table.

Definition mapped (c : Z) (e : Z * Z * Z * Z) : bool :=
  let '(lo, hi, step, _) := e in
  (lo <=? c) && (c <=? hi) && ((c - lo) mod step =? 0).

Definition lower1 (c : Z) : Z :=
  match List.find (mapped c) lower_table with
  | Some (_, _, _, delta) => c + delta
  | None => c
  end.

(** Whether a cased letter follows, case-ignorable code points apart. *)
Fixpoint cased_next (l : list Z) : bool :=
  match l with
  | [] => false
  | c :: r => if case_ignorable c then cased_next r else cased c
  end.

(** [before] tells whether a cased letter comes before, case-ignorable
    code points apart.  A capital sigma (U+03A3) becomes a final sigma
    (U+03C2) after a cased letter when none follows, and a small sigma
    (U+03C3) otherwise; a capital I with dot above (U+0130) becomes an
    [i] and a combining dot above. *)
Fixpoint lower_from (before : bool) (l : list Z) : list Z :=
  match l with
  | [] => []
  | c :: r =>
      (if c =? 0x3A3 then
         [if before && negb (cased_next r) then 0x3C2 else 0x3C3]
       else if c =? 0x130 then [0x69; 0x307]
       else [lower1 c])
      ++ lower_from (if case_ignorable c then before else cased c) r
  end.

Definition toLowerCase (s : string) : string :=
  match code_points s with
  | Some l => utf8 (lower_from false l)
  | None => s
  end.

(** The code points that lower-casing hands back as they are, and the
    code points a row of [lower_table] maps to. *)
Definition lower_fixed (c : Z) : bool :=
  (lower1 c =? c) && negb (c =? 0x3A3) && negb (c =? 0x130) && scalar c.

Definition lower_images (e : Z * Z * Z * Z) : list Z :=
  let '(lo, hi, step, delta) := e in
  (λ k, lo + step * Z.of_nat k + delta)
    <$> seq 0 (Z.to_nat ((hi - lo) / step) + 1).

(** [hay.includes(needle)] on strings. *)
Fixpoint includes (hay needle : string) : bool :=
  String.prefix needle hay ||
  match hay with
  | EmptyString => false
  | String.String _ r => includes r needle
  end.

(** The white space and the line terminators of ECMAScript, which
    [trim] and [Number] skip.  In UTF-8: the bytes of TAB, LF, VT, FF, CR
    and SP, the two bytes of U+00A0, and the three bytes of U+1680,
    U+2000 to U+200A, U+2028, U+2029, U+202F, U+205F, U+3000 and
    U+FEFF. *)
Definition space1 (a : ascii) : bool :=
  let n := nat_of_ascii a in
  ((9 <=? n)%nat && (n <=? 13)%nat) || (n =? 32)%nat.

Definition space2 (a b : ascii) : bool :=
  (nat_of_ascii a =? 194)%nat && (nat_of_ascii b =? 160)%nat.

Definition space3 (a b c : ascii) : bool :=
  let x := nat_of_ascii a in
  let y := nat_of_ascii b in
  let z := nat_of_ascii c in
  ((x =? 225)%nat && (y =? 154)%nat && (z =? 128)%nat)
  || ((x =? 226)%nat && (y =? 128)%nat
      && (((128 <=? z)%nat && (z <=? 138)%nat)
          || (z =? 168)%nat || (z =? 169)%nat || (z =? 175)%nat))
  || ((x =? 226)%nat && (y =? 129)%nat && (z =? 159)%nat)
  || ((x =? 227)%nat && (y =? 128)%nat && (z =? 128)%nat)
  || ((x =? 239)%nat && (y =? 187)%nat && (z =? 191)%nat).

(** [s.trimStart()], [s.trimEnd()] and [s.trim()]. *)
Fixpoint trim_start (s : string) : string :=
  match s with
  | String.String a r =>
      if space1 a then trim_start r
      else
        match r with
        | String.String b r2 =>
            if space2 a b then trim_start r2
            else
              match r2 with
              | String.String c r3 =>
                  if space3 a b c then trim_start r3 else s
              | EmptyString => s
              end
        | EmptyString => s
        end
  | EmptyString => EmptyString
  end.

(** A string of white space only. *)
Definition blank (s : string) : bool := String.eqb (trim_start s) "".

Fixpoint trim_end (s : string) : string :=
  match s with
  | EmptyString => EmptyString
  | String.String a r =>
      if blank s then EmptyString else String.String a (trim_end r)
  end.

Definition trim (s : string) : string := trim_end (trim_start s).

(** [Number(v)], on a string: the value of a [StringNumericLiteral], and
    [NaN] for every other string.  Around white space the literal is
    empty (zero), a radix literal [0x], [0o] or [0b] without sign, or an
    optionally signed [Infinity] or decimal literal with an optional
    fraction and exponent.

    [digit_of base c] is the value of a digit of the base, and
    [digits base s acc len] reads the longest run of digits at the front
    of [s]: the accumulated value, the number of digits read added to
    [len], and the rest of the string. *)
Definition digit_of (base : Z) (c : ascii) : option Z :=
  let n := Z.of_nat (nat_of_ascii c) in
  let v :=
    if (48 <=? n) && (n <=? 57) then Some (n - 48)
    else if (97 <=? n) && (n <=? 102) then Some (n - 87)
    else if (65 <=? n) && (n <=? 70) then Some (n - 55)
    else None in
  match v with
  | Some d => if d <? base then Some d else None
  | None => None
  end.

Fixpoint digits (base : Z) (s : string) (acc len : Z) : Z * Z * string :=
  match s with
  | String.String c r =>
      match digit_of base c with
      | Some d => digits base r (base * acc + d) (len + 1)
      | None => (acc, len, s)
      end
  | EmptyString => (acc, len, s)
  end.

(** The number a literal of value [num / den] (with [0 <= num] and
    [0 < den]) denotes: the nearest double, ties to the even significand,
    an infinity from [2^1024] on.  [e] is the exponent of the unit in the
    last place of the result, at least that of the subnormals, and [m]
    the significand rounded at that place, so the double is [m * 2^e]. *)
Definition to_double (neg : bool) (num den : Z) : number :=
  if num =? 0 then Int 0
  else
    let e1 := Z.log2 num - Z.log2 den - 52 in
    let q1 := if 0 <=? e1 then num / (den * 2 ^ e1)
              else (num * 2 ^ (- e1)) / den in
    let e2 := if q1 <? 2 ^ 52 then e1 - 1 else e1 in
    let e := Z.max e2 (- 1074) in
    let n' := if 0 <=? e then num else num * 2 ^ (- e) in
    let d' := if 0 <=? e then den * 2 ^ e else den in
    let q := n' / d' in
    let r := n' mod d' in
    let m := if (d' <? 2 * r) || ((d' =? 2 * r) && Z.odd q) then q + 1
             else q in
    let sign := λ z : Z, if neg then - z else z in
    if m =? 0 then Int 0
    else if 0 <=? e then
      if 2 ^ 1024 <=? m * 2 ^ e then Other neg else Int (sign (m * 2 ^ e))
    else if m mod 2 ^ (- e) =? 0 then Int (sign (m / 2 ^ (- e)))
    else Other neg.

(** A decimal literal of significand [m] and exponent [k]. *)
Definition of_decimal (neg : bool) (m k : Z) : number :=
  if 0 <=? k then to_double neg (m * 10 ^ k) 1
  else to_double neg m (10 ^ (- k)).

(** [StrDecimalLiteral] without its sign: [Infinity], or digits with an
    optional fraction, at least one digit in the two, and an optional
    exponent. *)
Definition decimal (neg : bool) (s : string) : number :=
  if String.eqb s "Infinity" then Other neg
  else
    let '(i, ilen, r1) := digits 10 s 0 0 in
    let '(m, flen, r2) :=
      match r1 with
      | String.String "." r => digits 10 r i 0
      | _ => (i, 0, r1)
      end in
    if ilen + flen =? 0 then NaN
    else
      match r2 with
      | EmptyString => of_decimal neg m (- flen)
      | String.String c r3 =>
          if Ascii.eqb c "e" || Ascii.eqb c "E" then
            let '(eneg, r4) :=
              match r3 with
              | String.String "+" r => (false, r)
              | String.String "-" r => (true, r)
              | _ => (false, r3)
              end in
            let '(x, xlen, r5) := digits 10 r4 0 0 in
            if (0 <? xlen) && String.eqb r5 "" then
              of_decimal neg m ((if eneg then - x else x) - flen)
            else NaN
          else NaN
      end.

(** [NonDecimalIntegerLiteral] after its prefix. *)
Definition radix (base : Z) (s : string) : number :=
  let '(v, len, r) := digits base s 0 0 in
  if (0 <? len) && String.eqb r "" then to_double false v 1 else NaN.

Definition string_to_number (s : string) : number :=
  match trim s with
  | EmptyString => Int 0
  | String.String "+" r => decimal false r
  | String.String "-" r => decimal true r
  | String.String "0" (String.String p r) as t =>
      if Ascii.eqb p "x" || Ascii.eqb p "X" then radix 16 r
      else if Ascii.eqb p "o" || Ascii.eqb p "O" then radix 8 r
      else if Ascii.eqb p "b" || Ascii.eqb p "B" then radix 2 r
      else decimal false t
  | t => decimal false t
  end.

Definition Number (v : value) : number :=
  match v with
  | Undefined => NaN
  | Null => Int 0
  | Bool true => Int 1
  | Bool false => Int 0
  | Num n => n
  | Str s => string_to_number s
  end.

(** [Math.max(0, x)]: [NaN] is contagious. *)
Definition max0 (x : number) : number :=
  match x with
  | Int z => Int (Z.max 0 z)
  | NaN => NaN
  | Other true => Int 0
  | Other false => Other false
  end.

(** [Math.ceil(a / b)] for integers [a] and a positive integer [b]. *)
Definition ceil_div (a b : Z) : Z := - ((- a) / b).

(** [obj.key] on a parsed form, query string or route parameter set: the
    string sent under that name, or [undefined]. *)
Definition field (m : gmap string string) (k : string) : value :=
  match m !! k with
  | Some s => Str s
  | None => Undefined
  end.

End Js.

Notation "a ||| b" := (Js.or a b) (at level 50, left associativity).

(** ** Helpers *)

(** The replacement callback of [escapeHtml]: the entity of each of the
    five special characters, the character itself otherwise.  Character
    34 is the double quote and 39 the apostrophe. *)
Definition entity (c : ascii) : string :=
  if Ascii.eqb c "&" then "&amp;"
  else if Ascii.eqb c "<" then "&lt;"
  else if Ascii.eqb c ">" then "&gt;"
  else if Ascii.eqb c "034" then "&quot;"
  else if Ascii.eqb c "039" then "&#39;"
  else String c EmptyString.

(** The global replace of [escapeHtml]: every character matched by the
    class of the five special characters is replaced by its entity. *)
Fixpoint replace_special (s : string) : string :=
  match s with
  | EmptyString => EmptyString
  | String c r => entity c +:+ replace_special r
  end.

(** [escapeHtml(s)]: the replace applied to [String(s || empty string)]. *)
Definition escapeHtml (s : Js.value) : string :=
  replace_special (Js.ToString (s ||| Js.Str "")).

(** ** The store *)

Module Store.
Import Js.

(** A table with an [INTEGER PRIMARY KEY AUTOINCREMENT] column: its rows
    in insertion order and the [sqlite_sequence] entry, the largest id
    handed out so far. *)
Record table (A : Type) := Table { rows : list A; seq : Z }.
Arguments Table {A} _ _.
Arguments rows {A} _.
Arguments seq {A} _.

(** Rows hold the columns the application writes.  [created_at] is the
    reading of the clock taken when the row is inserted (the column
    default); nullable columns are options. *)
Record user := User {
  u_id : Z; u_email : string; u_password_hash : string; u_name : string;
  u_role : string; u_instagram : option string; u_unsubscribed : Z;
  u_created_at : Z }.

Record post := Post {
  p_id : Z; p_title : string; p_author : string; p_image : string;
  p_excerpt : string; p_body : string; p_views : Z; p_created_at : Z }.

Record plan := Plan {
  pl_id : Z; pl_name : string; pl_price_usd : Z; pl_features : string }.

Record order := Order {
  o_id : Z; o_user_id : Z; o_plan_id : Z; o_ig_username : string;
  o_notes : string; o_status : string; o_created_at : Z }.

Record review := Review {
  r_id : Z; r_name : string; r_stars : Z; r_content : string;
  r_avatar : string; r_created_at : Z }.

Record ticket := Ticket {
  t_id : Z; t_user_id : option Z; t_email : string;
  t_instagram : option string; t_subject : option string;
  t_message : option string; t_status : string; t_created_at : Z }.

Record metric := Metric {
  m_id : Z; m_user_id : option Z; m_likes : option Z; m_follows : option Z;
  m_created_at : Z }.

Record target := Target {
  tg_id : Z; tg_user_id : Z; tg_niche : string; tg_competitors : string;
  tg_hashtags : string; tg_geo : string; tg_notes : string;
  tg_created_at : Z }.

(** The feature toggles and complaint fields of a status row are never
    written by the application and keep their column defaults. *)
Record status := Status { st_id : Z; st_user_id : Z }.

Record subscriber := Subscriber { s_id : Z; s_email : string; s_created_at : Z }.

Record Db := mkDb {
  users : table user;
  posts : table post;
  plans : table plan;
  orders : table order;
  reviews : table review;
  tickets : table ticket;
  metrics : table metric;
  targets : table target;
  statuses : table status;
  subscribers : table subscriber }.

Definition set_users (f : table user → table user) (d : Db) : Db :=
  mkDb (f (users d)) (posts d) (plans d) (orders d) (reviews d) (tickets d)
       (metrics d) (targets d) (statuses d) (subscribers d).
Definition set_posts (f : table post → table post) (d : Db) : Db :=
  mkDb (users d) (f (posts d)) (plans d) (orders d) (reviews d) (tickets d)
       (metrics d) (targets d) (statuses d) (subscribers d).
Definition set_orders (f : table order → table order) (d : Db) : Db :=
  mkDb (users d) (posts d) (plans d) (f (orders d)) (reviews d) (tickets d)
       (metrics d) (targets d) (statuses d) (subscribers d).
Definition set_tickets (f : table ticket → table ticket) (d : Db) : Db :=
  mkDb (users d) (posts d) (plans d) (orders d) (reviews d) (f (tickets d))
       (metrics d) (targets d) (statuses d) (subscribers d).
Definition set_metrics (f : table metric → table metric) (d : Db) : Db :=
  mkDb (users d) (posts d) (plans d) (orders d) (reviews d) (tickets d)
       (f (metrics d)) (targets d) (statuses d) (subscribers d).
Definition set_targets (f : table target → table target) (d : Db) : Db :=
  mkDb (users d) (posts d) (plans d) (orders d) (reviews d) (tickets d)
       (metrics d) (f (targets d)) (statuses d) (subscribers d).
Definition set_statuses (f : table status → table status) (d : Db) : Db :=
  mkDb (users d) (posts d) (plans d) (orders d) (reviews d) (tickets d)
       (metrics d) (targets d) (f (statuses d)) (subscribers d).
Definition set_subscribers (f : table subscriber → table subscriber) (d : Db) : Db :=
  mkDb (users d) (posts d) (plans d) (orders d) (reviews d) (tickets d)
       (metrics d) (targets d) (statuses d) (f (subscribers d)).

(** *** Statement building blocks *)

(** A number bound to a [?] that is compared with an integer column:
    [NaN] is bound as NULL, and a fraction or an infinity, bound as a
    REAL, equals no integer either.  (Bound to a value that is stored,
    such a number would be kept as a REAL, for which the rows above have
    no place: the properties of the statements that store a posted
    number are stated for integers and [NaN].) *)
Definition bind (n : number) : option Z :=
  match n with Int z => Some z | NaN | Other _ => None end.

(** [column = ?]: never true when either side is NULL. *)
Definition sql_eq (column param : option Z) : bool :=
  match column, param with
  | Some a, Some b => a =? b
  | _, _ => false
  end.

(** [INSERT]: the new id is one more than the largest id the table has
    ever held. *)
Definition max_id {A} (id : A → Z) (l : list A) : Z :=
  foldr (λ r acc, Z.max (id r) acc) 0 l.

Definition next_id {A} (id : A → Z) (t : table A) : Z :=
  Z.max (seq t) (max_id id (rows t)) + 1.

Definition insert {A} (id : A → Z) (mk : Z → A) (t : table A) : table A :=
  let i := next_id id t in Table (rows t ++ [mk i]) i.

(** [DELETE FROM t WHERE c]. *)
Definition delete_where {A} (c : A → bool) (t : table A) : table A :=
  Table (List.filter (λ r, negb (c r)) (rows t)) (seq t).

(** [UPDATE t SET ... WHERE c]. *)
Definition update_where {A} (c : A → bool) (f : A → A) (t : table A) : table A :=
  Table (List.map (λ r, if c r then f r else r) (rows t)) (seq t).

(** [SELECT * FROM t WHERE c] with [.get()] (first row) and [.all()]. *)
Definition get {A} (c : A → bool) (t : table A) : option A :=
  List.find c (rows t).
Definition all {A} (c : A → bool) (t : table A) : list A :=
  List.filter c (rows t).

(** *** The statements the handlers prepare *)

Definition user_by_id (id : number) (d : Db) : option user :=
  get (λ u, sql_eq (Some (u_id u)) (bind id)) (users d).

Definition user_by_email (e : string) (d : Db) : option user :=
  get (λ u, String.eqb (u_email u) e) (users d).

(** [SELECT id FROM users]: SQLite answers it from the index of the
    UNIQUE column [email], the smaller of the two b-trees that hold the
    ids, so the rows come in the order of their addresses, compared byte
    by byte. *)
Fixpoint insert_by_email (u : user) (l : list user) : list user :=
  match l with
  | [] => [u]
  | v :: l' =>
      if String.leb (u_email u) (u_email v) then u :: l
      else v :: insert_by_email u l'
  end.

Definition by_email (l : list user) : list user := foldr insert_by_email [] l.

Definition user_ids (d : Db) : list Z := u_id <$> by_email (rows (users d)).

(** [INSERT INTO users(...)]: fails on the UNIQUE constraint of [email]. *)
Definition insert_user (e h n r : string) (ig : option string) (now : Z)
    (d : Db) : option Db :=
  match user_by_email e d with
  | Some _ => None
  | None => Some (set_users (insert u_id (λ i, User i e h n r ig 0 now)) d)
  end.

(** What an [INSERT OR IGNORE] leaves of a table when the row is
    ignored: the id was drawn before the constraint was checked, and
    [sqlite_sequence] keeps it. *)
Definition ignored {A} (id : A → Z) (t : table A) : table A :=
  Table (rows t) (next_id id t).

(** [INSERT OR IGNORE INTO users(...)], of the seeding. *)
Definition insert_user_or_ignore (e h n r : string) (ig : option string)
    (now : Z) (d : Db) : Db :=
  match insert_user e h n r ig now d with
  | Some d' => d'
  | None => set_users (ignored u_id) d
  end.

Definition insert_plan (n : string) (price : Z) (features : string)
    (d : Db) : Db :=
  mkDb (users d) (posts d) (insert pl_id (λ i, Plan i n price features) (plans d))
       (orders d) (reviews d) (tickets d) (metrics d) (targets d)
       (statuses d) (subscribers d).

Definition insert_review (n : string) (stars : Z) (c avatar : string)
    (now : Z) (d : Db) : Db :=
  mkDb (users d) (posts d) (plans d) (orders d)
       (insert r_id (λ i, Review i n stars c avatar now) (reviews d))
       (tickets d) (metrics d) (targets d) (statuses d) (subscribers d).

Definition empty_table {A} : table A := Table [] 0.

(** The store right after the schema is created. *)
Definition empty_db : Db :=
  mkDb empty_table empty_table empty_table empty_table empty_table
       empty_table empty_table empty_table empty_table empty_table.

(** [INSERT OR IGNORE INTO statuses(user_id)]: [user_id] is UNIQUE. *)
Definition insert_status_or_ignore (uid : Z) (d : Db) : Db :=
  match get (λ s, st_user_id s =? uid) (statuses d) with
  | Some _ => set_statuses (ignored st_id) d
  | None => set_statuses (insert st_id (λ i, Status i uid)) d
  end.

(** [INSERT OR IGNORE INTO targets(...)]: no constraint can fail. *)
Definition insert_target (uid : Z) (niche comp tags geo notes : string)
    (now : Z) (d : Db) : Db :=
  set_targets (insert tg_id (λ i, Target i uid niche comp tags geo notes now)) d.

(** [INSERT (OR IGNORE) INTO metrics(user_id,likes,follows)]. *)
Definition insert_metric (uid likes follows : number) (now : Z) (d : Db) : Db :=
  set_metrics
    (insert m_id (λ i, Metric i (bind uid) (bind likes) (bind follows) now)) d.

Definition insert_post (title author image excerpt body : string) (now : Z)
    (d : Db) : Db :=
  set_posts (insert p_id (λ i, Post i title author image excerpt body 0 now)) d.

Definition insert_order (uid pid : Z) (ig notes st : string) (now : Z)
    (d : Db) : Db :=
  set_orders (insert o_id (λ i, Order i uid pid ig notes st now)) d.

Definition insert_ticket (uid : option Z) (e : string) (ig : option string)
    (subject message : option string) (now : Z) (d : Db) : Db :=
  set_tickets
    (insert t_id (λ i, Ticket i uid e ig subject message "open" now)) d.

Definition insert_subscriber (e : string) (now : Z) (d : Db) : Db :=
  set_subscribers (insert s_id (λ i, Subscriber i e now)) d.

Definition with_views (v : Z) (p : post) : post :=
  Post (p_id p) (p_title p) (p_author p) (p_image p) (p_excerpt p)
       (p_body p) v (p_created_at p).

(** [UPDATE posts SET views = views + 1 WHERE id=?] *)
Definition bump_views (id : number) (d : Db) : Db :=
  set_posts
    (update_where (λ p, sql_eq (Some (p_id p)) (bind id))
       (λ p, with_views (p_views p + 1) p)) d.

Definition post_by_id (id : number) (d : Db) : option post :=
  get (λ p, sql_eq (Some (p_id p)) (bind id)) (posts d).

Definition plan_by_id (id : number) (d : Db) : option plan :=
  get (λ p, sql_eq (Some (pl_id p)) (bind id)) (plans d).

Definition with_role (r : string) (u : user) : user :=
  User (u_id u) (u_email u) (u_password_hash u) (u_name u) r
       (u_instagram u) (u_unsubscribed u) (u_created_at u).

Definition with_unsubscribed (x : Z) (u : user) : user :=
  User (u_id u) (u_email u) (u_password_hash u) (u_name u) (u_role u)
       (u_instagram u) x (u_created_at u).

(** [UPDATE users SET role=? WHERE email=?] and [... WHERE id=?] *)
Definition set_role_by_email (r e : string) (d : Db) : Db :=
  set_users (update_where (λ u, String.eqb (u_email u) e) (with_role r)) d.
Definition set_role_by_id (r : string) (id : number) (d : Db) : Db :=
  set_users
    (update_where (λ u, sql_eq (Some (u_id u)) (bind id)) (with_role r)) d.

(** [UPDATE users SET unsubscribed=? WHERE id=?] *)
Definition set_unsubscribed (x : Z) (id : number) (d : Db) : Db :=
  set_users
    (update_where (λ u, sql_eq (Some (u_id u)) (bind id))
       (with_unsubscribed x)) d.

(** The four [DELETE] statements of the staff panel. *)
Definition delete_user (id : number) (d : Db) : Db :=
  set_users (delete_where (λ u, sql_eq (Some (u_id u)) (bind id))) d.
Definition delete_targets_of (id : number) (d : Db) : Db :=
  set_targets (delete_where (λ t, sql_eq (Some (tg_user_id t)) (bind id))) d.
Definition delete_statuses_of (id : number) (d : Db) : Db :=
  set_statuses (delete_where (λ s, sql_eq (Some (st_user_id s)) (bind id))) d.
Definition delete_metrics_of (id : number) (d : Db) : Db :=
  set_metrics (delete_where (λ m, sql_eq (m_user_id m) (bind id))) d.

(** [SELECT * FROM metrics WHERE user_id=? ORDER BY id] (rows are kept in
    id order). *)
Definition metrics_of (id : number) (d : Db) : list metric :=
  all (λ m, sql_eq (m_user_id m) (bind id)) (metrics d).

(** [SELECT COUNT( * ) c FROM t WHERE c] *)
Definition count {A} (c : A → bool) (t : table A) : Z :=
  Z.of_nat (length (all c t)).

(** [SELECT SUM(p.price_usd) s FROM orders o JOIN plans p ON p.id=o.plan_id
    WHERE o.status='paid']: the nested-loop join, then the aggregate,
    which is NULL over no rows. *)
Definition paid_join (d : Db) : list (order * plan) :=
  o ← rows (orders d);
  p ← rows (plans d);
  if (pl_id p =? o_plan_id o) && String.eqb (o_status o) "paid"
  then [(o, p)] else [].

Definition sql_sum (l : list Z) : option Z :=
  match l with
  | [] => None
  | _ => Some (foldr Z.add 0 l)
  end.

Definition sum_paid_prices (d : Db) : option Z :=
  sql_sum ((λ op, pl_price_usd op.2) <$> paid_join d).

End Store.

(** ** The application *)

Module App.
Import Js Store.

(** *** Requests, sessions and responses *)

(** The cookie session.  [failed_login] only ever receives zero or a
    successor, [login_locked_until] a timestamp or null; an absent or
    null entry is [None]. *)
Record session := Session {
  uid : option Z;
  failed_login : option N;
  login_locked_until : option Z }.

Definition empty_session : session := Session None None None.

(** A request.  Form fields, query parameters and route parameters are
    strings, as the urlencoded forms and links of the application send
    them; an absent one reads as [undefined]. *)
Record request := Request {
  accept : option string;          (* req.headers.accept *)
  referer : option string;         (* req.get('Referer') *)
  body : gmap string string;       (* req.body *)
  query : gmap string string;      (* req.query *)
  params : gmap string string;     (* req.params *)
  req_user : option user }.        (* req.user, set by the middleware *)

Definition with_user (u : option user) (r : request) : request :=
  Request (accept r) (referer r) (body r) (query r) (params r) u.

(** What a handler sends.  A rendered view is the template's name, the
    signed-in user handed to the layout and the values interpolated into
    the template, in order; the static markup is not modelled. *)
Inductive content :=
| Text (s : string)
| Html (view : string) (user : option user) (data : list string).

Inductive response :=
| Redirect (location : string)
| Send (status : Z) (c : content).

(** Store accesses, as recorded while a request is served. *)
Inductive tname :=
| Users | Posts | Plans | Orders | Reviews | Tickets | Metrics | Targets
| Statuses | Subscribers.

Inductive access := Read (t : tname) | Write (t : tname).

#[global] Instance tname_eq_dec : EqDecision tname.
Proof. solve_decision. Defined.
#[global] Instance access_eq_dec : EqDecision access.
Proof. solve_decision. Defined.

(** *** The handler monad *)

(** The state a handler acts on: the store, the session, the response
    (present once the headers are sent), the log of store accesses and
    the number of clock readings taken so far. *)
Record world := World {
  db : Db;
  sess : session;
  res : option response;
  log : list access;
  ticks : nat }.

Inductive outcome (A : Type) := Ok (a : A) | Throw.
Arguments Ok {A} _.
Arguments Throw {A}.

(** A computation reads the clock (its [k]-th reading during the request
    is [clock k]), transforms the world and returns or throws. *)
Definition M (A : Type) : Type := (nat → Z) → world → outcome A * world.

#[global] Instance M_ret : MRet M := λ A a _ w, (Ok a, w).
#[global] Instance M_bind : MBind M := λ A B f m clock w,
  match m clock w with
  | (Ok a, w') => f a clock w'
  | (Throw, w') => (Throw, w')
  end.

Definition throw {A} : M A := λ _ w, (Throw, w).

(** [try { m } catch(e) { h }]: what [m] did before throwing stays done. *)
Definition try_catch {A} (m h : M A) : M A := λ clock w,
  match m clock w with
  | (Ok a, w') => (Ok a, w')
  | (Throw, w') => h clock w'
  end.

(** [Date.now()], and the [datetime('now')] default of an insert. *)
Definition tick : M Z := λ clock w,
  (Ok (clock (ticks w)),
   World (db w) (sess w) (res w) (log w) (S (ticks w))).

(** Running a prepared statement that reads, writes, or may fail. *)
Definition select {A} (t : tname) (f : Db → A) : M A := λ _ w,
  (Ok (f (db w)),
   World (db w) (sess w) (res w) (log w ++ [Read t]) (ticks w)).

(** A statement that joins two tables reads both. *)
Definition select2 {A} (t1 t2 : tname) (f : Db → A) : M A := λ _ w,
  (Ok (f (db w)),
   World (db w) (sess w) (res w) (log w ++ [Read t1; Read t2]) (ticks w)).

Definition exec (t : tname) (f : Db → Db) : M unit := λ _ w,
  (Ok (), World (f (db w)) (sess w) (res w) (log w ++ [Write t]) (ticks w)).

Definition exec_try (t : tname) (f : Db → option Db) : M unit := λ _ w,
  match f (db w) with
  | Some d => (Ok (), World d (sess w) (res w) (log w ++ [Write t]) (ticks w))
  | None => (Throw, World (db w) (sess w) (res w) (log w ++ [Write t]) (ticks w))
  end.

Definition get_session : M session := λ _ w, (Ok (sess w), w).
Definition put_session (s : session) : M unit := λ _ w,
  (Ok (), World (db w) s (res w) (log w) (ticks w)).

(** [res.headersSent], and sending: a second send throws. *)
Definition headersSent : M bool := λ _ w, (Ok (bool_decide (is_Some (res w))), w).

Definition respond (r : response) : M unit := λ _ w,
  match res w with
  | None => (Ok (), World (db w) (sess w) (Some r) (log w) (ticks w))
  | Some _ => (Throw, w)
  end.

Definition redirect (loc : string) : M unit := respond (Redirect loc).
Definition send (c : content) : M unit := respond (Send 200 c).
Definition send_status (code : Z) (c : content) : M unit := respond (Send code c).

(** A form field bound to a TEXT parameter: the string, and NULL for a
    field that is [undefined]. *)
Definition text (v : value) : option string :=
  match v with
  | Str s => Some s
  | _ => None
  end.

(** A statement under an environment in which statements can fail for a
    reason outside the store (a locked database, a full disk):
    [failing k] says that the [k]-th statement of the handler throws
    instead of running. *)
Definition attempt {A} (failing : nat → bool) (k : nat) (m : M A) : M A :=
  if failing k then throw else m.

(** *** Views *)

(** The error box of the login and signup forms. *)
Definition error_box (error : value) : list string :=
  if truthy error then [escapeHtml error] else [].

Definition LoginView (user : option user) (error : value) : content :=
  Html "LoginView" user (error_box error).

Definition SignupView (user : option user) (error : value) : content :=
  Html "SignupView" user (error_box error).

(** [BlogView]: the title (for the layout and the heading), the author,
    the creation date, the image when there is one, and the body handed
    to the markdown renderer. *)
Definition BlogView (user : option user) (p : post) : content :=
  Html "BlogView" user
    [ escapeHtml (Str (p_title p));
      escapeHtml (Str (p_title p));
      escapeHtml (Str (p_author p) ||| Str "Unknown");
      pretty (p_created_at p);
      if truthy (Str (p_image p)) then escapeHtml (Str (p_image p)) else "";
      ToString (Str (p_body p) ||| Str "") ].

(** [currency(v)] in the default currency, for a whole amount. *)
Definition currency (v : Z) : string := "$" +:+ pretty v.

Record stats := Stats {
  s_users : Z;
  s_pendingOrders : Z;
  s_declinedCount : Z;
  s_subscribers : Z;
  s_totalAccounting : Z }.

(** The dashboard's figures; the lists of recent posts and orders below
    them are not itemised. *)
Definition AdminDashboardView (me : user) (s : stats) : content :=
  Html "AdminDashboardView" (Some me)
    [ escapeHtml (Str (u_email me));
      currency (s_totalAccounting s);
      pretty (s_users s);
      pretty (s_pendingOrders s);
      pretty (s_declinedCount s);
      pretty (s_subscribers s) ].

(** Pages no property below depends on: the data they list is left out. *)
Definition Page (view : string) (user : option user) : content :=
  Html view user [].

(** *** Authentication and the role gate *)

(** [authed(req)]: the user row of the session's uid, when it is truthy. *)
Definition authed : M (option user) :=
  s ← get_session;
  match uid s with
  | Some i =>
      if truthy (Num (Int i)) then select Users (user_by_id (Int i))
      else mret None
  | None => mret None
  end.

(** The middleware mounted before the routes: [req.user = authed(req)]. *)
Definition middleware (req : request) : M request :=
  u ← authed;
  mret (with_user u req).

(** What [requireRole] returns: the principal, or the response object it
    has just used to reject the request. *)
Inductive gate := Principal (u : user) | Rejected.

Definition accepts_html (req : request) : bool :=
  match accept req with
  | Some a => truthy (Str a) && includes a "text/html"
  | None => false
  end.

Definition requireRole (req : request) (roles : list string) : M gate :=
  u ← authed;
  match u with
  | Some u' =>
      if bool_decide (u_role u' ∈ roles) then mret (Principal u')
      else if accepts_html req then redirect "/login";; mret Rejected
      else send_status 403 (Text "Forbidden");; mret Rejected
  | None =>
      if accepts_html req then redirect "/login";; mret Rejected
      else send_status 403 (Text "Forbidden");; mret Rejected
  end.

(** The first line of every admin and staff handler:
    [const me = requireRole(req,res,roles); if (!me || res.headersSent) return;]
    Both results of [requireRole] are truthy objects, so the handler
    stops exactly when the headers are sent.  The response object is
    returned only after it has sent them, hence the last case is never
    reached. *)
Definition guarded (req : request) (roles : list string)
    (k : user → M unit) : M unit :=
  me ← requireRole req roles;
  sent ← headersSent;
  if (sent : bool) then mret ()
  else match me with
       | Principal u => k u
       | Rejected => throw
       end.

Section Handlers.
(** The hexadecimal SHA-256 digest of a string. *)
Context (digest : string → string).

Definition sha256 (s : value) : string := digest (ToString s).

(** *** Public routes *)

Definition get_home (req : request) : M unit :=
  _ ← select Plans (λ d, rows (plans d));
  _ ← select Reviews (λ d, rows (reviews d));
  _ ← select Posts (λ d, rows (posts d));
  send (Page "HomeView" (req_user req)).

Definition get_blogs (req : request) : M unit :=
  _ ← select Posts (λ d, rows (posts d));
  send (Page "BlogsView" (req_user req)).

Definition get_blog (req : request) : M unit :=
  let id := Number (field (params req) "id") in
  exec Posts (bump_views id);;
  post ← select Posts (post_by_id id);
  match post with
  | None => send_status 404 (Text "Not found")
  | Some p => send (BlogView (req_user req) p)
  end.

Definition get_login (req : request) : M unit :=
  send (LoginView (req_user req) Undefined).

Definition login_success (row : user) : M unit :=
  s ← get_session;
  put_session (Session (uid s) (Some 0%N) (login_locked_until s));;
  s ← get_session;
  put_session (Session (uid s) (failed_login s) None);;
  s ← get_session;
  put_session (Session (Some (u_id row)) (failed_login s) (login_locked_until s));;
  if String.eqb (u_role row) "admin" then redirect "/dashboard"
  else if String.eqb (u_role row) "staff" then redirect "/staff"
  else redirect "/".

Definition login_failure (req : request) : M unit :=
  s ← get_session;
  let n := (default 0 (failed_login s) + 1)%N in
  put_session (Session (uid s) (Some n) (login_locked_until s));;
  (if (6 <=? n)%N then
     now ← tick;
     s ← get_session;
     put_session (Session (uid s) (failed_login s) (Some (now + 5 * 60 * 1000)))
   else mret ());;
  send (LoginView (req_user req) (Str "Invalid credentials")).

Definition login_check (req : request) : M unit :=
  let email := field (body req) "email" in
  let password := field (body req) "password" in
  row ← select Users (user_by_email (toLowerCase (ToString (email ||| Str ""))));
  match row with
  | Some r =>
      if String.eqb (u_password_hash r) (sha256 password)
      then login_success r
      else login_failure req
  | None => login_failure req
  end.

Definition too_many (waitSec : Z) : string :=
  "Too many attempts — try again in " +:+ pretty waitSec +:+ " seconds.".

Definition post_login (req : request) : M unit :=
  s ← get_session;
  match login_locked_until s with
  | Some lockedUntil =>
      if truthy (Num (Int lockedUntil)) then
        now ← tick;
        if now <? lockedUntil then
          now' ← tick;
          let waitSec := ceil_div (lockedUntil - now') 1000 in
          send (LoginView (req_user req) (Str (too_many waitSec)))
        else login_check req
      else login_check req
  | None => login_check req
  end.

Definition get_logout (req : request) : M unit :=
  put_session empty_session;;
  redirect "/".

Definition get_signup (req : request) : M unit :=
  send (SignupView (req_user req) Undefined).

(** POST /signup.  The five statements run one after the other, outside
    a transaction, inside one [try] whose [catch] answers that the address
    exists, whatever was thrown.  Since the property stated for this
    handler is about what a failure leaves behind, its statements are
    written under [attempt], numbered from 0: [post_signup_env failing]
    is the handler in an environment where the statements [failing] names
    fail, and [post_signup] the handler when none does. *)
Definition post_signup_env (failing : nat → bool) (req : request) : M unit :=
  let name := field (body req) "name" in
  let email := field (body req) "email" in
  let instagram := field (body req) "instagram" in
  let password := field (body req) "password" in
  if negb (truthy email) || negb (truthy password) then
    send (SignupView (req_user req) (Str "Email & password required"))
  else
    try_catch
      (now ← tick;
       attempt failing 0
         (exec_try Users
            (insert_user (toLowerCase (ToString email)) (sha256 password)
               (ToString (name ||| Str "")) "user"
               (Some (ToString (instagram ||| Str ""))) now));;
       row ← attempt failing 1
               (select Users (user_by_email (toLowerCase (ToString email))));
       match row with
       | None => throw
       | Some r =>
           let uid' := u_id r in
           attempt failing 2 (exec Statuses (insert_status_or_ignore uid'));;
           now ← tick;
           attempt failing 3
             (exec Targets (insert_target uid' "" "" "" "" "" now));;
           now ← tick;
           attempt failing 4
             (exec Metrics (insert_metric (Int uid') (Int 10) (Int 8) now));;
           s ← get_session;
           put_session (Session (Some uid') (failed_login s) (login_locked_until s));;
           redirect "/"
       end)
      (send (SignupView (req_user req) (Str "Email already exists"))).

Definition post_signup : request → M unit := post_signup_env (λ _, false).

Definition get_contact (req : request) : M unit :=
  send (Page "Contact" (req_user req)).

Definition post_contact_submit (req : request) : M unit :=
  let name := field (body req) "name" in
  let email := field (body req) "email" in
  let instagram := field (body req) "instagram" in
  let message := field (body req) "message" in
  now ← tick;
  exec Tickets
    (insert_ticket None (ToString (email ||| Str ""))
       (Some (ToString (instagram ||| Str "")))
       (Some ("Contact: " +:+ ToString (name ||| Str "Guest")))
       (Some (ToString (message ||| Str ""))) now);;
  redirect "/contact".

Definition referer_or_home (req : request) : string :=
  match referer req with
  | Some r => ToString (Str r ||| Str "/")
  | None => "/"
  end.

Definition post_ticket (req : request) : M unit :=
  match req_user req with
  | None => send_status 403 (Text "Forbidden")
  | Some u =>
      let subject := field (body req) "subject" in
      let message := field (body req) "message" in
      now ← tick;
      exec Tickets
        (insert_ticket (Some (u_id u)) (u_email u) (u_instagram u)
           (text subject) (text message) now);;
      redirect (referer_or_home req)
  end.

Definition post_subscribe (req : request) : M unit :=
  let email := trim (ToString (field (body req) "email" ||| Str "")) in
  (if truthy (Str email) then
     try_catch (now ← tick; exec Subscribers (insert_subscriber email now))
               (mret ())
   else mret ());;
  redirect (referer_or_home req).

Definition get_pricing (req : request) : M unit :=
  _ ← select Plans (λ d, rows (plans d));
  send (Page "Pricing" (req_user req)).

Definition get_checkout (req : request) : M unit :=
  plan ← select Plans (plan_by_id (Number (field (query req) "plan_id")));
  match plan with
  | None => send_status 404 (Text "Plan not found")
  | Some p =>
      match req_user req with
      | None => redirect "/login"
      | Some u =>
          send (Html "Checkout" (Some u)
                  [escapeHtml (Str (pl_name p)); currency (pl_price_usd p)])
      end
  end.

Definition post_checkout (req : request) : M unit :=
  match req_user req with
  | None => redirect "/login"
  | Some u =>
      plan ← select Plans (plan_by_id (Number (field (query req) "plan_id")));
      match plan with
      | None => send_status 404 (Text "Plan not found")
      | Some p =>
          now ← tick;
          exec Orders
            (insert_order (u_id u) (pl_id p)
               (ToString (field (body req) "ig_username" ||| Str ""))
               (ToString (field (body req) "notes" ||| Str ""))
               "paid" now);;
          redirect (if String.eqb (u_role u) "admin" then "/dashboard" else "/")
      end
  end.

(** *** Admin routes *)

(** The five figures of the dashboard, one statement each.  The last
    one is [SUM(...) || 0]: a NULL or zero sum reads as zero. *)
Definition dashboard_stats : M stats :=
  users ← select Users (λ d, count (λ _, true) (Store.users d));
  pendingOrders ← select Orders
    (λ d, count (λ o, String.eqb (o_status o) "pending") (orders d));
  declinedCount ← select Orders
    (λ d, count (λ o, String.eqb (o_status o) "declined"
                      || String.eqb (o_status o) "cancelled") (orders d));
  subscribers ← select Subscribers (λ d, count (λ _, true) (Store.subscribers d));
  s ← select2 Orders Plans sum_paid_prices;
  let totalAccounting :=
    match s with
    | Some z => if truthy (Num (Int z)) then z else 0
    | None => 0
    end in
  mret (Stats users pendingOrders declinedCount subscribers totalAccounting).

Definition get_dashboard (req : request) : M unit :=
  guarded req ["admin"] (λ me,
    stats ← dashboard_stats;
    _ ← select Posts (λ d, rows (posts d));
    _ ← select2 Orders Plans (λ d, rows (orders d));
    send (AdminDashboardView me stats)).

Definition post_admin_create_post (req : request) : M unit :=
  guarded req ["admin"] (λ me,
    let title := field (body req) "title" in
    let image := field (body req) "image" in
    let excerpt := field (body req) "excerpt" in
    let body' := field (body req) "body" in
    if negb (truthy title) then redirect "/dashboard"
    else
      now ← tick;
      exec Posts
        (insert_post (ToString title)
           (ToString (Str (u_name me) ||| Str (u_email me)))
           (ToString (image ||| Str "")) (ToString (excerpt ||| Str ""))
           (ToString (body' ||| Str "")) now);;
      redirect "/dashboard").

Definition post_admin_assign_role (req : request) : M unit :=
  guarded req ["admin"] (λ me,
    let email := toLowerCase (ToString (field (body req) "email" ||| Str "")) in
    let role := ToString (field (body req) "role" ||| Str "user") in
    if negb (truthy (Str email)) then redirect "/dashboard"
    else
      exec Users (set_role_by_email role email);;
      redirect "/dashboard").

(** *** Staff routes *)

Definition get_staff (req : request) : M unit :=
  guarded req ["staff"; "admin"] (λ me,
    _ ← select Users (λ d, rows (Store.users d));
    send (Page "StaffPanelView" (Some me))).

Definition get_staff_user_detail (req : request) : M unit :=
  guarded req ["staff"; "admin"] (λ me,
    let id := Number (field (params req) "id") in
    user ← select Users (user_by_id id);
    match user with
    | None => send (Text "User not found")
    | Some u =>
        _ ← select Metrics (metrics_of id);
        send (Html "user_detail" None
                [escapeHtml (Str (u_email u)); escapeHtml (Str (u_role u))])
    end).

Definition post_staff_add (req : request) : M unit :=
  guarded req ["staff"; "admin"] (λ me,
    let email := field (body req) "email" in
    let password := field (body req) "password" in
    let name := field (body req) "name" in
    if negb (truthy email) || negb (truthy password) then redirect "/staff"
    else
      try_catch
        (now ← tick;
         exec_try Users
           (insert_user (toLowerCase (ToString email)) (sha256 password)
              (ToString (name ||| Str "")) "staff" None now);;
         row ← select Users (user_by_email (toLowerCase (ToString email)));
         match row with
         | None => throw
         | Some r =>
             exec Statuses (insert_status_or_ignore (u_id r));;
             now ← tick;
             exec Metrics (insert_metric (Int (u_id r)) (Int 0) (Int 0) now)
         end)
        (mret ());;
      redirect "/staff").

Definition post_staff_promote (req : request) : M unit :=
  guarded req ["staff"; "admin"] (λ me,
    let id := Number (field (body req) "id") in
    exec Users (set_role_by_id "staff" id);;
    redirect "/staff").

Definition post_staff_demote (req : request) : M unit :=
  guarded req ["staff"; "admin"] (λ me,
    let id := Number (field (body req) "id") in
    exec Users (set_role_by_id "user" id);;
    redirect "/staff").

Definition post_staff_delete (req : request) : M unit :=
  guarded req ["staff"; "admin"] (λ me,
    let id := Number (field (body req) "id") in
    exec Users (delete_user id);;
    exec Targets (delete_targets_of id);;
    exec Statuses (delete_statuses_of id);;
    exec Metrics (delete_metrics_of id);;
    redirect "/staff").

Definition post_staff_metrics (req : request) : M unit :=
  guarded req ["staff"; "admin"] (λ me,
    let user_id := Number (field (body req) "user_id") in
    let add_likes := max0 (Number (field (body req) "add_likes" ||| Num (Int 0))) in
    let add_follows := max0 (Number (field (body req) "add_follows" ||| Num (Int 0))) in
    if negb (truthy (Num user_id)) then redirect "/staff"
    else
      now ← tick;
      exec Metrics (insert_metric user_id add_likes add_follows now);;
      redirect "/staff").

Definition post_staff_toggle_unsubscribe (req : request) : M unit :=
  guarded req ["staff"; "admin"] (λ me,
    let id := Number (field (body req) "id") in
    u ← select Users (user_by_id id);
    match u with
    | Some u' =>
        exec Users
          (set_unsubscribed
             (if truthy (Num (Int (u_unsubscribed u'))) then 0 else 1) id)
    | None => mret ()
    end;;
    redirect "/staff").

(** The seeding loop of the performance pages:
    [for (let i=0;i<6;i++) insert(userId, 10+i*5, 8+i*3)]. *)
Fixpoint seed_metrics (userId : number) (i : Z) (n : nat) : M unit :=
  match n with
  | O => mret ()
  | S n' =>
      now ← tick;
      exec Metrics
        (insert_metric userId (Int (10 + i * 5)) (Int (8 + i * 3)) now);;
      seed_metrics userId (i + 1) n'
  end.

(** [JSON.stringify] of a numeric column value. *)
Definition json_number (x : option Z) : string :=
  match x with
  | Some z => pretty z
  | None => "null"
  end.

Definition performance (me : user) (userId : number) : M unit :=
  rows ← select Metrics (metrics_of userId);
  (if bool_decide (rows = []) then seed_metrics userId 0 6 else mret ());;
  rows2 ← select Metrics (metrics_of userId);
  user ← select Users (user_by_id userId);
  match user with
  | None => throw   (* [user.email] of undefined *)
  | Some u =>
      send (Html "Performance" (Some me)
              (escapeHtml (Str (u_email u))
               :: (json_number ∘ m_likes <$> rows2)
               ++ (json_number ∘ m_follows <$> rows2)))
  end.

Definition get_performance (req : request) : M unit :=
  guarded req ["staff"; "admin"] (λ me, performance me (Int (u_id me))).

Definition get_performance_user (req : request) : M unit :=
  guarded req ["staff"; "admin"] (λ me,
    performance me (Number (field (params req) "userId" ||| Num (Int (u_id me))))).

(** *** Static pages *)

Definition get_static (name : string) (req : request) : M unit :=
  send (Page name (req_user req)).

Definition get_reviews (req : request) : M unit :=
  _ ← select Reviews (λ d, rows (reviews d));
  send (Page "Reviews" (req_user req)).

(** *** Start-up *)

(** [JSON.stringify] of an array of strings that need no escaping. *)
Definition JSON_stringify (l : list string) : string :=
  let q := String.String "034" EmptyString in
  "[" +:+ String.concat "," ((λ x, q +:+ x +:+ q) <$> l) +:+ "]".

Definition seed_users : M unit :=
  now ← tick;
  exec Users (insert_user_or_ignore "admin@smm.local" (sha256 (Str "admin123"))
                "Admin" "admin" (Some "@admin") now);;
  now ← tick;
  exec Users (insert_user_or_ignore "staff@smm.local" (sha256 (Str "staff123"))
                "Team Member" "staff" (Some "@staff") now);;
  now ← tick;
  exec Users (insert_user_or_ignore "user@smm.local" (sha256 (Str "user123"))
                "Demo User" "user" (Some "@demouser") now).

Definition seed_plans : M unit :=
  c ← select Plans (λ d, count (λ _, true) (plans d));
  if truthy (Num (Int c)) then mret ()
  else
    exec Plans (insert_plan "Kickoff Plan" 49
      (JSON_stringify ["600 - 800+ Real followers"; "Growth pods network";
         "Guaranteed results"; "Real-time growth analytics";
         "24/7 Live support"]));;
    exec Plans (insert_plan "Growth Plan" 69
      (JSON_stringify ["800 - 1,200+ Real & Organic followers";
         "Growth pods network"; "Targeted AI growth";
         "Account and hashtag targeting"; "Guaranteed results";
         "Real-time growth analytics"; "24/7 Live support"]));;
    exec Plans (insert_plan "Advanced Plan" 129
      (JSON_stringify ["1,200 - 1,600+ Real & Organic followers";
         "Growth pods network"; "Targeted AI growth";
         "Account and hashtag targeting"; "10x your engagement";
         "Turn followers into conversions"; "Guaranteed results"])).

Definition seed_post (title author image excerpt body' : string) : M unit :=
  now ← tick;
  exec Posts (insert_post title author image excerpt body' now).

Definition seed_posts : M unit :=
  c ← select Posts (λ d, count (λ _, true) (posts d));
  if truthy (Num (Int c)) then mret ()
  else
    seed_post "AI-Powered Instagram Growth: The Future is Now" "Sarah Chen"
      "https://images.unsplash.com/photo-1677442136019-21780ecad995?w=1200"
      "Discover how AI is revolutionizing Instagram marketing with predictive analytics and automated optimization."
      "# The AI Revolution

AI optimizes hashtags, posting time and audience segments.";;
    seed_post "From 1K to 100K: Real Growth Stories" "Marcus Rodriguez"
      "https://images.unsplash.com/photo-1611224923853-80b023f02d71?w=1200"
      "Real case studies of accounts that achieved massive organic growth using our strategies."
      "# Case Studies

Fashion brand scaled from 1.2k to 95k followers.";;
    seed_post "Instagram Algorithm Mastery Guide 2024" "Emma Johnson"
      "https://images.unsplash.com/photo-1542744173-8e7e53415bb0?w=1200"
      "Inside look at Instagram's algorithm and how to make it work for your growth."
      "# Algorithm Guide

Engagement, consistency, reels — the pillars.";;
    seed_post "Turning Followers into Customers: Conversion Strategies" "David Park"
      "https://images.unsplash.com/photo-1556761175-b413da4baf72?w=1200"
      "Learn how to transform your Instagram following into a profitable customer base."
      "# Conversion Strategies

Story CTAs, product tags & landing pages.";;
    seed_post "Influencer Marketing: Partnership Strategies" "Lisa Thompson"
      "https://images.unsplash.com/photo-1556742049-0cfed4f6a45d?w=1200"
      "Building authentic partnerships that drive real results."
      "# Partnerships

Micro-influencers often outperform macros on ROI.";;
    seed_post "Reels That Go Viral: Creative Playbook" "Hannah Lee"
      "https://images.unsplash.com/photo-1504593811423-6dd665756598?w=1200"
      "Structure, sound, and hooks that make Reels perform."
      "# Reels Playbook

Hook — Visual — CTA: Repeatable pattern for virality.".

Definition seed_review (n : string) (stars : Z) (c avatar : string) : M unit :=
  now ← tick;
  exec Reviews (insert_review n stars c avatar now).

Definition seed_reviews : M unit :=
  c ← select Reviews (λ d, count (λ _, true) (reviews d));
  if truthy (Num (Int c)) then mret ()
  else
    seed_review "Alexandra Johnson" 5
      "SMM Matrix transformed our Instagram presence: 2K → 15K followers in 3 months."
      "https://i.pravatar.cc/150?img=11";;
    seed_review "Michael Chen" 5
      "Great hashtag strategy and timing. Reach up 400% in month 1."
      "https://i.pravatar.cc/150?img=12";;
    seed_review "Sarah Williams" 5
      "Professional service with real results and responsive support."
      "https://i.pravatar.cc/150?img=13";;
    seed_review "David Rodriguez" 4
      "Good communication and steady organic growth."
      "https://i.pravatar.cc/150?img=14";;
    seed_review "Emily Davis" 5
      "My travel blog blew up — 25K followers in 4 months!"
      "https://i.pravatar.cc/150?img=15";;
    seed_review "Robert Kim" 5
      "Dedicated manager and tailored strategy — highly recommended."
      "https://i.pravatar.cc/150?img=16".

(** [random k n] stands for [Math.floor(Math.random()*n)] at the
    [k]-th draw. *)
Fixpoint ensure_rows (random : nat → Z → Z) (k : nat) (ids : list Z) : M unit :=
  match ids with
  | [] => mret ()
  | id :: rest =>
      exec Statuses (insert_status_or_ignore id);;
      now ← tick;
      exec Targets (insert_target id "Fitness & Wellness" "@nike @adidas"
                      "#fitness #workout" "United States"
                      "Target: 18-35 health conscious" now);;
      now ← tick;
      exec Metrics (insert_metric (Int id) (Int (random k 200 + 50))
                      (Int (random (S k) 100 + 20)) now);;
      ensure_rows random (S (S k)) rest
  end.

(** [initDb()], run on every start, after the tables are created. *)
Definition initDb (random : nat → Z → Z) : M unit :=
  seed_users;;
  seed_plans;;
  seed_posts;;
  seed_reviews;;
  ids ← select Users user_ids;
  ensure_rows random 0 ids.

(** The sibling revision, the one that carries the [/checkout] routes,
    seeds other plans; the rest of its start-up is the same. *)
Definition seed_plans_sibling : M unit :=
  c ← select Plans (λ d, count (λ _, true) (plans d));
  if truthy (Num (Int c)) then mret ()
  else
    exec Plans (insert_plan "Kickoff" 49
      (JSON_stringify ["600–800+ real followers"; "Growth pods network";
         "Guaranteed results"; "Real-time analytics"; "24/7 Live support";
         "Hashtag optimization"]));;
    exec Plans (insert_plan "Growth" 89
      (JSON_stringify ["800–1,200+ real followers";
         "Hashtag & account targeting"; "Targeted AI growth";
         "Real-time analytics"; "Priority support"; "Content strategy"]));;
    exec Plans (insert_plan "Advanced" 149
      (JSON_stringify ["1,200–1,600+ real followers"; "10x engagement tools";
         "Turn followers into conversions"; "Real-time analytics";
         "Priority support"; "Personal account manager";
         "Advanced targeting"])).

Definition initDb_sibling (random : nat → Z → Z) : M unit :=
  seed_users;;
  seed_plans_sibling;;
  seed_posts;;
  seed_reviews;;
  ids ← select Users user_ids;
  ensure_rows random 0 ids.

(** *** Routing *)

Inductive route :=
| GET_home | GET_blogs | GET_blog | GET_login | POST_login | GET_logout
| GET_signup | POST_signup | GET_contact | POST_contact_submit
| POST_ticket | POST_subscribe | GET_pricing | GET_checkout
| POST_checkout | GET_dashboard | POST_admin_create_post
| POST_admin_assign_role | GET_staff | GET_staff_user_detail
| POST_staff_add | POST_staff_promote | POST_staff_demote
| POST_staff_delete | POST_staff_metrics | POST_staff_toggle_unsubscribe
| GET_performance | GET_performance_user | GET_reviews
| GET_static (name : string).

Definition handler (r : route) : request → M unit :=
  match r with
  | GET_home => get_home
  | GET_blogs => get_blogs
  | GET_blog => get_blog
  | GET_login => get_login
  | POST_login => post_login
  | GET_logout => get_logout
  | GET_signup => get_signup
  | POST_signup => post_signup
  | GET_contact => get_contact
  | POST_contact_submit => post_contact_submit
  | POST_ticket => post_ticket
  | POST_subscribe => post_subscribe
  | GET_pricing => get_pricing
  | GET_checkout => get_checkout
  | POST_checkout => post_checkout
  | GET_dashboard => get_dashboard
  | POST_admin_create_post => post_admin_create_post
  | POST_admin_assign_role => post_admin_assign_role
  | GET_staff => get_staff
  | GET_staff_user_detail => get_staff_user_detail
  | POST_staff_add => post_staff_add
  | POST_staff_promote => post_staff_promote
  | POST_staff_demote => post_staff_demote
  | POST_staff_delete => post_staff_delete
  | POST_staff_metrics => post_staff_metrics
  | POST_staff_toggle_unsubscribe => post_staff_toggle_unsubscribe
  | GET_performance => get_performance
  | GET_performance_user => get_performance_user
  | GET_reviews => get_reviews
  | GET_static name => get_static name
  end.

(** One request: the middleware, then the route's handler. *)
Definition serve (r : route) (req : request) : M unit :=
  req' ← middleware req;
  handler r req'.

(** What serving a request leaves behind.  An exception that reaches
    the framework is answered with a 500 when nothing was sent. *)
Record result := Result {
  db_after : Db;
  session_after : session;
  response_of : option response;
  accesses : list access }.

Definition finish (x : outcome unit * world) : result :=
  let w := x.2 in
  Result (db w) (sess w)
    (match res w, x.1 with
     | Some r, _ => Some r
     | None, Throw => Some (Send 500 (Text "Internal Server Error"))
     | None, Ok _ => None
     end)
    (log w).

Definition start (d : Db) (s : session) : world := World d s None [] 0.

Definition run (r : route) (req : request) (clock : nat → Z)
    (d : Db) (s : session) : result :=
  finish (serve r req clock (start d s)).

(** POST /signup served in an environment where the statements
    [failing] names fail; with none failing this is [run POST_signup]. *)
Definition run_signup (failing : nat → bool) (req : request)
    (clock : nat → Z) (d : Db) (s : session) : result :=
  finish ((req' ← middleware req; post_signup_env failing req') clock
            (start d s)).

End Handlers.

Definition reads_of (t : tname) (l : list access) : list access :=
  List.filter (λ a, bool_decide (a = Read t)) l.

Definition writes_in (l : list access) : list access :=
  List.filter (λ a, match a with Write _ => true | Read _ => false end) l.

End App.

Import Js Store App.

(** Statements and conversions stay folded while a handler is unfolded. *)
Arguments user_by_id : simpl never.
Arguments user_by_email : simpl never.
Arguments insert_user : simpl never.
Arguments insert_user_or_ignore : simpl never.
Arguments insert_status_or_ignore : simpl never.
Arguments insert_target : simpl never.
Arguments insert_metric : simpl never.
Arguments insert_post : simpl never.
Arguments insert_order : simpl never.
Arguments insert_ticket : simpl never.
Arguments insert_subscriber : simpl never.
Arguments insert_plan : simpl never.
Arguments insert_review : simpl never.
Arguments bump_views : simpl never.
Arguments post_by_id : simpl never.
Arguments plan_by_id : simpl never.
Arguments set_role_by_email : simpl never.
Arguments set_role_by_id : simpl never.
Arguments set_unsubscribed : simpl never.
Arguments delete_user : simpl never.
Arguments delete_targets_of : simpl never.
Arguments delete_statuses_of : simpl never.
Arguments delete_metrics_of : simpl never.
Arguments metrics_of : simpl never.
Arguments sum_paid_prices : simpl never.
Arguments count : simpl never.
Arguments Number : simpl never.
Arguments ToString : simpl never.
Arguments toLowerCase : simpl never.
Arguments trim : simpl never.
Arguments field : simpl never.
Arguments truthy : simpl never.
Arguments Js.or : simpl never.
Arguments escapeHtml : simpl never.
Arguments ceil_div : simpl never.
Arguments pretty : simpl never.

(** ** Specification vocabulary *)

(** The principal a session designates in a store: what [authed] finds. *)
Definition principal (d : Db) (s : session) : option user :=
  match uid s with
  | Some i => if truthy (Num (Int i)) then user_by_id (Int i) d else None
  | None => None
  end.

(** The session designates a user whose role is in the allow-list. *)
Definition authorized (d : Db) (s : session) (roles : list string) : bool :=
  match principal d s with
  | Some u => bool_decide (u_role u ∈ roles)
  | None => false
  end.

(** The allow-list each guarded route hands to [requireRole]. *)
Definition required_roles (r : route) : option (list string) :=
  match r with
  | GET_dashboard | POST_admin_create_post | POST_admin_assign_role =>
      Some ["admin"]
  | GET_staff | GET_staff_user_detail | POST_staff_add | POST_staff_promote
  | POST_staff_demote | POST_staff_delete | POST_staff_metrics
  | POST_staff_toggle_unsubscribe | GET_performance | GET_performance_user =>
      Some ["staff"; "admin"]
  | _ => None
  end.

(** The answer of the role gate to a request it rejects. *)
Definition rejection (req : request) : response :=
  if accepts_html req then Redirect "/login" else Send 403 (Text "Forbidden").

(** The store reads of the middleware, which looks the session's user up
    whenever the session carries a uid. *)
Definition authed_log (s : session) : list access :=
  match uid s with
  | Some i => if truthy (Num (Int i)) then [Read Users] else []
  | None => []
  end.

(** The price of the plan an order refers to (nothing when no such plan
    exists), the orders whose status is the string paid, and the sum of
    the plan prices over them. *)
Definition price_of (d : Db) (o : order) : Z :=
  match plan_by_id (Int (o_plan_id o)) d with
  | Some p => pl_price_usd p
  | None => 0
  end.

Definition paid_orders (d : Db) : list order :=
  filter (λ o, o_status o = "paid") (rows (orders d)).

Definition sum_list (l : list Z) : Z := foldr Z.add 0 l.

Definition paid_total (d : Db) : Z := sum_list (price_of d <$> paid_orders d).

(** A store [d'] extends the view counters of [d]: every post of [d] is
    still there, with a counter at least as large. *)
Definition views_grow (d d' : Db) : Prop :=
  ∀ p, p ∈ rows (posts d) →
    ∃ p', p' ∈ rows (posts d') ∧ p_id p' = p_id p ∧ p_views p ≤ p_views p'.

(** A computation never takes a store outside a relation [R]. *)
Definition keeps (R : Db → Db → Prop) {A} (m : M A) : Prop :=
  ∀ clock w, R (db w) (db (m clock w).2).

(** The rows the join produces for one order. *)
Definition join_order (ps : list plan) (o : order) : list (order * plan) :=
  p ← ps;
  if (pl_id p =? o_plan_id o) && String.eqb (o_status o) "paid"
  then [(o, p)] else [].

Arguments principal : simpl never.
Arguments authed_log : simpl never.

(** The characters [escapeHtml] replaces and what follows the ampersand in
    each entity. *)
Definition specials : list ascii := ["&"; "<"; ">"; "034"; "039"]%char.
Definition entity_tails : list string := ["amp;"; "lt;"; "gt;"; "quot;"; "#39;"].

(** [occurs c s]: the character [c] appears in [s]. *)
Fixpoint occurs (c : ascii) (s : string) : Prop :=
  match s with
  | EmptyString => False
  | String x r => x = c ∨ occurs c r
  end.

(** The ids of the store are consistent: [sqlite_sequence] is not behind
    the user ids in use, and every status row belongs to a user id that
    has been handed out. *)
Definition ids_consistent (d : Db) : Prop :=
  (∀ u, u ∈ rows (users d) → u_id u ≤ seq (users d))
  ∧ (∀ st, st ∈ rows (statuses d) → st_user_id st ≤ seq (users d)).

(** The constraints of the schema the properties rely on: the primary
    keys of users and plans, the UNIQUE columns [users.email] and
    [statuses.user_id], and the consistency of the ids. *)
Definition schema_ok (d : Db) : Prop :=
  NoDup (u_id <$> rows (users d))
  ∧ NoDup (u_email <$> rows (users d))
  ∧ NoDup (pl_id <$> rows (plans d))
  ∧ NoDup (st_user_id <$> rows (statuses d))
  ∧ ids_consistent d.

(** A step from [d] to [d'] that does not break those constraints. *)
Definition schema_kept (d d' : Db) : Prop := schema_ok d → schema_ok d'.

(** The stores the application can be in: the store right after the
    schema is created, and what a start-up or a request makes of a
    reachable store.  The start-up is that of [smm-matrix-node.js] and
    the routes are those of both revisions, so these stores include every
    store of that file, which has no [/checkout]. *)
Inductive reachable (digest : string → string) : Db → Prop :=
| reach_created : reachable digest empty_db
| reach_start random clock d s :
    reachable digest d →
    reachable digest (db (initDb digest random clock (start d s)).2)
| reach_request r req clock d s :
    reachable digest d →
    reachable digest (db_after (run digest r req clock d s)).

(** The stores of the sibling revision, the one that carries the
    [/checkout] routes: its start-up seeds its own plans, its routes are
    those of [route]. *)
Inductive reachable_sibling (digest : string → string) : Db → Prop :=
| sibling_created : reachable_sibling digest empty_db
| sibling_start random clock d s :
    reachable_sibling digest d →
    reachable_sibling digest
      (db (initDb_sibling digest random clock (start d s)).2)
| sibling_request r req clock d s :
    reachable_sibling digest d →
    reachable_sibling digest (db_after (run digest r req clock d s)).

(** The session is locked out at time [t]. *)
Definition locked_at (s : session) (t : Z) : bool :=
  match login_locked_until s with
  | Some lockedUntil => truthy (Num (Int lockedUntil)) && (t <? lockedUntil)
  | None => false
  end.

(** The stored user the submitted credentials match: the row of the
    normalized email, when the digest of the password equals its digest. *)
Definition credentials_match (digest : string → string) (d : Db)
    (req : request) : option user :=
  match user_by_email
          (toLowerCase (ToString (field (body req) "email" ||| Str ""))) d with
  | Some row =>
      if String.eqb (u_password_hash row)
           (digest (ToString (field (body req) "password")))
      then Some row else None
  | None => None
  end.

(** The number of clock readings [post_login] takes before it looks the
    credentials up: one when the session holds a lockout timestamp. *)
Definition lock_reads (s : session) : nat :=
  match login_locked_until s with
  | Some lockedUntil => if truthy (Num (Int lockedUntil)) then 1 else 0
  | None => 0
  end.

(** Consecutive login attempts of one session, each with its request and
    its clock: the results, in order. *)
Fixpoint login_attempts (digest : string → string)
    (l : list (request * (nat → Z))) (d : Db) (s : session) : list result :=
  match l with
  | [] => []
  | (req, clock) :: l' =>
      let out := run digest POST_login req clock d s in
      out :: login_attempts digest l' (db_after out) (session_after out)
  end.

(** The attempt reached the credential check and failed it. *)
Definition invalid_credentials (out : result) : Prop :=
  ∃ u, response_of out
       = Some (Send 200 (LoginView u (Str "Invalid credentials"))).

(** The world after [n] more clock readings. *)
Definition add_ticks (n : nat) (w : world) : world :=
  World (db w) (sess w) (res w) (log w) (n + ticks w).

Arguments locked_at : simpl never.
Arguments credentials_match : simpl never.
Arguments lock_reads : simpl never.

(** ** Data for the examples *)

(** A stand-in digest for the examples: any function serves, the handlers
    only compare digests. *)
Definition demo_digest (s : string) : string := "sha256:" +:+ s.

(** The store of a first start at time 1000, with fixed draws. *)
Definition demo_db : Db :=
  db ((initDb demo_digest (λ _ _, 7) (λ _, 1000) (start empty_db empty_session)).2).

Definition form (l : list (string * string)) : gmap string string :=
  list_to_map l.

(** A browser request and a script request, without fields. *)
Definition browser : request :=
  Request (Some "text/html,application/xhtml+xml") None ∅ ∅ ∅ None.
Definition script : request :=
  Request (Some "application/json") None ∅ ∅ ∅ None.

Definition with_body (b : list (string * string)) (r : request) : request :=
  Request (accept r) (referer r) (form b) (query r) (params r) (req_user r).
Definition with_query (q : list (string * string)) (r : request) : request :=
  Request (accept r) (referer r) (body r) (form q) (params r) (req_user r).
Definition with_params (p : list (string * string)) (r : request) : request :=
  Request (accept r) (referer r) (body r) (query r) (form p) (req_user r).

Definition signed_in (i : Z) : session := Session (Some i) None None.

(** A second store for the examples: the demo store after two purchases. *)
Definition demo_shop : Db :=
  let d1 := db_after (run demo_digest POST_checkout
                        (with_query [("plan_id", "2")] browser) (λ _, 2000)
                        demo_db (Session (Some 3) None None)) in
  db_after (run demo_digest POST_checkout
              (with_query [("plan_id", "3")] browser) (λ _, 3000)
              d1 (Session (Some 2) None None)).

(** The same for the sibling revision: the store of its first start, and
    that store after two purchases. *)
Definition sibling_db : Db :=
  db ((initDb_sibling demo_digest (λ _ _, 7) (λ _, 1000)
         (start empty_db empty_session)).2).

Definition sibling_shop : Db :=
  let d1 := db_after (run demo_digest POST_checkout
                        (with_query [("plan_id", "2")] browser) (λ _, 2000)
                        sibling_db (Session (Some 3) None None)) in
  db_after (run demo_digest POST_checkout
              (with_query [("plan_id", "3.0")] browser) (λ _, 3000)
              d1 (Session (Some 2) None None)).

(** Login requests for the demo user, with a wrong and with the right
    password, six failed attempts a second apart, and the session they
    leave behind. *)
Definition bad_login : request :=
  with_body [("email", "user@smm.local"); ("password", "guess")] browser.
Definition good_login : request :=
  with_body [("email", "User@SMM.local"); ("password", "user123")] browser.
Definition six_attempts : list (request * (nat → Z)) :=
  (λ t, (bad_login, λ _ : nat, t)) <$> [1000; 2000; 3000; 4000; 5000; 6000].
Definition locked_session : session := Session None (Some 6%N) (Some 306000).

(** A signup form. *)
Definition signup_form : request :=
  with_body [("name", "Ann"); ("email", "A@b.com"); ("instagram", "@ann");
             ("password", "pw1")] browser.

(** A request for the first post, and the demo store after one view. *)
Definition blog_req : request := with_params [("id", "1")] browser.
Definition demo_once : Db :=
  db_after (run demo_digest GET_blog blog_req (λ _, 0) demo_db empty_session).

(** ** Vocabulary of the further properties *)

(** A computation leaves the session as it found it. *)
Definition keeps_session {A} (m : M A) : Prop :=
  ∀ clock w, sess (m clock w).2 = sess w.

(** The tables a route's handler writes to, as its statements name them. *)
Definition may_write (r : route) : list tname :=
  match r with
  | GET_blog | POST_admin_create_post => [Posts]
  | POST_signup => [Users; Statuses; Targets; Metrics]
  | POST_contact_submit | POST_ticket => [Tickets]
  | POST_subscribe => [Subscribers]
  | POST_checkout => [Orders]
  | POST_admin_assign_role | POST_staff_promote | POST_staff_demote
  | POST_staff_toggle_unsubscribe => [Users]
  | POST_staff_add => [Users; Statuses; Metrics]
  | POST_staff_delete => [Users; Targets; Statuses; Metrics]
  | POST_staff_metrics | GET_performance | GET_performance_user => [Metrics]
  | _ => []
  end.

(** Table [t] of [d'] is table [t] of [d]: same rows, same sequence. *)
Definition same_table (t : tname) (d d' : Db) : Prop :=
  match t with
  | Users => users d' = users d
  | Posts => posts d' = posts d
  | Plans => plans d' = plans d
  | Orders => orders d' = orders d
  | Reviews => reviews d' = reviews d
  | Tickets => tickets d' = tickets d
  | Metrics => metrics d' = metrics d
  | Targets => targets d' = targets d
  | Statuses => statuses d' = statuses d
  | Subscribers => subscribers d' = subscribers d
  end.

(** The plans table the first start-up leaves. *)
Definition seeded_plans : table plan :=
  Table
    [ Plan 1 "Kickoff Plan" 49
        (JSON_stringify ["600 - 800+ Real followers"; "Growth pods network";
           "Guaranteed results"; "Real-time growth analytics";
           "24/7 Live support"]);
      Plan 2 "Growth Plan" 69
        (JSON_stringify ["800 - 1,200+ Real & Organic followers";
           "Growth pods network"; "Targeted AI growth";
           "Account and hashtag targeting"; "Guaranteed results";
           "Real-time growth analytics"; "24/7 Live support"]);
      Plan 3 "Advanced Plan" 129
        (JSON_stringify ["1,200 - 1,600+ Real & Organic followers";
           "Growth pods network"; "Targeted AI growth";
           "Account and hashtag targeting"; "10x your engagement";
           "Turn followers into conversions"; "Guaranteed results"]) ]
    3.

(** The plans table the first start-up of the sibling revision leaves. *)
Definition seeded_plans_sibling : table plan :=
  Table
    [ Plan 1 "Kickoff" 49
        (JSON_stringify ["600–800+ real followers"; "Growth pods network";
           "Guaranteed results"; "Real-time analytics"; "24/7 Live support";
           "Hashtag optimization"]);
      Plan 2 "Growth" 89
        (JSON_stringify ["800–1,200+ real followers";
           "Hashtag & account targeting"; "Targeted AI growth";
           "Real-time analytics"; "Priority support"; "Content strategy"]);
      Plan 3 "Advanced" 149
        (JSON_stringify ["1,200–1,600+ real followers"; "10x engagement tools";
           "Turn followers into conversions"; "Real-time analytics";
           "Priority support"; "Personal account manager";
           "Advanced targeting"]) ]
    3.

(** The shop's tables as the application makes them, for a revision
    that seeds the plans [seeded]: the plans are missing or the seeded
    ones, and every order is paid for a plan that exists. *)
Definition shop_ok (seeded : table plan) (d : Db) : Prop :=
  (plans d = empty_table ∨ plans d = seeded)
  ∧ Forall (λ o, o_status o = "paid"
                 ∧ is_Some (plan_by_id (Int (o_plan_id o)) d))
      (rows (orders d)).

Definition shop_kept (seeded : table plan) (d d' : Db) : Prop :=
  shop_ok seeded d → shop_ok seeded d'.

(** A computation that returns, whatever the clock and the world. *)
Definition returns {A} (m : M A) : Prop :=
  ∀ clock w, ∃ a w', m clock w = (Ok a, w').

(** The addresses of the three seeded accounts. *)
Definition seed_emails : list string :=
  ["admin@smm.local"; "staff@smm.local"; "user@smm.local"].

(** The tables no statement edits or deletes from: in [d'] each still
    starts with the rows it had in [d]. *)
Definition grows_only (d d' : Db) : Prop :=
  rows (orders d) `prefix_of` rows (orders d')
  ∧ rows (tickets d) `prefix_of` rows (tickets d')
  ∧ rows (subscribers d) `prefix_of` rows (subscribers d')
  ∧ rows (plans d) `prefix_of` rows (plans d')
  ∧ rows (reviews d) `prefix_of` rows (reviews d').

(** Every ticket is open and no subscriber has an empty address. *)
Definition inbox_ok (d : Db) : Prop :=
  Forall (λ t, t_status t = "open") (rows (tickets d))
  ∧ Forall (λ x, s_email x ≠ "") (rows (subscribers d)).

Definition inbox_kept (d d' : Db) : Prop := inbox_ok d → inbox_ok d'.

(** A third store for the examples: the demo store after a message
    through the contact form and a subscription. *)
Definition demo_inbox : Db :=
  let d1 := db_after (run demo_digest POST_contact_submit
                        (with_body [("email", "ann@b.com"); ("message", "Hi")]
                           browser) (λ _, 2000) demo_db empty_session) in
  db_after (run demo_digest POST_subscribe
              (with_body [("email", "  ann@b.com ")] browser) (λ _, 3000)
              d1 empty_session).

(** The store after the seeding loop of the performance pages: [n] more
    snapshots from step [i] on, the first at the [t]-th clock reading. *)
Fixpoint seeded (userId : number) (clock : nat → Z) (i : Z) (t n : nat)
    (d : Db) : Db :=
  match n with
  | O => d
  | S n' =>
      seeded userId clock (i + 1) (S t) n'
        (insert_metric userId (Int (10 + i * 5)) (Int (8 + i * 3)) (clock t) d)
  end.

(** Every stored address is in lower case. *)
Definition emails_lower (d : Db) : Prop :=
  Forall (λ u, toLowerCase (u_email u) = u_email u) (rows (users d)).

Definition emails_kept (d d' : Db) : Prop := emails_lower d → emails_lower d'.

(** * Properties *)

(** ** Sanity checks of the primitives *)

Example escapeHtml_ex1 :
  escapeHtml (Js.Str "a<b & 'c'") = "a&lt;b &amp; &#39;c&#39;".
Proof. reflexivity. Qed.
Example Number_ex1 : Js.Number (Js.Str " -42 ") = Js.Int (-42).
Proof. reflexivity. Qed.
Example Number_ex2 : Js.Number (Js.Str "abc") = Js.NaN.
Proof. reflexivity. Qed.
Example includes_ex1 : Js.includes "text/html,application/xhtml+xml" "text/html" = true.
Proof. reflexivity. Qed.

(** [Number] reads the numerals of JavaScript: a fraction part, an
    exponent, the radix prefixes, white space around; a numeral that is
    no whole number is another number, anything else is [NaN]. *)
Example Number_ex3 :
  Js.Number (Js.Str "1.0") = Js.Int 1 ∧ Js.Number (Js.Str "1e0") = Js.Int 1
  ∧ Js.Number (Js.Str "0x1") = Js.Int 1 ∧ Js.Number (Js.Str "2.50e1") = Js.Int 25
  ∧ Js.Number (Js.Str "") = Js.Int 0 ∧ Js.Number (Js.Str "-0") = Js.Int 0
  ∧ Js.Number (Js.Str "1.5") = Js.Other false
  ∧ Js.Number (Js.Str "-Infinity") = Js.Other true
  ∧ Js.Number (Js.Str "9007199254740993") = Js.Int 9007199254740992
  ∧ Js.Number (Js.Str "1e23") = Js.Int 99999999999999991611392
  ∧ Js.Number (Js.Str "1,5") = Js.NaN ∧ Js.Number (Js.Str "0x") = Js.NaN
  ∧ Js.Number (Js.Str "+0x1") = Js.NaN ∧ Js.Number (Js.Str "1e") = Js.NaN
  ∧ Js.Number Js.Undefined = Js.NaN.
Proof. vm_compute. repeat split; reflexivity. Qed.

(** [toLowerCase] folds the cased letters of every script, with the
    final sigma and the dotted capital I; [trim] strips the white space
    of ECMAScript, here a tab, a vertical tab and a form feed, a no-break
    space (C2 A0), an em space (E2 80 83) and a byte order mark
    (EF BB BF). *)
Example toLowerCase_ex1 :
  Js.toLowerCase "User@SMM.local" = "user@smm.local"
  ∧ Js.toLowerCase "École@B.com" = "école@b.com"
  ∧ Js.toLowerCase "ΟΔΟΣ ΣΟΦΟΣ." = "οδος σοφος."
  ∧ Js.toLowerCase "İSTANBUL" = "i̇stanbul"
  ∧ Js.toLowerCase "ẞ Ǆ Ⴀ Ꭰ Ａ" = "ß ǆ ⴀ ꭰ ａ".
Proof. vm_compute. repeat split; reflexivity. Qed.

Example trim_ex1 :
  Js.trim (String "009" (String "011" (String "012" " a b  "))) = "a b"
  ∧ Js.trim (String "194" (String "160"
               (String "a" (String "226" (String "128" (String "131" ""))))))
    = "a"
  ∧ Js.trim (String "239" (String "187" (String "191" "  "))) = "".
Proof. vm_compute. repeat split; reflexivity. Qed.

(** Unfolding the handler monad. *)
Ltac monad := unfold mbind, M_bind, mret, M_ret in *; cbn in *.

(** Running the primitives of a handler on an explicit world. *)
Ltac step :=
  unfold mbind, M_bind, mret, M_ret, select, select2, exec, exec_try, tick,
    get_session, put_session, headersSent, respond, redirect, send,
    send_status, throw, try_catch;
  cbn.

(** Projections of an updated store. *)
Ltac db_simpl :=
  unfold set_users, set_posts, set_orders, set_tickets, set_metrics,
    set_targets, set_statuses, set_subscribers in *;
  cbn [users posts plans orders reviews tickets metrics targets statuses
       subscribers bind] in *.

(** Membership in the fixed lists of special characters and entity tails. *)
Ltac in_list :=
  unfold specials, entity_tails; rewrite ?elem_of_cons; auto 10.

Lemma occurs_app c s t : occurs c (s +:+ t) ↔ occurs c s ∨ occurs c t.
Proof. induction s as [|x r IH]; simpl; [tauto | rewrite IH; tauto]. Qed.

(** ** [escapeHtml] *)

(** The entity of a special character is an ampersand followed by one of
    the five tails; any other character is kept. *)
Lemma entity_cases x :
  (x ∈ specials ∧ (∃ t, t ∈ entity_tails ∧ entity x = String "&" t))
  ∨ ((x ∉ specials) ∧ entity x = String x EmptyString).
Proof.
  unfold entity, specials, entity_tails.
  destruct (Ascii.eqb_spec x "&") as [->|H1];
    [left; split; [in_list | exists "amp;"; split; [in_list | done]] |].
  destruct (Ascii.eqb_spec x "<") as [->|H2];
    [left; split; [in_list | exists "lt;"; split; [in_list | done]] |].
  destruct (Ascii.eqb_spec x ">") as [->|H3];
    [left; split; [in_list | exists "gt;"; split; [in_list | done]] |].
  destruct (Ascii.eqb_spec x "034") as [->|H4];
    [left; split; [in_list | exists "quot;"; split; [in_list | done]] |].
  destruct (Ascii.eqb_spec x "039") as [->|H5];
    [left; split; [in_list | exists "#39;"; split; [in_list | done]] |].
  right. split; [|done].
  rewrite !not_elem_of_cons. repeat split; try done. apply not_elem_of_nil.
Qed.

Lemma tail_clean t c : t ∈ entity_tails → c ∈ specials → ¬ occurs c t.
Proof.
  unfold entity_tails, specials. rewrite !elem_of_cons, !elem_of_nil.
  intros Ht Hc Ho.
  destruct Ht as [->|[->|[->|[->|[->|[]]]]]];
    destruct Hc as [->|[->|[->|[->|[->|[]]]]]];
    simpl in Ho; intuition discriminate.
Qed.

(** Past a prefix free of ampersands, an ampersand lies in the rest. *)
Lemma split_after_clean t : ¬ occurs "&" t → ∀ pre post rest,
  pre +:+ String "&" post = t +:+ rest →
  ∃ pre', pre = t +:+ pre' ∧ pre' +:+ String "&" post = rest.
Proof.
  induction t as [|x t IH]; intros Hn pre post rest E; simpl in *.
  - eauto.
  - destruct pre as [|y pre]; simpl in E.
    + injection E as E1 E2. subst x. tauto.
    + injection E as E1 E. subst y. destruct (IH (λ H, Hn (or_intror H)) _ _ _ E) as (pre' & -> & <-).
      eauto.
Qed.

Lemma replace_special_amp s : ∀ pre post,
  replace_special s = pre +:+ String "&" post →
  ∃ t, t ∈ entity_tails ∧ String.prefix t post = true.
Proof.
  induction s as [|x r IH]; intros pre post E; simpl in E.
  - destruct pre; discriminate.
  - destruct (entity_cases x) as [(Hx & t & Ht & Ex)|(Hx & Ex)]; rewrite Ex in E.
    + destruct pre as [|y pre]; simpl in E.
      * injection E as E. subst post. exists t. split; [done|].
        clear. induction t; simpl; [by destruct (replace_special r)|].
        destruct (ascii_dec a a); [done|congruence].
      * injection E as E1 E. subst y. symmetry in E.
        destruct (split_after_clean t (tail_clean t "&" Ht ltac:(in_list)) _ _ _ E)
          as (pre' & -> & E').
        eauto.
    + destruct pre as [|y pre]; simpl in E.
      * injection E as E1 E2. subst x. exfalso. apply Hx.
        in_list.
      * injection E as E1 E. subst y. symmetry in E. eauto.
Qed.

Lemma replace_special_clean s c :
  c ∈ specials → c ≠ "&"%char → ¬ occurs c (replace_special s).
Proof.
  intros Hc Hamp. induction s as [|x r IH]; simpl; [tauto|].
  rewrite occurs_app. intros [H|H]; [|tauto].
  destruct (entity_cases x) as [(Hx & t & Ht & Ex)|(Hx & Ex)]; rewrite Ex in H; simpl in H.
  - destruct H as [H|H]; [congruence|]. by apply (tail_clean t c Ht Hc).
  - destruct H as [->|[]]. done.
Qed.

(** C10.  [escapeHtml] is a total function: null and undefined give the
    empty string; on a string it works character by character, replacing
    each of the five special characters by its entity and keeping every
    other character.  In its output the characters less-than,
    greater-than, double quote and apostrophe never occur, and every
    ampersand is followed by the rest of one of the five entities. *)
Theorem escapeHtml_output_is_escaped :
  escapeHtml Undefined = "" ∧ escapeHtml Null = "" ∧
  (∀ c r, escapeHtml (Str (String c r)) = entity c +:+ escapeHtml (Str r)) ∧
  entity "&" = "&amp;" ∧ entity "<" = "&lt;" ∧ entity ">" = "&gt;" ∧
  entity "034" = "&quot;" ∧ entity "039" = "&#39;" ∧
  (∀ c, c ∉ specials → entity c = String c "") ∧
  (∀ v c, c ∈ specials → c ≠ "&"%char → ¬ occurs c (escapeHtml v)) ∧
  (∀ v pre post, escapeHtml v = pre +:+ String "&" post →
     ∃ t, t ∈ entity_tails ∧ String.prefix t post = true).
Proof.
  repeat split; try reflexivity.
  - intros c r. unfold escapeHtml. simpl. by destruct r.
  - intros c Hc. destruct (entity_cases c) as [(Hx & _)|(_ & E)]; [done|exact E].
  - intros v c Hc Hamp. apply replace_special_clean; done.
  - intros v pre post. apply replace_special_amp.
Qed.

(** ** The role gate *)


Lemma authed_spec clock w :
  authed clock w =
  (Ok (principal (db w) (sess w)),
   World (db w) (sess w) (res w) (log w ++ authed_log (sess w)) (ticks w)).
Proof.
  destruct w as [d s r l t]. unfold authed, principal, authed_log. monad.
  destruct (uid s) as [i|]; [destruct (truthy (Num (Int i)))|]; cbn;
    rewrite ?app_nil_r; reflexivity.
Qed.

Lemma requireRole_rejects req roles clock w :
  res w = None → authorized (db w) (sess w) roles = false →
  requireRole req roles clock w =
  (Ok Rejected,
   World (db w) (sess w) (Some (rejection req))
         (log w ++ authed_log (sess w)) (ticks w)).
Proof.
  intros Hres Hauth. unfold requireRole. monad. rewrite authed_spec.
  unfold authorized in Hauth. unfold rejection.
  destruct (principal (db w) (sess w)) as [u|].
  - rewrite Hauth. destruct (accepts_html req); unfold redirect, send_status, respond; cbn;
      rewrite Hres; reflexivity.
  - destruct (accepts_html req); unfold redirect, send_status, respond; cbn;
      rewrite Hres; reflexivity.
Qed.

(** When [requireRole] hands back the response object, the headers are
    sent: the last case of [guarded] is never reached. *)
Lemma requireRole_rejected_sent req roles clock w w' :
  requireRole req roles clock w = (Ok Rejected, w') → res w' ≠ None.
Proof.
  unfold requireRole. monad. rewrite authed_spec.
  destruct (principal (db w) (sess w)) as [u|];
    [destruct (bool_decide _); [intros [= ]|]|];
    destruct (accepts_html req);
    unfold redirect, send_status, respond; cbn;
    destruct (res w); cbn; intros [= <-]; done.
Qed.

Lemma guarded_rejects req roles k clock w :
  res w = None → authorized (db w) (sess w) roles = false →
  guarded req roles k clock w =
  (Ok (),
   World (db w) (sess w) (Some (rejection req))
         (log w ++ authed_log (sess w)) (ticks w)).
Proof.
  intros Hres Hauth. unfold guarded. monad.
  rewrite (requireRole_rejects _ _ _ _ Hres Hauth). reflexivity.
Qed.

Lemma writes_in_app l1 l2 : writes_in (l1 ++ l2) = writes_in l1 ++ writes_in l2.
Proof. unfold writes_in. induction l1 as [|a l1 IH]; simpl; [done|]. rewrite IH. by destruct a. Qed.

Lemma writes_in_authed_log s : writes_in (authed_log s) = [].
Proof.
  unfold authed_log. destruct (uid s) as [i|]; [|done].
  by destruct (truthy (Num (Int i))).
Qed.

Lemma middleware_spec req clock w :
  middleware req clock w =
  (Ok (with_user (principal (db w) (sess w)) req),
   World (db w) (sess w) (res w) (log w ++ authed_log (sess w)) (ticks w)).
Proof. unfold middleware. monad. rewrite authed_spec. reflexivity. Qed.

Lemma guarded_handler digest r roles :
  required_roles r = Some roles →
  ∃ k, ∀ req, handler digest r req = guarded req roles (k req).
Proof.
  destruct r; simpl; intros H; try discriminate; injection H as <-;
    eexists (λ req, _); intros req; reflexivity.
Qed.

(** C1.  When the session designates no user, or a user whose role is not
    in the allow-list of a guarded route, [requireRole] answers with a
    redirect to /login if the Accept header includes text/html and with
    403 Forbidden otherwise, and the route's handler stops there: the
    response is that rejection, the store and the session are unchanged,
    and no write statement was run.  This covers every admin and staff
    route, /staff/delete among them. *)
Theorem role_gate_rejects digest r roles req clock d s :
  required_roles r = Some roles →
  authorized d s roles = false →
  let rejection :=
    if accepts_html req then Redirect "/login" else Send 403 (Text "Forbidden") in
  requireRole req roles clock (start d s) =
    (Ok Rejected, World d s (Some rejection) (authed_log s) 0)
  ∧ response_of (run digest r req clock d s) = Some rejection
  ∧ db_after (run digest r req clock d s) = d
  ∧ session_after (run digest r req clock d s) = s
  ∧ writes_in (accesses (run digest r req clock d s)) = [].
Proof.
  intros Hr Ha. cbn zeta. split.
  { rewrite requireRole_rejects by done. reflexivity. }
  destruct (guarded_handler digest r roles Hr) as [k Hk].
  unfold run, serve. monad. rewrite middleware_spec, Hk.
  rewrite guarded_rejects by done. cbn.
  rewrite !writes_in_app, writes_in_authed_log. done.
Qed.

Lemma role_gate_rejects_witness :
  let req := with_body [("id", "2")] script in
  let out := run demo_digest POST_staff_delete req (λ _, 5000) demo_db (signed_in 3) in
  requireRole req ["staff"; "admin"] (λ _, 5000) (start demo_db (signed_in 3)) =
    (Ok Rejected,
     World demo_db (signed_in 3) (Some (Send 403 (Text "Forbidden")))
           (authed_log (signed_in 3)) 0)
  ∧ response_of out = Some (Send 403 (Text "Forbidden"))
  ∧ db_after out = demo_db
  ∧ session_after out = signed_in 3
  ∧ writes_in (accesses out) = [].
Proof.
  apply (role_gate_rejects demo_digest POST_staff_delete ["staff"; "admin"]
           (with_body [("id", "2")] script) (λ _, 5000) demo_db (signed_in 3)).
  - reflexivity.
  - vm_compute. reflexivity.
Defined.

Lemma requireRole_accepts req roles clock w u :
  principal (db w) (sess w) = Some u → u_role u ∈ roles →
  requireRole req roles clock w =
  (Ok (Principal u),
   World (db w) (sess w) (res w) (log w ++ authed_log (sess w)) (ticks w)).
Proof.
  intros Hp Hr. unfold requireRole. monad. rewrite authed_spec, Hp.
  by rewrite bool_decide_eq_true_2.
Qed.

Lemma guarded_accepts req roles k clock w u :
  res w = None → principal (db w) (sess w) = Some u → u_role u ∈ roles →
  guarded req roles k clock w =
  k u clock (World (db w) (sess w) None (log w ++ authed_log (sess w)) (ticks w)).
Proof.
  intros Hres Hp Hr. unfold guarded. monad.
  rewrite (requireRole_accepts _ _ _ _ _ Hp Hr). cbn. rewrite Hres. reflexivity.
Qed.

(** The rows a [DELETE ... WHERE key = id] keeps. *)
Lemma delete_where_rows {A} (key : A → Z) (id : Z) (t : table A) :
  rows (delete_where (λ r, sql_eq (Some (key r)) (Some id)) t)
  = filter (λ r, key r ≠ id) (rows t).
Proof.
  unfold delete_where, rows at 1. induction (rows t) as [|r l IH]; [done|].
  rewrite filter_cons. simpl in *.
  destruct (Z.eqb_spec (key r) id) as [E|E]; simpl negb; cbv iota.
  - rewrite decide_False by tauto. exact IH.
  - rewrite decide_True by done. by rewrite IH.
Qed.

Lemma delete_metrics_rows (id : Z) (t : table metric) :
  rows (delete_where (λ r, sql_eq (m_user_id r) (Some id)) t)
  = filter (λ r, m_user_id r ≠ Some id) (rows t).
Proof.
  unfold delete_where, rows at 1. induction (rows t) as [|r l IH]; [done|].
  rewrite filter_cons. simpl in *.
  destruct (m_user_id r) as [z|]; simpl.
  - destruct (Z.eqb_spec z id) as [E|E]; simpl negb; cbv iota.
    + rewrite decide_False by (subst; tauto). exact IH.
    + rewrite decide_True by congruence. by rewrite IH.
  - by rewrite IH.
Qed.

(** A [DELETE] bound to [NaN] compares with NULL and removes nothing. *)
Lemma delete_where_null {A} (key : A → option Z) (t : table A) :
  delete_where (λ r, sql_eq (key r) None) t = t.
Proof.
  destruct t as [l n]. unfold delete_where. cbn. f_equal.
  induction l as [|r l IH]; [done|]. cbn.
  replace (sql_eq (key r) None) with false by by destruct (key r).
  cbn. by rewrite IH.
Qed.

(** C6.  The staff delete action, for a staff or admin principal and a
    form id that reads as the number [id], removes exactly the user row
    with that id, and the status, targets and metric rows of that user
    id; the rows of other users stay, in order.  The orders and tickets
    tables are left as they were, rows referring to the deleted id
    included, and so are the posts, plans, reviews and subscribers. *)
Theorem staff_delete_frame digest req clock d s me id :
  principal d s = Some me →
  u_role me ∈ ["staff"; "admin"] →
  Number (field (body req) "id") = Int id →
  let d' := db_after (run digest POST_staff_delete req clock d s) in
  rows (users d') = filter (λ u, u_id u ≠ id) (rows (users d))
  ∧ rows (statuses d') = filter (λ r, st_user_id r ≠ id) (rows (statuses d))
  ∧ rows (targets d') = filter (λ r, tg_user_id r ≠ id) (rows (targets d))
  ∧ rows (metrics d') = filter (λ r, m_user_id r ≠ Some id) (rows (metrics d))
  ∧ orders d' = orders d
  ∧ tickets d' = tickets d
  ∧ posts d' = posts d ∧ plans d' = plans d ∧ reviews d' = reviews d
  ∧ subscribers d' = subscribers d
  ∧ response_of (run digest POST_staff_delete req clock d s) = Some (Redirect "/staff").
Proof.
  intros Hp Hr Hid. unfold run, serve. monad. rewrite middleware_spec. cbn.
  unfold post_staff_delete. rewrite (guarded_accepts _ _ _ _ _ me) by done.
  cbn. rewrite Hid. monad.
  unfold delete_metrics_of, delete_statuses_of, delete_targets_of, delete_user.
  db_simpl.
  rewrite (delete_where_rows u_id), (delete_where_rows st_user_id),
    (delete_where_rows tg_user_id), delete_metrics_rows.
  repeat split; reflexivity.
Qed.

Lemma staff_delete_frame_witness :
  let req := with_body [("id", "3")] browser in
  let d' := db_after (run demo_digest POST_staff_delete req (λ _, 5000)
                        demo_db (signed_in 2)) in
  rows (users d') = filter (λ u, u_id u ≠ 3) (rows (users demo_db))
  ∧ rows (statuses d') = filter (λ r, st_user_id r ≠ 3) (rows (statuses demo_db))
  ∧ rows (targets d') = filter (λ r, tg_user_id r ≠ 3) (rows (targets demo_db))
  ∧ rows (metrics d') = filter (λ r, m_user_id r ≠ Some 3) (rows (metrics demo_db))
  ∧ orders d' = orders demo_db
  ∧ tickets d' = tickets demo_db
  ∧ posts d' = posts demo_db ∧ plans d' = plans demo_db
  ∧ reviews d' = reviews demo_db
  ∧ subscribers d' = subscribers demo_db
  ∧ response_of (run demo_digest POST_staff_delete req (λ _, 5000)
                   demo_db (signed_in 2)) = Some (Redirect "/staff").
Proof.
  eapply (staff_delete_frame demo_digest (with_body [("id", "3")] browser)
            (λ _, 5000) demo_db (signed_in 2)).
  - vm_compute. reflexivity.
  - in_list.
  - vm_compute. reflexivity.
Defined.

(** ** Metrics snapshots *)

(** A statement that inserts one row leaves the earlier rows in place. *)
Lemma insert_metric_rows uid likes follows now d :
  rows (metrics (insert_metric uid likes follows now d))
  = rows (metrics d)
    ++ [Metric (next_id m_id (metrics d)) (bind uid) (bind likes) (bind follows) now].
Proof. reflexivity. Qed.

Lemma staff_metrics_appends digest req clock d s me n :
  principal d s = Some me →
  u_role me ∈ ["staff"; "admin"] →
  Number (field (body req) "user_id") = Int n → n ≠ 0 →
  let likes := max0 (Number (field (body req) "add_likes" ||| Num (Int 0))) in
  let follows := max0 (Number (field (body req) "add_follows" ||| Num (Int 0))) in
  let d' := db_after (run digest POST_staff_metrics req clock d s) in
  likes ≠ Other false → follows ≠ Other false →
  d' = insert_metric (Int n) likes follows (clock 0%nat) d
  ∧ (∀ a, likes = Int a → 0 ≤ a)
  ∧ (∀ b, follows = Int b → 0 ≤ b).
Proof.
  intros Hp Hr Hid Hn. cbn zeta. intros _ _. split.
  - unfold run, serve. monad. rewrite middleware_spec. cbn.
    unfold post_staff_metrics. rewrite (guarded_accepts _ _ _ _ _ me) by done.
    cbn. rewrite Hid. unfold truthy at 1.
    destruct (Z.eqb_spec n 0) as [|_]; [done|]. reflexivity.
  - split; intros x H; unfold max0 in H;
      destruct (Number (_ ||| _)) as [z| |[|]]; try discriminate;
      injection H as H; lia.
Qed.

(** C9, at an input where the clamp fails.  A staff member posts the
    deltas abc and 5 for user 3: [Math.max(0, Number(...))] is [NaN] for
    the first, which SQLite stores as NULL, so the appended snapshot has
    no likes value at all instead of a non-negative one. *)
Theorem staff_metrics_non_numeric_delta :
  let req := with_body [("user_id", "3"); ("add_likes", "abc"); ("add_follows", "5")]
               browser in
  let out := run demo_digest POST_staff_metrics req (λ _, 5000) demo_db (signed_in 2) in
  max0 (Number (field (body req) "add_likes" ||| Num (Int 0))) = NaN
  ∧ rows (metrics (db_after out))
    = rows (metrics demo_db) ++ [Metric 4 (Some 3) None (Some 5) 5000]
  ∧ response_of out = Some (Redirect "/staff").
Proof. vm_compute. repeat split; reflexivity. Qed.

(** ** Checkout *)

(** C8.  POST /checkout: without a signed-in user the answer is a redirect
    to /login; with one, when the plan of the query string does not
    exist, the answer is 404; in both cases the store is unchanged and no
    write is run.  With a user and an existing plan exactly one order row
    is appended, for that user and plan, with status paid, all other
    tables are unchanged, and the only store accesses of the request are
    the middleware's look-up, the plan look-up and that insert. *)
Theorem checkout_inserts_paid_order digest req clock d s :
  let out := run digest POST_checkout req clock d s in
  let plan_id := Number (field (query req) "plan_id") in
  match principal d s with
  | None =>
      response_of out = Some (Redirect "/login")
      ∧ db_after out = d
      ∧ accesses out = authed_log s
  | Some u =>
      match plan_by_id plan_id d with
      | None =>
          response_of out = Some (Send 404 (Text "Plan not found"))
          ∧ db_after out = d
          ∧ accesses out = authed_log s ++ [Read Plans]
      | Some p =>
          rows (orders (db_after out))
          = rows (orders d)
            ++ [Order (next_id o_id (orders d)) (u_id u) (pl_id p)
                  (ToString (field (body req) "ig_username" ||| Str ""))
                  (ToString (field (body req) "notes" ||| Str ""))
                  "paid" (clock 0%nat)]
          ∧ users (db_after out) = users d ∧ posts (db_after out) = posts d
          ∧ plans (db_after out) = plans d ∧ reviews (db_after out) = reviews d
          ∧ tickets (db_after out) = tickets d ∧ metrics (db_after out) = metrics d
          ∧ targets (db_after out) = targets d
          ∧ statuses (db_after out) = statuses d
          ∧ subscribers (db_after out) = subscribers d
          ∧ accesses out = authed_log s ++ [Read Plans; Write Orders]
          ∧ response_of out
            = Some (Redirect (if String.eqb (u_role u) "admin"
                              then "/dashboard" else "/"))
      end
  end.
Proof.
  cbn zeta. unfold run, serve. monad. rewrite middleware_spec. cbn.
  unfold post_checkout. cbn.
  destruct (principal d s) as [u|]; step.
  - destruct (plan_by_id _ d) as [p|]; cbn.
    + rewrite <- app_assoc. repeat split; reflexivity.
    + repeat split; reflexivity.
  - repeat split; reflexivity.
Qed.

(** ** The dashboard aggregate *)

Lemma sum_list_app l1 l2 : sum_list (l1 ++ l2) = sum_list l1 + sum_list l2.
Proof. unfold sum_list. induction l1 as [|x l1 IH]; cbn; [done | rewrite IH; lia]. Qed.

Lemma join_order_miss ps o :
  o_plan_id o ∉ pl_id <$> ps → join_order ps o = [].
Proof.
  induction ps as [|p ps IH]; [done|]. rewrite fmap_cons, not_elem_of_cons.
  intros [Hne Hrest]. unfold join_order in *. cbn.
  destruct (Z.eqb_spec (pl_id p) (o_plan_id o)) as [E|_]; [congruence|].
  cbn. by apply IH.
Qed.

Lemma join_order_sum ps o :
  NoDup (pl_id <$> ps) →
  sum_list ((λ op, pl_price_usd op.2) <$> join_order ps o)
  = if String.eqb (o_status o) "paid"
    then match List.find (λ p, sql_eq (Some (pl_id p)) (Some (o_plan_id o))) ps with
         | Some p => pl_price_usd p
         | None => 0
         end
    else 0.
Proof.
  induction ps as [|p ps IH]; intros Hnd.
  - cbn. by destruct (String.eqb _ _).
  - rewrite fmap_cons in Hnd. apply NoDup_cons in Hnd as [Hp Hnd].
    specialize (IH Hnd). unfold join_order in *. cbn [mbind list_bind].
    rewrite fmap_app, sum_list_app, IH. cbn [List.find sql_eq].
    destruct (Z.eqb_spec (pl_id p) (o_plan_id o)) as [E|_]; cbn.
    + destruct (String.eqb (o_status o) "paid"); cbn; [|done].
      rewrite E in Hp. pose proof (join_order_miss ps o Hp) as Hm.
      unfold join_order in Hm. clear IH.
      destruct (List.find _ ps) as [q|] eqn:Hq; [|lia].
      apply find_some in Hq as [Hin Hq]. cbn in Hq.
      apply Z.eqb_eq in Hq. exfalso. apply Hp. rewrite <- Hq.
      apply list_elem_of_fmap_2, list_elem_of_In, Hin.
    + done.
Qed.

Lemma paid_join_sum d :
  NoDup (pl_id <$> rows (plans d)) →
  sum_list ((λ op, pl_price_usd op.2) <$> paid_join d) = paid_total d.
Proof.
  intros Hnd. unfold paid_join, paid_total, paid_orders.
  induction (rows (orders d)) as [|o os IH]; [done|].
  cbn [mbind list_bind]. rewrite fmap_app, sum_list_app.
  fold (join_order (rows (plans d)) o). rewrite join_order_sum by done.
  rewrite filter_cons.
  destruct (String.eqb_spec (o_status o) "paid") as [E|E].
  - rewrite decide_True by done. rewrite fmap_cons. cbn [sum_list foldr].
    unfold sum_list in IH. rewrite <- IH. unfold price_of, plan_by_id, get.
    cbn [bind]. reflexivity.
  - rewrite decide_False by done. unfold sum_list in *. rewrite <- IH. lia.
Qed.

Lemma dashboard_stats_spec clock w :
  dashboard_stats clock w =
  (Ok (Stats (count (λ _, true) (users (db w)))
             (count (λ o, String.eqb (o_status o) "pending") (orders (db w)))
             (count (λ o, String.eqb (o_status o) "declined"
                          || String.eqb (o_status o) "cancelled") (orders (db w)))
             (count (λ _, true) (subscribers (db w)))
             (match sum_paid_prices (db w) with
              | Some z => if truthy (Num (Int z)) then z else 0
              | None => 0
              end)),
   World (db w) (sess w) (res w)
         (log w ++ [Read Users; Read Orders; Read Orders; Read Subscribers;
                    Read Orders; Read Plans])
         (ticks w)).
Proof.
  destruct w as [d s r l t]. unfold dashboard_stats. step.
  rewrite <- !app_assoc. reflexivity.
Qed.

(** C5.  For an admin, the dashboard's totalAccounting is the sum of the
    plan prices over the orders whose status is the string paid, and it
    is 0 when there is no such order.  Plan ids are a primary key. *)
Theorem total_accounting_is_paid_sum digest req clock d s me :
  principal d s = Some me →
  u_role me = "admin" →
  NoDup (pl_id <$> rows (plans d)) →
  ∃ st,
    response_of (run digest GET_dashboard req clock d s)
    = Some (Send 200 (AdminDashboardView me st))
    ∧ s_totalAccounting st = paid_total d
    ∧ (paid_orders d = [] → s_totalAccounting st = 0).
Proof.
  intros Hp Hr Hnd. unfold run, serve. monad. rewrite middleware_spec. cbn.
  unfold get_dashboard.
  rewrite (guarded_accepts _ _ _ _ _ me) by (try done; rewrite Hr; in_list).
  unfold mbind at 1, M_bind at 1. rewrite dashboard_stats_spec.
  eexists. split; [reflexivity|]. cbn [s_totalAccounting].
  assert (Ht : match sum_paid_prices d with
               | Some z => if truthy (Num (Int z)) then z else 0
               | None => 0
               end = paid_total d).
  { rewrite <- paid_join_sum by done. unfold sum_paid_prices, sql_sum.
    destruct (_ <$> paid_join d) as [|x l] eqn:E; [done|].
    unfold truthy. fold (sum_list (x :: l)).
    by destruct (Z.eqb_spec (sum_list (x :: l)) 0) as [->|]. }
  split; [exact Ht|]. intros Hnone. etransitivity; [exact Ht|].
  unfold paid_total. by rewrite Hnone.
Qed.

Lemma total_accounting_is_paid_sum_witness :
  ∃ st,
    response_of (run demo_digest GET_dashboard browser (λ _, 9000) demo_shop
                     (Session (Some 1) None None))
    = Some (Send 200
              (AdminDashboardView
                 (User 1 "admin@smm.local" (demo_digest "admin123") "Admin"
                       "admin" (Some "@admin") 0 1000) st))
    ∧ s_totalAccounting st = paid_total demo_shop
    ∧ (paid_orders demo_shop = [] → s_totalAccounting st = 0).
Proof.
  apply (total_accounting_is_paid_sum demo_digest browser (λ _, 9000) demo_shop
           (Session (Some 1) None None)).
  - vm_compute. reflexivity.
  - reflexivity.
  - apply (bool_decide_unpack _). vm_compute. reflexivity.
Defined.

Example demo_shop_total : paid_total demo_shop = 198.
Proof. vm_compute. reflexivity. Qed.

(** ** Relating the store before and after a computation *)

Section Keeps.
Context (R : Db → Db → Prop).
Hypothesis R_refl : ∀ d, R d d.
Hypothesis R_trans : ∀ a b c, R a b → R b c → R a c.

Lemma keeps_ret {A} (a : A) : keeps R (mret a).
Proof. intros clock w. apply R_refl. Qed.

Lemma keeps_bind {A B} (m : M A) (f : A → M B) :
  keeps R m → (∀ a, keeps R (f a)) → keeps R (m ≫= f).
Proof.
  intros Hm Hf clock w. unfold mbind, M_bind. specialize (Hm clock w).
  destruct (m clock w) as [[a|] w']; cbn in *; [|done].
  eapply R_trans; [exact Hm | apply Hf].
Qed.

Lemma keeps_try_catch {A} (m h : M A) :
  keeps R m → keeps R h → keeps R (try_catch m h).
Proof.
  intros Hm Hh clock w. unfold try_catch. specialize (Hm clock w).
  destruct (m clock w) as [[a|] w']; cbn in *; [done|].
  eapply R_trans; [exact Hm | apply Hh].
Qed.

Lemma keeps_throw {A} : keeps R (@throw A).
Proof. intros clock w. apply R_refl. Qed.

Lemma keeps_tick : keeps R tick.
Proof. intros clock w. apply R_refl. Qed.

Lemma keeps_select {A} t (f : Db → A) : keeps R (select t f).
Proof. intros clock w. apply R_refl. Qed.

Lemma keeps_select2 {A} t1 t2 (f : Db → A) : keeps R (select2 t1 t2 f).
Proof. intros clock w. apply R_refl. Qed.

Lemma keeps_exec t f : (∀ d, R d (f d)) → keeps R (exec t f).
Proof. intros Hf clock w. apply Hf. Qed.

Lemma keeps_exec_try t f :
  (∀ d d', f d = Some d' → R d d') → keeps R (exec_try t f).
Proof.
  intros Hf clock w. unfold exec_try.
  destruct (f (db w)) as [d'|] eqn:E; cbn; [by apply Hf | apply R_refl].
Qed.

Lemma keeps_get_session : keeps R get_session.
Proof. intros clock w. apply R_refl. Qed.

Lemma keeps_put_session s : keeps R (put_session s).
Proof. intros clock w. apply R_refl. Qed.

Lemma keeps_headersSent : keeps R headersSent.
Proof. intros clock w. apply R_refl. Qed.

Lemma keeps_respond r : keeps R (respond r).
Proof. intros clock w. unfold respond. destruct (res w); apply R_refl. Qed.

Lemma keeps_authed : keeps R authed.
Proof. intros clock w. rewrite authed_spec. apply R_refl. Qed.

Lemma keeps_requireRole req roles : keeps R (requireRole req roles).
Proof.
  unfold requireRole. apply keeps_bind; [apply keeps_authed|].
  intros [u|]; repeat case_match;
    repeat first [apply keeps_ret | apply keeps_respond
                 | apply keeps_bind; [|intros ?]].
Qed.

Lemma keeps_guarded req roles k :
  (∀ u, keeps R (k u)) → keeps R (guarded req roles k).
Proof.
  intros Hk. unfold guarded. apply keeps_bind; [apply keeps_requireRole|].
  intros me. apply keeps_bind; [apply keeps_headersSent|].
  intros [|]; [apply keeps_ret|]. destruct me; [apply Hk | apply keeps_throw].
Qed.

End Keeps.

(** Decomposing a handler down to its statements.  What is left are the
    statements themselves, as goals [R d (f d)]. *)
Ltac keeps_step :=
  lazymatch goal with
  | |- keeps _ (mret _) => apply keeps_ret
  | |- keeps _ throw => apply keeps_throw
  | |- keeps _ tick => apply keeps_tick
  | |- keeps _ (select _ _) => apply keeps_select
  | |- keeps _ (select2 _ _ _) => apply keeps_select2
  | |- keeps _ get_session => apply keeps_get_session
  | |- keeps _ (put_session _) => apply keeps_put_session
  | |- keeps _ headersSent => apply keeps_headersSent
  | |- keeps _ (respond _) => apply keeps_respond
  | |- keeps _ (redirect _) => apply keeps_respond
  | |- keeps _ (send _) => apply keeps_respond
  | |- keeps _ (send_status _ _) => apply keeps_respond
  | |- keeps _ (attempt _ _ _) => unfold attempt
  | |- keeps _ authed => apply keeps_authed
  | |- keeps _ (guarded _ _ _) => apply keeps_guarded; [..|intros ?]
  | |- keeps _ (try_catch _ _) => apply keeps_try_catch
  | |- keeps _ (mbind _ _) => apply keeps_bind; [..|intros ?]
  | |- keeps _ (exec _ _) => apply keeps_exec; [..|intros ?]
  | |- keeps _ (exec_try _ _) => apply keeps_exec_try; [..|intros ? ? ?]
  | |- keeps _ (match ?x with _ => _ end) => destruct x
  | |- keeps _ (let _ := _ in _) => cbv zeta
  end.

Ltac keeps_auto := repeat (keeps_step; try assumption).

(** Every request keeps the store inside a preorder that the statements
    respect.  The status insert is set apart: what it does to the ids
    depends on the user id it is given, so the three computations that
    run it (signup, the staff form for a new member, start-up) are taken
    whole. *)
Section Routes.
Context (R : Db → Db → Prop).
Hypothesis R_refl : ∀ d, R d d.
Hypothesis R_trans : ∀ a b c, R a b → R b c → R a c.
Hypothesis R_bump_views : ∀ id d, R d (bump_views id d).
Hypothesis R_insert_target : ∀ uid a b c e f now d,
  R d (insert_target uid a b c e f now d).
Hypothesis R_insert_metric : ∀ uid l f now d, R d (insert_metric uid l f now d).
Hypothesis R_insert_post : ∀ a b c e f now d, R d (insert_post a b c e f now d).
Hypothesis R_insert_order : ∀ u p a b c now d, R d (insert_order u p a b c now d).
Hypothesis R_insert_ticket : ∀ u e ig a b now d,
  R d (insert_ticket u e ig a b now d).
Hypothesis R_insert_subscriber : ∀ e now d, R d (insert_subscriber e now d).
Hypothesis R_set_role_by_email : ∀ r e d, R d (set_role_by_email r e d).
Hypothesis R_set_role_by_id : ∀ r id d, R d (set_role_by_id r id d).
Hypothesis R_set_unsubscribed : ∀ x id d, R d (set_unsubscribed x id d).
Hypothesis R_delete_user : ∀ id d, R d (delete_user id d).
Hypothesis R_delete_targets_of : ∀ id d, R d (delete_targets_of id d).
Hypothesis R_delete_statuses_of : ∀ id d, R d (delete_statuses_of id d).
Hypothesis R_delete_metrics_of : ∀ id d, R d (delete_metrics_of id d).
Hypothesis R_post_signup : ∀ digest req, keeps R (post_signup digest req).
Hypothesis R_post_staff_add : ∀ digest req, keeps R (post_staff_add digest req).

Lemma keeps_seed_metrics userId n : ∀ i, keeps R (seed_metrics userId i n).
Proof.
  induction n as [|n IH]; intros i; cbn [seed_metrics]; keeps_auto; auto.
Qed.

Lemma keeps_performance me userId : keeps R (performance me userId).
Proof.
  unfold performance. keeps_auto; auto using keeps_seed_metrics.
Qed.

Lemma keeps_login_failure req : keeps R (login_failure req).
Proof. unfold login_failure. keeps_auto. Qed.

Lemma keeps_login_check digest req : keeps R (login_check digest req).
Proof.
  unfold login_check, login_success. keeps_auto; apply keeps_login_failure.
Qed.

Lemma keeps_handler digest r req : keeps R (handler digest r req).
Proof.
  destruct r; cbn [handler]; try apply R_post_signup; try apply R_post_staff_add.
  all: unfold get_home, get_blogs, get_blog, get_login, post_login,
      get_logout, get_signup, get_contact, post_contact_submit, post_ticket,
      post_subscribe, get_pricing, get_checkout, post_checkout, get_dashboard,
      dashboard_stats, post_admin_create_post, post_admin_assign_role,
      get_staff, get_staff_user_detail, post_staff_promote,
      post_staff_demote, post_staff_delete, post_staff_metrics,
      post_staff_toggle_unsubscribe, get_performance, get_performance_user,
      get_reviews, get_static.
  all: keeps_auto; eauto using keeps_performance, keeps_login_check.
Qed.

Lemma keeps_serve digest r req : keeps R (serve digest r req).
Proof.
  unfold serve, middleware. keeps_auto. apply keeps_handler.
Qed.

(** The store a request leaves is related to the store it found. *)
Lemma run_keeps digest r req clock d s :
  R d (db_after (run digest r req clock d s)).
Proof. exact (keeps_serve digest r req clock (start d s)). Qed.

End Routes.

(** The same for a preorder that every statement respects, whatever its
    arguments; start-up included. *)
Section Statements.
Context (R : Db → Db → Prop).
Hypothesis R_refl : ∀ d, R d d.
Hypothesis R_trans : ∀ a b c, R a b → R b c → R a c.
Hypothesis R_bump_views : ∀ id d, R d (bump_views id d).
Hypothesis R_insert_user : ∀ e h n r ig now d d',
  insert_user e h n r ig now d = Some d' → R d d'.
Hypothesis R_ignored_user : ∀ d, R d (set_users (ignored u_id) d).
Hypothesis R_insert_status : ∀ uid d, R d (insert_status_or_ignore uid d).
Hypothesis R_insert_target : ∀ uid a b c e f now d,
  R d (insert_target uid a b c e f now d).
Hypothesis R_insert_metric : ∀ uid l f now d, R d (insert_metric uid l f now d).
Hypothesis R_insert_post : ∀ a b c e f now d, R d (insert_post a b c e f now d).
Hypothesis R_insert_order : ∀ u p a b c now d, R d (insert_order u p a b c now d).
Hypothesis R_insert_ticket : ∀ u e ig a b now d,
  R d (insert_ticket u e ig a b now d).
Hypothesis R_insert_subscriber : ∀ e now d, R d (insert_subscriber e now d).
Hypothesis R_insert_plan : ∀ n p f d, R d (insert_plan n p f d).
Hypothesis R_insert_review : ∀ n st c a now d, R d (insert_review n st c a now d).
Hypothesis R_set_role_by_email : ∀ r e d, R d (set_role_by_email r e d).
Hypothesis R_set_role_by_id : ∀ r id d, R d (set_role_by_id r id d).
Hypothesis R_set_unsubscribed : ∀ x id d, R d (set_unsubscribed x id d).
Hypothesis R_delete_user : ∀ id d, R d (delete_user id d).
Hypothesis R_delete_targets_of : ∀ id d, R d (delete_targets_of id d).
Hypothesis R_delete_statuses_of : ∀ id d, R d (delete_statuses_of id d).
Hypothesis R_delete_metrics_of : ∀ id d, R d (delete_metrics_of id d).

Lemma R_insert_user_or_ignore e h n r ig now d :
  R d (insert_user_or_ignore e h n r ig now d).
Proof.
  unfold insert_user_or_ignore.
  destruct (insert_user e h n r ig now d) as [d'|] eqn:E;
    [eauto | apply R_ignored_user].
Qed.

Lemma keeps_ensure_rows random ids : ∀ k, keeps R (ensure_rows random k ids).
Proof.
  induction ids as [|id ids IH]; intros k; cbn [ensure_rows]; keeps_auto; auto.
Qed.

Lemma keeps_initDb digest random : keeps R (initDb digest random).
Proof.
  unfold initDb, seed_users, seed_plans, seed_posts, seed_reviews, seed_post,
    seed_review.
  keeps_auto; auto using R_insert_user_or_ignore, keeps_ensure_rows.
Qed.

Lemma keeps_post_signup digest req : keeps R (post_signup digest req).
Proof. unfold post_signup, post_signup_env. keeps_auto; eauto. Qed.

Lemma keeps_post_staff_add digest req : keeps R (post_staff_add digest req).
Proof. unfold post_staff_add. keeps_auto; eauto. Qed.

Lemma run_keeps_statements digest r req clock d s :
  R d (db_after (run digest r req clock d s)).
Proof.
  apply run_keeps; auto using keeps_post_signup, keeps_post_staff_add.
Qed.

End Statements.

(** ** Blog views *)

Lemma views_grow_refl d : views_grow d d.
Proof. intros p Hp. exists p. repeat split; [done | lia]. Qed.

Lemma views_grow_trans d1 d2 d3 :
  views_grow d1 d2 → views_grow d2 d3 → views_grow d1 d3.
Proof.
  intros H12 H23 p Hp.
  destruct (H12 p Hp) as (p' & Hp' & Hid & Hv).
  destruct (H23 p' Hp') as (p'' & Hp'' & Hid' & Hv').
  exists p''. repeat split; [done | congruence | lia].
Qed.

Lemma views_grow_same d d' : posts d' = posts d → views_grow d d'.
Proof. intros E p Hp. exists p. rewrite E. repeat split; [done | lia]. Qed.

Lemma views_grow_app d d' l :
  rows (posts d') = rows (posts d) ++ l → views_grow d d'.
Proof.
  intros E p Hp. exists p. rewrite E, elem_of_app.
  repeat split; [by left | lia].
Qed.

Lemma views_grow_bump id d : views_grow d (bump_views id d).
Proof.
  intros p Hp. unfold bump_views, update_where. db_simpl. cbn [rows].
  exists (if sql_eq (Some (p_id p)) (bind id) then with_views (p_views p + 1) p else p).
  split.
  - apply list_elem_of_In, in_map_iff. exists p. split; [done|].
    by apply list_elem_of_In.
  - destruct (sql_eq _ _); cbn; split; [done | lia | done | lia].
Qed.

Lemma views_grow_run digest r req clock d s :
  views_grow d (db_after (run digest r req clock d s)).
Proof.
  apply (run_keeps_statements views_grow views_grow_refl views_grow_trans); intros;
    try (apply views_grow_same; reflexivity);
    try apply views_grow_bump.
  - apply views_grow_same. unfold insert_user in *.
    destruct (user_by_email _ _); [discriminate|]. by simplify_eq.
  - apply views_grow_same. unfold insert_status_or_ignore.
    by destruct (get _ _).
  - by eapply views_grow_app.
Qed.

Lemma views_grow_initDb digest random clock w :
  views_grow (db w) (db (initDb digest random clock w).2).
Proof.
  apply (keeps_initDb views_grow views_grow_refl views_grow_trans); intros;
    try (apply views_grow_same; reflexivity);
    try apply views_grow_bump.
  - apply views_grow_same. unfold insert_user in *.
    destruct (user_by_email _ _); [discriminate|]. by simplify_eq.
  - apply views_grow_same. unfold insert_status_or_ignore.
    by destruct (get _ _).
  - by eapply views_grow_app.
Qed.

Lemma post_by_id_Some n d p :
  post_by_id n d = Some p → n = Int (p_id p) ∧ p ∈ rows (posts d).
Proof.
  unfold post_by_id, get. intros H. apply find_some in H as [Hin H].
  split; [|by apply list_elem_of_In].
  destruct n as [z| |b]; cbn in H; [|discriminate..].
  apply Z.eqb_eq in H. by subst.
Qed.

Lemma find_update {A} (c : A → bool) (f : A → A) l :
  (∀ x, c (f x) = c x) →
  List.find c (List.map (λ x, if c x then f x else x) l) = f <$> List.find c l.
Proof.
  intros Hc. induction l as [|x l IH]; [done|]. cbn.
  destruct (c x) eqn:E; [by rewrite Hc, E | by rewrite E].
Qed.

Lemma update_none {A} (c : A → bool) (f : A → A) l :
  List.find c l = None → List.map (λ x, if c x then f x else x) l = l.
Proof.
  induction l as [|x l IH]; [done|]. cbn.
  destruct (c x); [discriminate|]. intros H. by rewrite IH.
Qed.

Lemma bump_views_missing n d : post_by_id n d = None → bump_views n d = d.
Proof.
  unfold post_by_id, get, bump_views, update_where. intros H. db_simpl.
  rewrite update_none by done. by destruct d as [? [] ? ? ? ? ? ? ? ?].
Qed.

Lemma bump_views_rows z d :
  rows (posts (bump_views (Int z) d))
  = (λ q, if bool_decide (p_id q = z) then with_views (p_views q + 1) q else q)
      <$> rows (posts d).
Proof.
  unfold bump_views, update_where. db_simpl. cbn [rows].
  apply map_ext. intros q. cbn. destruct (Z.eqb_spec (p_id q) z).
  - by rewrite bool_decide_eq_true_2.
  - by rewrite bool_decide_eq_false_2.
Qed.

Lemma bump_views_get n d :
  post_by_id n (bump_views n d)
  = (λ p, with_views (p_views p + 1) p) <$> post_by_id n d.
Proof.
  unfold post_by_id, get, bump_views, update_where. db_simpl. cbn [rows].
  by rewrite find_update.
Qed.

(** C7, as the code has it.  GET /blog/:id for an existing post adds
    exactly one to the view counter of that post and leaves every other
    row as it was; the row handed to [BlogView] is the one read back
    after the update.  For an id without a post the answer is 404 and the
    store is unchanged.  No request of any route, and no start-up
    seeding, ever lowers the view counter of a post or removes a post.
    ([BlogView] does not print the counter: the lemmas that follow show
    two stores with different counters answered with the same page.) *)
Theorem blog_view_increments digest req clock d s :
  let n := Number (field (params req) "id") in
  let out := run digest GET_blog req clock d s in
  match post_by_id n d with
  | Some p =>
      rows (posts (db_after out))
      = (λ q, if bool_decide (p_id q = p_id p)
              then with_views (p_views q + 1) q else q) <$> rows (posts d)
      ∧ post_by_id n (db_after out) = Some (with_views (p_views p + 1) p)
      ∧ response_of out
        = Some (Send 200 (BlogView (principal d s) (with_views (p_views p + 1) p)))
  | None =>
      response_of out = Some (Send 404 (Text "Not found"))
      ∧ db_after out = d
  end
  ∧ (∀ r req' clock' s',
       views_grow d (db_after (run digest r req' clock' d s')))
  ∧ (∀ random clock' w, views_grow (db w) (db (initDb digest random clock' w).2)).
Proof.
  cbn zeta. split; [|split; intros; [apply views_grow_run | apply views_grow_initDb]].
  unfold run, serve. monad. rewrite middleware_spec. cbn.
  unfold get_blog. step. rewrite bump_views_get.
  destruct (post_by_id _ d) as [p|] eqn:E; cbn.
  - pose proof (post_by_id_Some _ _ _ E) as [En _]. rewrite En, bump_views_rows.
    rewrite <- En, bump_views_get, E. cbn. repeat split.
  - rewrite bump_views_missing by done. done.
Qed.

(** Two stores that differ only in the view counter of the first post are
    answered with the same page. *)
Lemma blog_page_same_for_different_counts :
  response_of (run demo_digest GET_blog blog_req (λ _, 0) demo_db empty_session)
  = response_of (run demo_digest GET_blog blog_req (λ _, 0) demo_once empty_session).
Proof. vm_compute. reflexivity. Qed.

Lemma demo_db_first_post :
  ∃ p, post_by_id (Number (field (params blog_req) "id")) demo_db = Some p
       ∧ p_views p = 0.
Proof. eexists. split; vm_compute; reflexivity. Qed.

Lemma demo_once_first_post :
  ∃ p, post_by_id (Number (field (params blog_req) "id")) demo_once = Some p
       ∧ p_views p = 1.
Proof. eexists. split; vm_compute; reflexivity. Qed.

(** C7, as stated.  The page rendered for a post does not reflect its
    view counter: no function of the response yields the incremented
    count for every store. *)
Lemma blog_page_does_not_show_count :
  ¬ ∃ shown : option response → Z,
      ∀ d req p,
        post_by_id (Number (field (params req) "id")) d = Some p →
        shown (response_of (run demo_digest GET_blog req (λ _, 0) d empty_session))
        = p_views p + 1.
Proof.
  intros [shown H].
  destruct demo_db_first_post as (p0 & E0 & V0).
  destruct demo_once_first_post as (p1 & E1 & V1).
  apply H in E0, E1.
  rewrite blog_page_same_for_different_counts in E0.
  rewrite E0 in E1. lia.
Qed.

(** ** Login *)

Lemma post_login_locked digest req clock w lockedUntil :
  login_locked_until (sess w) = Some lockedUntil →
  truthy (Num (Int lockedUntil)) = true →
  clock (ticks w) < lockedUntil →
  res w = None →
  post_login digest req clock w =
  (Ok (),
   World (db w) (sess w)
     (Some (Send 200 (LoginView (req_user req)
        (Str (too_many (ceil_div (lockedUntil - clock (S (ticks w))) 1000))))))
     (log w) (S (S (ticks w)))).
Proof.
  intros HL Ht Hlt Hres. destruct w as [d s r l t]. cbn in *. subst r.
  unfold post_login. step. rewrite HL, Ht. step.
  destruct (Z.ltb_spec (clock t) lockedUntil); [|lia]. step. reflexivity.
Qed.

Lemma post_login_unlocked digest req clock w :
  locked_at (sess w) (clock (ticks w)) = false →
  post_login digest req clock w =
  login_check digest req clock (add_ticks (lock_reads (sess w)) w).
Proof.
  intros Hl. destruct w as [d s r l t]. unfold locked_at, lock_reads, add_ticks in *.
  cbn in *. unfold post_login. step.
  destruct (login_locked_until s) as [L|]; [|reflexivity].
  destruct (truthy (Num (Int L))); cbn in *; [|reflexivity].
  step. rewrite Hl. reflexivity.
Qed.

Lemma login_check_success digest req clock w row :
  credentials_match digest (db w) req = Some row →
  res w = None →
  login_check digest req clock w =
  (Ok (),
   World (db w) (Session (Some (u_id row)) (Some 0%N) None)
     (Some (Redirect (if String.eqb (u_role row) "admin" then "/dashboard"
                      else if String.eqb (u_role row) "staff" then "/staff"
                      else "/")))
     (log w ++ [Read Users]) (ticks w)).
Proof.
  intros Hc Hres. destruct w as [d s r l t]. cbn in *. subst r.
  unfold credentials_match in Hc. unfold login_check. step.
  destruct (user_by_email _ d) as [r|]; [|discriminate].
  unfold sha256. destruct (String.eqb _ _); [|discriminate].
  injection Hc as ->. unfold login_success. step.
  by repeat case_match.
Qed.

Lemma login_check_failure digest req clock w :
  credentials_match digest (db w) req = None →
  res w = None →
  let n := (default 0 (failed_login (sess w)) + 1)%N in
  login_check digest req clock w =
  (Ok (),
   World (db w)
     (Session (uid (sess w)) (Some n)
        (if (6 <=? n)%N then Some (clock (ticks w) + 5 * 60 * 1000)
         else login_locked_until (sess w)))
     (Some (Send 200 (LoginView (req_user req) (Str "Invalid credentials"))))
     (log w ++ [Read Users])
     (if (6 <=? n)%N then S (ticks w) else ticks w)).
Proof.
  intros Hc Hres. destruct w as [d s r l t]. cbn in *. subst r.
  unfold credentials_match in Hc. unfold login_check. step.
  assert (Hf : login_failure req clock
                 {| db := d; sess := s; res := None; log := l ++ [Read Users]; ticks := t |}
               = (Ok (),
   World d
     (Session (uid s) (Some (default 0 (failed_login s) + 1)%N)
        (if (6 <=? (default 0 (failed_login s) + 1))%N then Some (clock t + 5 * 60 * 1000)
         else login_locked_until s))
     (Some (Send 200 (LoginView (req_user req) (Str "Invalid credentials"))))
     (l ++ [Read Users])
     (if (6 <=? (default 0 (failed_login s) + 1))%N then S t else t))).
  { unfold login_failure. step.
    destruct (6 <=? default 0 (failed_login s) + 1)%N; reflexivity. }
  destruct (user_by_email _ d) as [r|]; [|exact Hf].
  unfold sha256. destruct (String.eqb _ _); [discriminate|exact Hf].
Qed.

Lemma run_login digest req clock d s :
  run digest POST_login req clock d s
  = finish (post_login digest (with_user (principal d s) req) clock
              (World d s None (authed_log s) 0)).
Proof. unfold run, serve. monad. rewrite middleware_spec. reflexivity. Qed.

Lemma locked_at_true s t :
  locked_at s t = true →
  ∃ L, login_locked_until s = Some L ∧ truthy (Num (Int L)) = true ∧ t < L.
Proof.
  unfold locked_at. destruct (login_locked_until s) as [L|]; [|discriminate].
  intros [H1 H2]%andb_true_iff. exists L. repeat split; [done|]. lia.
Qed.

(** C4, as the code has it.  A POST /login made while the session is not
    locked out, with credentials that match a stored user, resets the
    failed-attempt counter and the lockout, stores the user id in the
    session and redirects by role: admin to /dashboard, staff to /staff,
    user (and any other role) to /. *)
Theorem login_redirects_by_role digest req clock d s row :
  locked_at s (clock 0%nat) = false →
  credentials_match digest d req = Some row →
  let out := run digest POST_login req clock d s in
  session_after out = Session (Some (u_id row)) (Some 0%N) None
  ∧ response_of out
    = Some (Redirect (if String.eqb (u_role row) "admin" then "/dashboard"
                      else if String.eqb (u_role row) "staff" then "/staff"
                      else "/"))
  ∧ (u_role row = "admin" → response_of out = Some (Redirect "/dashboard"))
  ∧ (u_role row = "staff" → response_of out = Some (Redirect "/staff"))
  ∧ (u_role row = "user" → response_of out = Some (Redirect "/"))
  ∧ db_after out = d.
Proof.
  intros Hl Hc. cbn zeta. rewrite run_login.
  rewrite post_login_unlocked by exact Hl.
  rewrite (login_check_success _ _ _ _ row) by done. cbn.
  repeat split; intros ->; reflexivity.
Qed.

Lemma too_many_not_invalid u u' w :
  Some (Send 200 (LoginView u (Str (too_many w))))
  ≠ Some (Send 200 (LoginView u' (Str "Invalid credentials"))).
Proof.
  unfold LoginView, error_box, too_many.
  cbn -[pretty]. unfold truthy, escapeHtml, Js.or, truthy, ToString. cbn -[pretty].
  discriminate.
Qed.

Lemma login_attempt_invalid digest req clock d s :
  invalid_credentials (run digest POST_login req clock d s) →
  let n := (default 0 (failed_login s) + 1)%N in
  db_after (run digest POST_login req clock d s) = d
  ∧ session_after (run digest POST_login req clock d s)
    = Session (uid s) (Some n)
        (if (6 <=? n)%N then Some (clock (lock_reads s) + 5 * 60 * 1000)
         else login_locked_until s).
Proof.
  intros [u Hinv]. cbn zeta. rewrite run_login in *.
  destruct (locked_at s (clock 0%nat)) eqn:Hl.
  - apply locked_at_true in Hl as (L & HL & Ht & Hlt).
    rewrite (post_login_locked _ _ _ _ L) in Hinv by done.
    unfold finish in Hinv. cbn [response_of res snd fst] in Hinv.
    by apply too_many_not_invalid in Hinv.
  - rewrite post_login_unlocked in * by exact Hl.
    destruct (credentials_match digest d req) as [row|] eqn:Hc.
    + rewrite (login_check_success _ _ _ _ row) in Hinv by done. discriminate.
    + rewrite login_check_failure by done. cbn. rewrite Nat.add_0_r. done.
Qed.

Lemma lock_reads_le s : (lock_reads s ≤ 1)%nat.
Proof. unfold lock_reads. repeat case_match; lia. Qed.

(** After a run of failed attempts the counter has grown by their number,
    and once it has reached six the last of them has set the lockout. *)
Lemma failed_attempts_count digest l : ∀ d s,
  l ≠ [] →
  Forall invalid_credentials (login_attempts digest l d s) →
  ∃ req clock out k,
    last l = Some (req, clock)
    ∧ last (login_attempts digest l d s) = Some out
    ∧ failed_login (session_after out)
      = Some (default 0 (failed_login s) + N.of_nat (length l))%N
    ∧ (k ≤ 1)%nat
    ∧ ((6 ≤ default 0 (failed_login s) + N.of_nat (length l))%N →
       login_locked_until (session_after out) = Some (clock k + 5 * 60 * 1000)).
Proof.
  induction l as [|[req clock] l IH]; intros d s Hne Hall; [done|].
  cbn [login_attempts] in Hall. cbv zeta in Hall.
  apply Forall_cons in Hall as [H1 Hall].
  pose proof (login_attempt_invalid _ _ _ _ _ H1) as [Hd Hs]. cbv zeta in Hs.
  destruct l as [|a l].
  - exists req, clock, (run digest POST_login req clock d s), (lock_reads s).
    cbn [login_attempts last length]. rewrite Hs. cbn.
    repeat split; [apply lock_reads_le|].
    intros H6. destruct (N.leb_spec 6 (default 0%N (failed_login s) + 1)%N); [done|lia].
  - destruct (IH _ _ ltac:(done) Hall) as (req' & clock' & out & k & Hl & Ho & Hf & Hk & Hlock).
    exists req', clock', out, k. rewrite Hs in Hf, Hlock. cbn [failed_login] in Hf, Hlock.
    change (default 0%N (Some ?x)) with x in Hf, Hlock.
    repeat split.
    + rewrite <- Hl. reflexivity.
    + cbn [login_attempts]. cbv zeta. rewrite <- Ho. by destruct a.
    + rewrite Hf. f_equal. rewrite !length_cons, !Nat2N.inj_succ. lia.
    + exact Hk.
    + intros H6. apply Hlock. revert H6.
      rewrite !length_cons, !Nat2N.inj_succ. lia.
Qed.

Lemma ceil_div_mono a a' : a ≤ a' → ceil_div a 1000 ≤ ceil_div a' 1000.
Proof.
  intros H. unfold ceil_div.
  assert ((- a') / 1000 ≤ (- a) / 1000) by (apply Z.div_le_mono; lia). lia.
Qed.

Lemma ceil_div_shift a : ceil_div (a - 1000) 1000 = ceil_div a 1000 - 1.
Proof.
  unfold ceil_div. replace (- (a - 1000)) with (- a + 1 * 1000) by lia.
  rewrite Z.div_add by lia. lia.
Qed.

Lemma ceil_div_pos a : 0 < a → 1 ≤ ceil_div a 1000.
Proof.
  intros H. unfold ceil_div.
  assert ((- a) / 1000 < 0) by (apply Z.div_lt_upper_bound; lia). lia.
Qed.

(** From a session that is not locked out, attempts with credentials that
    match no user are all answered as invalid, as long as the counter has
    room. *)
Lemma wrong_attempts_invalid digest l : ∀ d s,
  login_locked_until s = None →
  (default 0 (failed_login s) + N.of_nat (length l) ≤ 6)%N →
  Forall (λ a, credentials_match digest d a.1 = None) l →
  Forall invalid_credentials (login_attempts digest l d s).
Proof.
  induction l as [|[req clock] l IH]; intros d s Hlock Hroom Hall;
    [apply Forall_nil_2|].
  apply Forall_cons in Hall as [Hc Hall]. cbn [fst] in Hc.
  cbn [login_attempts]. cbv zeta.
  assert (Hrun : run digest POST_login req clock d s
          = finish (login_check digest (with_user (principal d s) req) clock
                      (World d s None (authed_log s) 0))).
  { rewrite run_login, post_login_unlocked;
      [|by unfold locked_at; cbn [sess]; rewrite Hlock].
    unfold lock_reads, add_ticks. cbn [sess]. by rewrite Hlock. }
  rewrite Hrun, login_check_failure by done. cbn -[N.leb N.add].
  apply Forall_cons. split; [by eexists|].
  rewrite length_cons, Nat2N.inj_succ in Hroom.
  destruct l as [|a l]; [apply Forall_nil_2|].
  rewrite length_cons, Nat2N.inj_succ in Hroom.
  destruct (N.leb_spec 6 (default 0 (failed_login s) + 1))%N; [lia|].
  apply IH; cbn [login_locked_until failed_login]; try done.
  change (default 0%N (Some ?x)) with x.
  rewrite length_cons, Nat2N.inj_succ. lia.
Qed.

(** C2, as the code has it.  (1) Six consecutive attempts whose
    credentials match no user, made from a session without a lockout and
    with no failure counted, are each answered as invalid credentials;
    and after six consecutive attempts that fail the credential check,
    whatever the session, its lockout timestamp is the clock reading of
    the sixth attempt plus five minutes.  (2) An attempt made
    while the lockout timestamp is in the future is answered with the
    too-many-attempts message carrying the remaining time in seconds,
    rounded up; session and store are unchanged; the handler itself makes
    no store access, so the only store access of the request is the
    middleware's look-up of the session's user, made when the session
    carries a uid.  (3) The reported time never grows as the clock
    advances, drops once a full second has passed, and is at least one
    second while the lockout is in the future. *)
Theorem login_lockout digest :
  (∀ l d s,
     length l = 6%nat →
     login_locked_until s = None →
     default 0%N (failed_login s) = 0%N →
     Forall (λ a, credentials_match digest d a.1 = None) l →
     Forall invalid_credentials (login_attempts digest l d s))
  ∧ (∀ l d s,
     length l = 6%nat →
     Forall invalid_credentials (login_attempts digest l d s) →
     ∃ req clock out k,
       last l = Some (req, clock)
       ∧ last (login_attempts digest l d s) = Some out
       ∧ (k ≤ 1)%nat
       ∧ login_locked_until (session_after out) = Some (clock k + 5 * 60 * 1000))
  ∧ (∀ req clock d s,
       locked_at s (clock 0%nat) = true →
       ∃ lockedUntil,
         login_locked_until s = Some lockedUntil
         ∧ response_of (run digest POST_login req clock d s)
           = Some (Send 200
                     (LoginView (principal d s)
                        (Str (too_many (ceil_div (lockedUntil - clock 1%nat) 1000)))))
         ∧ session_after (run digest POST_login req clock d s) = s
         ∧ db_after (run digest POST_login req clock d s) = d
         ∧ accesses (run digest POST_login req clock d s) = authed_log s
         ∧ (∀ w, sess w = s → ticks w = 0%nat → res w = None →
              log (post_login digest req clock w).2 = log w))
  ∧ (∀ lockedUntil t t',
       t ≤ t' →
       ceil_div (lockedUntil - t') 1000 ≤ ceil_div (lockedUntil - t) 1000
       ∧ (t + 1000 ≤ t' →
          ceil_div (lockedUntil - t') 1000 < ceil_div (lockedUntil - t) 1000)
       ∧ (t < lockedUntil → 1 ≤ ceil_div (lockedUntil - t) 1000)).
Proof.
  split; [|split; [|split]].
  - intros l d s Hlen Hlock Hzero Hall.
    apply wrong_attempts_invalid; try done. rewrite Hzero, Hlen. lia.
  - intros l d s Hlen Hall.
    destruct (failed_attempts_count digest l d s) as (req & clock & out & k & H1 & H2 & H3 & H4 & H5);
      [by destruct l | done |].
    exists req, clock, out, k. repeat split; try done. apply H5. rewrite Hlen. lia.
  - intros req clock d s Hl.
    apply locked_at_true in Hl as (L & HL & Ht & Hlt). exists L.
    rewrite run_login, (post_login_locked _ _ _ _ L) by done. cbn.
    repeat split; try done.
    intros w Hs Ht0 Hres. rewrite (post_login_locked _ _ _ _ L); cbn; try done.
    + by rewrite Hs.
    + by rewrite Ht0.
  - intros L t t' Hle. repeat split.
    + apply ceil_div_mono. lia.
    + intros H. pose proof (ceil_div_mono (L - t') (L - t - 1000) ltac:(lia)).
      rewrite ceil_div_shift in *. lia.
    + intros H. apply ceil_div_pos. lia.
Qed.

Lemma login_redirects_by_role_witness :
  let out := run demo_digest POST_login good_login (λ _, 7000) demo_db empty_session in
  let row := User 3 "user@smm.local" (demo_digest "user123") "Demo User" "user"
                  (Some "@demouser") 0 1000 in
  session_after out = Session (Some (u_id row)) (Some 0%N) None
  ∧ response_of out
    = Some (Redirect (if String.eqb (u_role row) "admin" then "/dashboard"
                      else if String.eqb (u_role row) "staff" then "/staff"
                      else "/"))
  ∧ (u_role row = "admin" → response_of out = Some (Redirect "/dashboard"))
  ∧ (u_role row = "staff" → response_of out = Some (Redirect "/staff"))
  ∧ (u_role row = "user" → response_of out = Some (Redirect "/"))
  ∧ db_after out = demo_db.
Proof.
  apply (login_redirects_by_role demo_digest good_login (λ _, 7000) demo_db
           empty_session).
  - reflexivity.
  - vm_compute. reflexivity.
Defined.

(** C4, as stated.  While the session is locked out, the right password
    is turned away like any other: no redirect, no user id in the
    session. *)
Lemma locked_session_rejects_correct_credentials :
  locked_at locked_session 7000 = true
  ∧ credentials_match demo_digest demo_db good_login ≠ None
  ∧ response_of (run demo_digest POST_login good_login (λ _, 7000) demo_db
                     locked_session)
    = Some (Send 200 (LoginView None (Str (too_many 299))))
  ∧ session_after (run demo_digest POST_login good_login (λ _, 7000) demo_db
                       locked_session)
    = locked_session.
Proof. vm_compute. repeat split; try reflexivity. discriminate. Qed.

Lemma login_lockout_witness :
  Forall invalid_credentials
    (login_attempts demo_digest six_attempts demo_db empty_session)
  ∧ (∃ req clock out k,
     last six_attempts = Some (req, clock)
     ∧ last (login_attempts demo_digest six_attempts demo_db empty_session) = Some out
     ∧ (k ≤ 1)%nat
     ∧ login_locked_until (session_after out) = Some (clock k + 5 * 60 * 1000))
  ∧ (∃ lockedUntil,
       login_locked_until locked_session = Some lockedUntil
       ∧ response_of (run demo_digest POST_login good_login (λ _, 7000) demo_db
                          locked_session)
         = Some (Send 200
                   (LoginView (principal demo_db locked_session)
                      (Str (too_many (ceil_div (lockedUntil - 7000) 1000)))))
       ∧ session_after (run demo_digest POST_login good_login (λ _, 7000) demo_db
                            locked_session) = locked_session
       ∧ db_after (run demo_digest POST_login good_login (λ _, 7000) demo_db
                       locked_session) = demo_db
       ∧ accesses (run demo_digest POST_login good_login (λ _, 7000) demo_db
                       locked_session) = authed_log locked_session
       ∧ (∀ w, sess w = locked_session → ticks w = 0%nat → res w = None →
            log (post_login demo_digest good_login (λ _, 7000) w).2 = log w))
  ∧ (ceil_div (306000 - 8000) 1000 ≤ ceil_div (306000 - 7000) 1000
     ∧ (7000 + 1000 ≤ 8000 →
        ceil_div (306000 - 8000) 1000 < ceil_div (306000 - 7000) 1000)
     ∧ (7000 < 306000 → 1 ≤ ceil_div (306000 - 7000) 1000)).
Proof.
  destruct (login_lockout demo_digest) as (A0 & A & B & C).
  assert (H0 : Forall invalid_credentials
                 (login_attempts demo_digest six_attempts demo_db empty_session)).
  { apply A0; try reflexivity.
    apply (bool_decide_unpack _). vm_compute. reflexivity. }
  split; [exact H0|]. split; [|split].
  - apply A; [reflexivity | exact H0].
  - apply (B good_login (λ _, 7000) demo_db locked_session). reflexivity.
  - apply (C 306000 7000 8000). lia.
Defined.

(** C2, as stated.  A signed-in user who then fails six logins is locked
    out with the user id still in the session; the next attempt, made
    during the lockout, reads the users table: the middleware looks the
    session's user up before the handler rejects the attempt. *)
Lemma locked_attempt_reads_users :
  let s := Session (Some 3) (Some 6%N) (Some 306000) in
  last (session_after
          <$> login_attempts demo_digest six_attempts demo_db (signed_in 3))
  = Some s
  ∧ locked_at s 7000 = true
  ∧ accesses (run demo_digest POST_login good_login (λ _, 7000) demo_db s)
    = [Read Users]
  ∧ reads_of Users
      (accesses (run demo_digest POST_login good_login (λ _, 7000) demo_db s))
    ≠ [].
Proof. vm_compute. repeat split; try reflexivity. discriminate. Qed.

(** ** Signup *)

Lemma max_id_ge {A} (id : A → Z) l x : x ∈ l → id x ≤ max_id id l.
Proof.
  induction l as [|y l IH]; [by intros ?%elem_of_nil|].
  rewrite elem_of_cons. unfold max_id in *. cbn [foldr].
  intros [->|H]; [lia|]. specialize (IH H). lia.
Qed.

Lemma next_id_fresh {A} (id : A → Z) (t : table A) x :
  x ∈ rows t → id x < next_id id t.
Proof. intros H. apply (max_id_ge id) in H. unfold next_id. lia. Qed.

Lemma next_id_pos {A} (id : A → Z) (t : table A) : 0 < next_id id t.
Proof.
  unfold next_id. assert (0 ≤ max_id id (rows t)); [|lia].
  unfold max_id. induction (rows t) as [|y l IH]; cbn [foldr]; lia.
Qed.

Lemma find_app_none {A} (c : A → bool) l x :
  List.find c l = None → List.find c (l ++ [x]) = if c x then Some x else None.
Proof.
  induction l as [|y l IH]; [done|]. cbn. destruct (c y); [discriminate|]. exact IH.
Qed.

Lemma find_none_iff {A} (c : A → bool) l :
  (∀ x, x ∈ l → c x = false) → List.find c l = None.
Proof.
  induction l as [|y l IH]; [done|]. intros H. cbn.
  rewrite (H y) by apply list_elem_of_here. apply IH. intros x Hx. apply H.
  by apply list_elem_of_further.
Qed.

(** C3.  POST /signup with a non-empty email and password, on a store with
    consistent ids, when none of the four statements after the insert of
    the user fails.  When the normalized email is already taken, or the
    insert of the user fails for another reason, the form is shown again
    with the already-exists error and neither the store nor the session
    changes; otherwise one user row (role user), one status row, one
    targets row and one metric row (10 likes, 8 follows) are appended for
    the new user id, nothing else changes, the session holds the new user
    id and designates the new user, and the answer is a redirect to /. *)
Theorem signup_all_or_nothing digest failing req clock d s :
  truthy (field (body req) "email") = true →
  truthy (field (body req) "password") = true →
  ids_consistent d →
  failing 1%nat = false → failing 2%nat = false →
  failing 3%nat = false → failing 4%nat = false →
  let out := run_signup digest failing req clock d s in
  let email := toLowerCase (ToString (field (body req) "email")) in
  let uid' := next_id u_id (users d) in
  let new_user :=
    User uid' email (digest (ToString (field (body req) "password")))
         (ToString (field (body req) "name" ||| Str "")) "user"
         (Some (ToString (field (body req) "instagram" ||| Str ""))) 0
         (clock 0%nat) in
  if failing 0%nat || bool_decide (is_Some (user_by_email email d)) then
    response_of out
    = Some (Send 200 (SignupView (principal d s) (Str "Email already exists")))
    ∧ db_after out = d
    ∧ session_after out = s
  else
    rows (users (db_after out)) = rows (users d) ++ [new_user]
    ∧ rows (statuses (db_after out))
      = rows (statuses d) ++ [Status (next_id st_id (statuses d)) uid']
    ∧ rows (targets (db_after out))
      = rows (targets d)
        ++ [Target (next_id tg_id (targets d)) uid' "" "" "" "" "" (clock 1%nat)]
    ∧ rows (metrics (db_after out))
      = rows (metrics d)
        ++ [Metric (next_id m_id (metrics d)) (Some uid') (Some 10) (Some 8)
              (clock 2%nat)]
    ∧ posts (db_after out) = posts d ∧ plans (db_after out) = plans d
    ∧ orders (db_after out) = orders d ∧ reviews (db_after out) = reviews d
    ∧ tickets (db_after out) = tickets d
    ∧ subscribers (db_after out) = subscribers d
    ∧ session_after out = Session (Some uid') (failed_login s) (login_locked_until s)
    ∧ principal (db_after out) (session_after out) = Some new_user
    ∧ response_of out = Some (Redirect "/").
Proof.
  intros He Hp [Hu Hst] F1 F2 F3 F4. cbn zeta.
  set (email := toLowerCase (ToString (field (body req) "email"))).
  set (uid' := next_id u_id (users d)).
  set (new_user := User uid' email _ _ _ _ _ _).
  unfold run_signup. monad. rewrite middleware_spec. cbn.
  unfold post_signup_env, attempt. cbn.
  destruct (failing 0%nat) eqn:F0; rewrite He, Hp, ?F1, ?F2, ?F3, ?F4; step;
    [done|].
  fold email.
  unfold sha256.
  destruct (user_by_email email d) as [dup|] eqn:Hdup.
  - rewrite bool_decide_eq_true_2 by done.
    unfold insert_user. rewrite Hdup. cbn. done.
  - rewrite bool_decide_eq_false_2 by (by intros [? ?]).
    set (d1 := set_users (insert u_id (λ i, User i email
             (digest (ToString (field (body req) "password")))
             (ToString (field (body req) "name" ||| Str "")) "user"
             (Some (ToString (field (body req) "instagram" ||| Str ""))) 0
             (clock 0%nat))) d).
    assert (E1 : insert_user email
             (digest (ToString (field (body req) "password")))
             (ToString (field (body req) "name" ||| Str "")) "user"
             (Some (ToString (field (body req) "instagram" ||| Str ""))) 
             (clock 0%nat) d = Some d1).
    { unfold insert_user. by rewrite Hdup. }
    assert (E2 : user_by_email email d1 = Some new_user).
    { unfold user_by_email, get in *. subst d1. unfold insert. db_simpl.
      cbn [rows]. rewrite find_app_none by done. cbn [u_email].
      by rewrite String.eqb_refl. }
    assert (E3 : insert_status_or_ignore uid' d1
                 = set_statuses (insert st_id (λ i, Status i uid')) d1).
    { unfold insert_status_or_ignore, get.
      rewrite find_none_iff; [done|]. intros st Hin. subst d1. db_simpl.
      apply Hst in Hin. apply Z.eqb_neq. subst uid'. unfold next_id. lia. }
    assert (E4 : user_by_id (Int uid') 
                   (insert_metric (Int uid') (Int 10) (Int 8) (clock 2%nat)
                      (insert_target uid' "" "" "" "" "" (clock 1%nat)
                         (set_statuses (insert st_id (λ i, Status i uid')) d1)))
                 = Some new_user).
    { unfold user_by_id, get, insert_metric, insert_target. subst d1.
      unfold insert. db_simpl. cbn [rows].
      rewrite find_app_none.
      - cbn. by rewrite Z.eqb_refl.
      - apply find_none_iff. intros u Hin. cbn. apply Z.eqb_neq.
        apply (next_id_fresh u_id) in Hin. fold uid' in Hin. lia. }
    rewrite E1. cbn. rewrite E2. cbn. rewrite E3. cbn.
    unfold principal. cbn [uid]. 
    replace (truthy (Num (Int uid'))) with true.
    2:{ unfold truthy. pose proof (next_id_pos u_id (users d)). fold uid' in H.
        by destruct (Z.eqb_spec uid' 0); [lia|]. }
    rewrite E4. repeat split.
Qed.

Lemma demo_db_consistent : ids_consistent demo_db.
Proof.
  split; apply Forall_forall; apply (bool_decide_unpack _); vm_compute;
    reflexivity.
Qed.

Lemma signup_all_or_nothing_witness :
  let out := run_signup demo_digest (λ _, false) signup_form
               (λ k, 8000 + Z.of_nat k) demo_db empty_session in
  let email := toLowerCase (ToString (field (body signup_form) "email")) in
  let uid' := next_id u_id (users demo_db) in
  let new_user :=
    User uid' email (demo_digest (ToString (field (body signup_form) "password")))
         (ToString (field (body signup_form) "name" ||| Str "")) "user"
         (Some (ToString (field (body signup_form) "instagram" ||| Str ""))) 0
         8000 in
  if false || bool_decide (is_Some (user_by_email email demo_db)) then
    response_of out
    = Some (Send 200 (SignupView (principal demo_db empty_session)
                        (Str "Email already exists")))
    ∧ db_after out = demo_db
    ∧ session_after out = empty_session
  else
    rows (users (db_after out)) = rows (users demo_db) ++ [new_user]
    ∧ rows (statuses (db_after out))
      = rows (statuses demo_db) ++ [Status (next_id st_id (statuses demo_db)) uid']
    ∧ rows (targets (db_after out))
      = rows (targets demo_db)
        ++ [Target (next_id tg_id (targets demo_db)) uid' "" "" "" "" "" 8001]
    ∧ rows (metrics (db_after out))
      = rows (metrics demo_db)
        ++ [Metric (next_id m_id (metrics demo_db)) (Some uid') (Some 10) (Some 8)
              8002]
    ∧ posts (db_after out) = posts demo_db ∧ plans (db_after out) = plans demo_db
    ∧ orders (db_after out) = orders demo_db
    ∧ reviews (db_after out) = reviews demo_db
    ∧ tickets (db_after out) = tickets demo_db
    ∧ subscribers (db_after out) = subscribers demo_db
    ∧ session_after out
      = Session (Some uid') (failed_login empty_session)
                (login_locked_until empty_session)
    ∧ principal (db_after out) (session_after out) = Some new_user
    ∧ response_of out = Some (Redirect "/").
Proof.
  apply (signup_all_or_nothing demo_digest (λ _, false) signup_form
           (λ k, 8000 + Z.of_nat k) demo_db empty_session).
  - reflexivity.
  - reflexivity.
  - exact demo_db_consistent.
  - reflexivity.
  - reflexivity.
  - reflexivity.
  - reflexivity.
Defined.

(** C3, as stated.  The four inserts are not one transaction.  When the
    third one fails (the database is locked or full, or the targets
    table was dropped by the maintenance script while the server runs),
    the user row and the status row written before it stay, without a
    targets and without a metrics row; the [catch] answers that the
    address exists, and the visitor is not signed in. *)
Lemma signup_interrupted_leaves_rows :
  let failing := λ k, (k =? 3)%nat in
  let out := run_signup demo_digest failing signup_form
               (λ k, 8000 + Z.of_nat k) demo_db empty_session in
  truthy (field (body signup_form) "email") = true
  ∧ truthy (field (body signup_form) "password") = true
  ∧ user_by_email "a@b.com" demo_db = None
  ∧ rows (users (db_after out))
    = rows (users demo_db)
      ++ [User 4 "a@b.com" (demo_digest "pw1") "Ann" "user" (Some "@ann") 0 8000]
  ∧ rows (statuses (db_after out)) = rows (statuses demo_db) ++ [Status 4 4]
  ∧ rows (targets (db_after out)) = rows (targets demo_db)
  ∧ rows (metrics (db_after out)) = rows (metrics demo_db)
  ∧ session_after out = empty_session
  ∧ response_of out
    = Some (Send 200 (SignupView None (Str "Email already exists"))).
Proof. vm_compute. repeat split; reflexivity. Qed.

(** Without a failing insert the environment is the plain one. *)
Lemma run_signup_plain digest req clock d s :
  run_signup digest (λ _, false) req clock d s
  = run digest POST_signup req clock d s.
Proof. reflexivity. Qed.

(** The scenario of the specification: signing up, logging in with the
    same credentials, and signing up again with the same email. *)
Example signup_login_scenario :
  let form := with_body [("email", "a@b.com"); ("password", "pw1")] browser in
  let o1 := run demo_digest POST_signup form (λ _, 8000) demo_db empty_session in
  let o2 := run demo_digest POST_login form (λ _, 8100) (db_after o1) empty_session in
  let o3 := run demo_digest POST_signup form (λ _, 8200) (db_after o2) empty_session in
  response_of o1 = Some (Redirect "/")
  ∧ uid (session_after o1) = Some 4
  ∧ response_of o2 = Some (Redirect "/")
  ∧ uid (session_after o2) = Some 4
  ∧ response_of o3
    = Some (Send 200 (SignupView None (Str "Email already exists")))
  ∧ db_after o3 = db_after o1.
Proof. vm_compute. repeat split; reflexivity. Qed.

(** An address is taken whatever the case of its letters, also beyond
    the ASCII ones. *)
Example signup_of_a_taken_address :
  let form e := with_body [("email", e); ("password", "pw1")] browser in
  let o1 := run demo_digest POST_signup (form "école@b.com") (λ _, 8000) demo_db
                empty_session in
  let o2 := run demo_digest POST_signup (form "ÉCOLE@B.com") (λ _, 8200)
                (db_after o1) empty_session in
  response_of o1 = Some (Redirect "/")
  ∧ response_of o2
    = Some (Send 200 (SignupView None (Str "Email already exists")))
  ∧ db_after o2 = db_after o1.
Proof. vm_compute. repeat split; reflexivity. Qed.

(** ** The schema constraints hold in every reachable store *)

Lemma schema_kept_refl d : schema_kept d d.
Proof. by intros H. Qed.

Lemma schema_kept_trans a b c : schema_kept a b → schema_kept b c → schema_kept a c.
Proof. unfold schema_kept. auto. Qed.

Lemma schema_kept_same d d' :
  users d' = users d → plans d' = plans d → statuses d' = statuses d →
  schema_kept d d'.
Proof.
  intros Eu Ep Es. unfold schema_kept, schema_ok, ids_consistent.
  by rewrite Eu, Ep, Es.
Qed.

Lemma NoDup_snoc_fresh (l : list Z) x : NoDup l → (∀ y, y ∈ l → y < x) → NoDup (l ++ [x]).
Proof.
  intros Hl Hx. apply NoDup_app. repeat split; [done| |apply NoDup_singleton].
  intros y Hy ->%list_elem_of_singleton. specialize (Hx _ Hy). lia.
Qed.

Lemma ids_below_next {A} (id : A → Z) (t : table A) y :
  y ∈ id <$> rows t → y < next_id id t.
Proof.
  intros (x & -> & Hx)%list_elem_of_fmap. by apply next_id_fresh.
Qed.

Lemma find_eqb_none_email e l :
  List.find (λ u, String.eqb (u_email u) e) l = None → e ∉ u_email <$> l.
Proof.
  induction l as [|u l IH]; cbn; [intros _; apply not_elem_of_nil|].
  destruct (String.eqb_spec (u_email u) e); [discriminate|].
  intros H. apply not_elem_of_cons. split; [congruence | by apply IH].
Qed.

Lemma schema_kept_insert_user e h n r ig now d d' :
  insert_user e h n r ig now d = Some d' → schema_kept d d'.
Proof.
  unfold insert_user, user_by_email, get.
  destruct (List.find _ _) eqn:Hf; [discriminate|]. intros [= <-].
  intros (Hid & Hem & Hpl & Hst & Hu & Hs). unfold schema_ok, ids_consistent.
  unfold insert. db_simpl. cbn [rows seq].
  rewrite !fmap_app. cbn [fmap list_fmap u_id u_email].
  repeat split; try done.
  - apply NoDup_snoc_fresh; [done|]. apply ids_below_next.
  - apply NoDup_app. repeat split; [done| |apply NoDup_singleton].
    intros y Hy ->%list_elem_of_singleton. by apply find_eqb_none_email in Hf.
  - intros u [Hin| ->%list_elem_of_singleton]%elem_of_app; cbn.
    + apply Hu in Hin. unfold next_id. lia.
    + lia.
  - intros st Hin. apply Hs in Hin. unfold next_id. lia.
Qed.

Lemma fmap_update {A B} (g : A → B) (c : A → bool) (f : A → A) l :
  (∀ x, g (f x) = g x) → g <$> List.map (λ x, if c x then f x else x) l = g <$> l.
Proof.
  intros Hg. induction l as [|x l IH]; [done|]. cbn. rewrite IH.
  by destruct (c x); rewrite ?Hg.
Qed.

Lemma schema_kept_update_users c f d :
  (∀ u, u_id (f u) = u_id u) → (∀ u, u_email (f u) = u_email u) →
  schema_kept d (set_users (update_where c f) d).
Proof.
  intros Hi He (Hid & Hem & Hpl & Hst & Hu & Hs).
  unfold schema_ok, ids_consistent, update_where. db_simpl. cbn [rows seq].
  rewrite !fmap_update by done. repeat split; try done.
  intros u (u0 & <- & Hin)%list_elem_of_In%in_map_iff.
  apply list_elem_of_In, Hu in Hin. destruct (c u0); rewrite ?Hi; done.
Qed.

Lemma NoDup_fmap_filter {A B} (g : A → B) (c : A → bool) l :
  NoDup (g <$> l) → NoDup (g <$> List.filter c l).
Proof.
  induction l as [|x l IH]; [done|]. cbn. rewrite NoDup_cons. intros [Hx Hl].
  destruct (c x); [|by apply IH]. cbn. apply NoDup_cons. split; [|by apply IH].
  intros (y & E & Hy)%list_elem_of_fmap. apply Hx. rewrite E.
  apply list_elem_of_fmap_2. apply list_elem_of_In in Hy.
  apply filter_In in Hy as [Hy _]. by apply list_elem_of_In.
Qed.

Lemma schema_kept_delete_user id d : schema_kept d (delete_user id d).
Proof.
  intros (Hid & Hem & Hpl & Hst & Hu & Hs).
  unfold schema_ok, ids_consistent, delete_user, delete_where. db_simpl.
  cbn [rows seq]. repeat split; try done; try by apply NoDup_fmap_filter.
  intros u Hin. apply Hu. apply list_elem_of_In in Hin.
  apply filter_In in Hin as [Hin _]. by apply list_elem_of_In.
Qed.

Lemma schema_kept_delete_statuses id d : schema_kept d (delete_statuses_of id d).
Proof.
  intros (Hid & Hem & Hpl & Hst & Hu & Hs).
  unfold schema_ok, ids_consistent, delete_statuses_of, delete_where. db_simpl.
  cbn [rows seq]. repeat split; try done; try by apply NoDup_fmap_filter.
  intros u Hin. apply Hs. apply list_elem_of_In in Hin.
  apply filter_In in Hin as [Hin _]. by apply list_elem_of_In.
Qed.

Lemma schema_kept_insert_plan n p f d : schema_kept d (insert_plan n p f d).
Proof.
  intros (Hid & Hem & Hpl & Hst & Hu & Hs).
  unfold schema_ok, ids_consistent, insert_plan, insert. cbn.
  repeat split; try done. rewrite fmap_app. cbn.
  apply NoDup_snoc_fresh; [done|]. apply ids_below_next.
Qed.

(** A status row for a user id that has been handed out. *)
Lemma schema_kept_insert_status uid d :
  schema_ok d → uid ≤ seq (users d) → schema_ok (insert_status_or_ignore uid d).
Proof.
  intros (Hid & Hem & Hpl & Hst & Hu & Hs) Hle.
  unfold insert_status_or_ignore, get.
  destruct (List.find _ _) eqn:Hf; [done|].
  unfold schema_ok, ids_consistent, insert. db_simpl. cbn [rows seq].
  repeat split; try done.
  - rewrite fmap_app. cbn. apply NoDup_app. repeat split; [done| |apply NoDup_singleton].
    intros y (st & E & Hin)%list_elem_of_fmap E'%list_elem_of_singleton.
    apply list_elem_of_In in Hin. eapply find_none in Hf; [|exact Hin].
    cbn in Hf. apply Z.eqb_neq in Hf. congruence.
  - intros st [Hin| ->%list_elem_of_singleton]%elem_of_app; [by apply Hs|done].
Qed.

Lemma user_by_email_seq e d r :
  schema_ok d → user_by_email e d = Some r → u_id r ≤ seq (users d).
Proof.
  intros (_ & _ & _ & _ & Hu & _) H. unfold user_by_email, get in H.
  apply find_some in H as [Hin _]. by apply Hu, list_elem_of_In.
Qed.

Lemma schema_kept_post_signup digest req : keeps schema_kept (post_signup digest req).
Proof.
  intros clock [d s r l t] Hok. cbn [db] in *. unfold post_signup, post_signup_env, attempt.
  cbv zeta.
  destruct (negb _ || negb _).
  { unfold send, respond. cbn. by destruct r. }
  step.
  destruct (insert_user _ _ _ _ _ _ d) as [d1|] eqn:E1; cbn.
  2:{ unfold send, respond. cbn. by destruct r. }
  pose proof (schema_kept_insert_user _ _ _ _ _ _ _ _ E1 Hok) as Hok1.
  destruct (user_by_email _ d1) as [row|] eqn:E2; cbn.
  2:{ by destruct r. }
  pose proof (schema_kept_insert_status (u_id row) d1 Hok1
                (user_by_email_seq _ _ _ Hok1 E2)) as Hok2.
  assert (schema_ok
            (insert_metric (Int (u_id row)) (Int 10) (Int 8) (clock (S (S t)))
               (insert_target (u_id row) "" "" "" "" "" (clock (S t))
                  (insert_status_or_ignore (u_id row) d1)))) as Hok3.
  { revert Hok2. by apply schema_kept_same. }
  destruct r; cbn; exact Hok3.
Qed.

Lemma schema_kept_post_staff_add digest req :
  keeps schema_kept (post_staff_add digest req).
Proof.
  unfold post_staff_add.
  apply keeps_guarded; [apply schema_kept_refl | apply schema_kept_trans|].
  intros me clock [d s r l t] Hok. cbn [db] in *. cbv zeta.
  destruct (negb _ || negb _).
  { unfold redirect, respond. cbn. by destruct r. }
  step.
  destruct (insert_user _ _ _ _ _ _ d) as [d1|] eqn:E1; cbn.
  2:{ by destruct r. }
  pose proof (schema_kept_insert_user _ _ _ _ _ _ _ _ E1 Hok) as Hok1.
  destruct (user_by_email _ d1) as [row|] eqn:E2; cbn.
  2:{ by destruct r. }
  pose proof (schema_kept_insert_status (u_id row) d1 Hok1
                (user_by_email_seq _ _ _ Hok1 E2)) as Hok2.
  assert (schema_ok
            (insert_metric (Int (u_id row)) (Int 0) (Int 0) (clock (S t))
               (insert_status_or_ignore (u_id row) d1))) as Hok3.
  { revert Hok2. by apply schema_kept_same. }
  destruct r; cbn; exact Hok3.
Qed.

Lemma schema_kept_run digest r req clock d s :
  schema_ok d → schema_ok (db_after (run digest r req clock d s)).
Proof.
  apply (run_keeps schema_kept schema_kept_refl schema_kept_trans); intros;
    try (apply schema_kept_same; reflexivity);
    try apply schema_kept_post_signup;
    try apply schema_kept_post_staff_add;
    try apply schema_kept_delete_user;
    try apply schema_kept_delete_statuses.
  - apply schema_kept_update_users; done.
  - apply schema_kept_update_users; done.
  - apply schema_kept_update_users; done.
Qed.

Lemma schema_ok_ensure_rows random ids : ∀ k clock w,
  schema_ok (db w) →
  (∀ id, id ∈ ids → id ≤ seq (users (db w))) →
  schema_ok (db (ensure_rows random k ids clock w).2).
Proof.
  induction ids as [|id ids IH]; intros k clock [d s r l t] Hok Hids; [done|].
  cbn [ensure_rows]. step. apply IH; cbn [db].
  - assert (schema_ok (insert_status_or_ignore id d)) as H.
    { apply schema_kept_insert_status; [done|]. apply Hids, list_elem_of_here. }
    revert H. by apply schema_kept_same.
  - intros i Hi. replace (users _) with (users d).
    + by apply Hids, list_elem_of_further.
    + unfold insert_status_or_ignore. by destruct (get _ _).
Qed.

Ltac schema_side :=
  first [ exact schema_kept_refl | exact schema_kept_trans
        | apply schema_kept_insert_plan
        | apply schema_kept_same; reflexivity ].

Lemma seq_ignored {A} (id : A → Z) (t : table A) : seq t ≤ seq (ignored id t).
Proof. unfold ignored, next_id. cbn [seq]. lia. Qed.

Lemma schema_kept_ignored_user d : schema_kept d (set_users (ignored u_id) d).
Proof.
  intros (Hid & Hem & Hpl & Hst & Hu & Hs).
  pose proof (seq_ignored u_id (users d)) as Hle.
  unfold schema_ok, ids_consistent. db_simpl. cbn [rows ignored].
  repeat split; try done.
  - intros u Hin. specialize (Hu u Hin). cbn [ignored] in Hle. lia.
  - intros st Hin. specialize (Hs st Hin). cbn [ignored] in Hle. lia.
Qed.

Lemma schema_kept_insert_user_or_ignore e h n r ig now d :
  schema_kept d (insert_user_or_ignore e h n r ig now d).
Proof.
  unfold insert_user_or_ignore.
  destruct (insert_user e h n r ig now d) eqn:E; cbn;
    [by eapply schema_kept_insert_user | apply schema_kept_ignored_user].
Qed.

Lemma insert_by_email_perm u l : insert_by_email u l ≡ₚ u :: l.
Proof.
  induction l as [|v l IH]; [done|]. cbn [insert_by_email].
  destruct (String.leb _ _); [done|]. rewrite IH. apply Permutation_swap.
Qed.

Lemma by_email_perm l : by_email l ≡ₚ l.
Proof.
  induction l as [|u l IH]; [done|]. unfold by_email in *. cbn [foldr].
  by rewrite insert_by_email_perm, IH.
Qed.

Lemma elem_of_user_ids id d :
  id ∈ user_ids d ↔ ∃ u, u ∈ rows (users d) ∧ u_id u = id.
Proof.
  unfold user_ids. rewrite list_elem_of_fmap. split.
  - intros (u & -> & Hu). exists u. by rewrite <- (by_email_perm (rows (users d))).
  - intros (u & Hu & <-). exists u. by rewrite (by_email_perm (rows (users d))).
Qed.

Lemma schema_kept_initDb digest random : keeps schema_kept (initDb digest random).
Proof.
  unfold initDb.
  apply (keeps_bind schema_kept schema_kept_trans); [|intros _].
  { unfold seed_users. keeps_auto;
      first [schema_side | apply schema_kept_insert_user_or_ignore]. }
  apply (keeps_bind schema_kept schema_kept_trans); [|intros _].
  { unfold seed_plans. keeps_auto; schema_side. }
  apply (keeps_bind schema_kept schema_kept_trans); [|intros _].
  { unfold seed_posts, seed_post. keeps_auto; schema_side. }
  apply (keeps_bind schema_kept schema_kept_trans); [|intros _].
  { unfold seed_reviews, seed_review. keeps_auto; schema_side. }
  intros clock [d s r l t] Hok. unfold mbind, M_bind, select. cbn [db fst snd].
  apply schema_ok_ensure_rows; [done|]. cbn [db].
  intros id (u & Hu & <-)%elem_of_user_ids.
  destruct Hok as (_ & _ & _ & _ & Hids & _). by apply Hids.
Qed.

Lemma schema_kept_initDb_sibling digest random :
  keeps schema_kept (initDb_sibling digest random).
Proof.
  unfold initDb_sibling.
  apply (keeps_bind schema_kept schema_kept_trans); [|intros _].
  { unfold seed_users. keeps_auto;
      first [schema_side | apply schema_kept_insert_user_or_ignore]. }
  apply (keeps_bind schema_kept schema_kept_trans); [|intros _].
  { unfold seed_plans_sibling. keeps_auto; schema_side. }
  apply (keeps_bind schema_kept schema_kept_trans); [|intros _].
  { unfold seed_posts, seed_post. keeps_auto; schema_side. }
  apply (keeps_bind schema_kept schema_kept_trans); [|intros _].
  { unfold seed_reviews, seed_review. keeps_auto; schema_side. }
  intros clock [d s r l t] Hok. unfold mbind, M_bind, select. cbn [db fst snd].
  apply schema_ok_ensure_rows; [done|]. cbn [db].
  intros id (u & Hu & <-)%elem_of_user_ids.
  destruct Hok as (_ & _ & _ & _ & Hids & _). by apply Hids.
Qed.

Lemma schema_ok_empty : schema_ok empty_db.
Proof.
  unfold schema_ok, ids_consistent. cbn.
  repeat split; try apply NoDup_nil_2; by intros ? ?%elem_of_nil.
Qed.

Lemma reachable_schema_ok digest d : reachable digest d → schema_ok d.
Proof.
  induction 1 as [|random clock d s _ IH|r req clock d s _ IH].
  - apply schema_ok_empty.
  - by apply (schema_kept_initDb digest random clock (start d s)).
  - by apply schema_kept_run.
Qed.

(** In particular the hypotheses of the signup and dashboard properties
    hold in every reachable store. *)
Lemma reachable_ids_consistent digest d : reachable digest d → ids_consistent d.
Proof. intros H. apply reachable_schema_ok in H. apply H. Qed.

Lemma reachable_plan_ids digest d :
  reachable digest d → NoDup (pl_id <$> rows (plans d)).
Proof. intros H. apply reachable_schema_ok in H. apply H. Qed.

Lemma reachable_sibling_schema_ok digest d :
  reachable_sibling digest d → schema_ok d.
Proof.
  induction 1 as [|random clock d s _ IH|r req clock d s _ IH].
  - apply schema_ok_empty.
  - by apply (schema_kept_initDb_sibling digest random clock (start d s)).
  - by apply schema_kept_run.
Qed.

(** ** Runs on the demo store *)

(** A visitor without a session is sent to the login page by a staff
    route when the request comes from a browser. *)
Example staff_panel_redirects_visitor :
  response_of (run demo_digest GET_staff browser (λ _, 5000) demo_db empty_session)
  = Some (Redirect "/login").
Proof. vm_compute. reflexivity. Qed.

(** The demo user buys the second plan, in the revision that sells
    plans; the plan id is read as a number. *)
Example checkout_on_sibling_store :
  let out := run demo_digest POST_checkout
                 (with_query [("plan_id", "2.0")] browser) (λ _, 2000)
                 sibling_db (signed_in 3) in
  rows (orders (db_after out)) = [Order 1 3 2 "" "" "paid" 2000]
  ∧ response_of out = Some (Redirect "/")
  ∧ accesses out = [Read Users; Read Plans; Write Orders].
Proof. vm_compute. repeat split; reflexivity. Qed.

(** Without a session the same request is sent to the login page, also
    when the plan does not exist. *)
Example checkout_without_session :
  let out := run demo_digest POST_checkout
                 (with_query [("plan_id", "99")] browser) (λ _, 2000)
                 sibling_db empty_session in
  response_of out = Some (Redirect "/login") ∧ db_after out = sibling_db.
Proof. vm_compute. repeat split; reflexivity. Qed.

(** The ids of a path and of a form are read as numbers: the first post
    under five spellings of its id, and a demotion of the admin. *)
Example post_ids_are_numbers :
  Forall (λ id,
            let out := run demo_digest GET_blog
                         (with_params [("id", id)] browser) (λ _, 0) demo_db
                         empty_session in
            p_views <$> post_by_id (Int 1) (db_after out) = Some 1)
    ["1"; "1.0"; "1e0"; "0x1"; " 01 "].
Proof. repeat constructor. Qed.

Example demote_by_exponent_id :
  let out := run demo_digest POST_staff_demote (with_body [("id", "1e0")] browser)
                 (λ _, 5000) demo_db (signed_in 2) in
  u_role <$> user_by_id (Int 1) demo_db = Some "admin"
  ∧ u_role <$> user_by_id (Int 1) (db_after out) = Some "user".
Proof. vm_compute. split; reflexivity. Qed.

(** Three views of the first post, then a view of a post that does not
    exist. *)
Example three_views :
  let view d := db_after (run demo_digest GET_blog blog_req (λ _, 0) d empty_session) in
  let d3 := view (view (view demo_db)) in
  let out := run demo_digest GET_blog (with_params [("id", "77")] browser)
                 (λ _, 0) d3 empty_session in
  (p_views <$> post_by_id (Int 1) d3) = Some 3
  ∧ (p_views <$> post_by_id (Int 2) d3) = Some 0
  ∧ response_of out = Some (Send 404 (Text "Not found"))
  ∧ db_after out = d3.
Proof. vm_compute. repeat split; reflexivity. Qed.

(** Negative deltas are clamped, absent ones read as zero. *)
Example metrics_clamped :
  let out := run demo_digest POST_staff_metrics
                 (with_body [("user_id", "3"); ("add_likes", "-4")] browser)
                 (λ _, 5000) demo_db (signed_in 2) in
  last (rows (metrics (db_after out))) = Some (Metric 4 (Some 3) (Some 0) (Some 0) 5000).
Proof. vm_compute. reflexivity. Qed.

(** * Further properties of the handlers *)

(** ** What writes to the session *)

Lemma ks_ret {A} (a : A) : keeps_session (mret a).
Proof. by intros clock w. Qed.
Lemma ks_bind {A B} (m : M A) (f : A → M B) :
  keeps_session m → (∀ a, keeps_session (f a)) → keeps_session (m ≫= f).
Proof.
  intros Hm Hf clock w. unfold mbind, M_bind. specialize (Hm clock w).
  destruct (m clock w) as [[a|] w']; cbn in *; [|done].
  by rewrite Hf.
Qed.
Lemma ks_try_catch {A} (m h : M A) :
  keeps_session m → keeps_session h → keeps_session (try_catch m h).
Proof.
  intros Hm Hh clock w. unfold try_catch. specialize (Hm clock w).
  destruct (m clock w) as [[a|] w']; cbn in *; [done|]. by rewrite Hh.
Qed.
Lemma ks_throw {A} : keeps_session (@throw A).
Proof. by intros clock w. Qed.
Lemma ks_tick : keeps_session tick.
Proof. by intros clock w. Qed.
Lemma ks_select {A} t (f : Db → A) : keeps_session (select t f).
Proof. by intros clock w. Qed.
Lemma ks_select2 {A} t1 t2 (f : Db → A) : keeps_session (select2 t1 t2 f).
Proof. by intros clock w. Qed.
Lemma ks_exec t f : keeps_session (exec t f).
Proof. by intros clock w. Qed.
Lemma ks_exec_try t f : keeps_session (exec_try t f).
Proof. intros clock w. unfold exec_try. by destruct (f (db w)). Qed.
Lemma ks_get_session : keeps_session get_session.
Proof. by intros clock w. Qed.
Lemma ks_headersSent : keeps_session headersSent.
Proof. by intros clock w. Qed.
Lemma ks_respond r : keeps_session (respond r).
Proof. intros clock w. unfold respond. by destruct (res w). Qed.
Lemma ks_authed : keeps_session authed.
Proof. intros clock w. by rewrite authed_spec. Qed.

Ltac ks_step :=
  lazymatch goal with
  | |- keeps_session (mret _) => apply ks_ret
  | |- keeps_session throw => apply ks_throw
  | |- keeps_session tick => apply ks_tick
  | |- keeps_session (select _ _) => apply ks_select
  | |- keeps_session (select2 _ _ _) => apply ks_select2
  | |- keeps_session get_session => apply ks_get_session
  | |- keeps_session headersSent => apply ks_headersSent
  | |- keeps_session (respond _) => apply ks_respond
  | |- keeps_session (redirect _) => apply ks_respond
  | |- keeps_session (send _) => apply ks_respond
  | |- keeps_session (send_status _ _) => apply ks_respond
  | |- keeps_session (attempt _ _ _) => unfold attempt
  | |- keeps_session authed => apply ks_authed
  | |- keeps_session (try_catch _ _) => apply ks_try_catch
  | |- keeps_session (mbind _ _) => apply ks_bind; [|intros ?]
  | |- keeps_session (exec _ _) => apply ks_exec
  | |- keeps_session (exec_try _ _) => apply ks_exec_try
  | |- keeps_session (match ?x with _ => _ end) => destruct x
  | |- keeps_session (let _ := _ in _) => cbv zeta
  end.

Lemma ks_seed_metrics userId n : ∀ i, keeps_session (seed_metrics userId i n).
Proof.
  induction n as [|n IH]; intros i; cbn [seed_metrics]; repeat ks_step; auto.
Qed.

Lemma ks_handler digest r req :
  r ≠ POST_login → r ≠ GET_logout → r ≠ POST_signup →
  keeps_session (handler digest r req).
Proof.
  intros H1 H2 H3. destruct r; try done; cbn [handler].
  all: unfold get_home, get_blogs, get_blog, get_login,
      get_signup, get_contact, post_contact_submit, post_ticket,
      post_subscribe, get_pricing, get_checkout, post_checkout, get_dashboard,
      dashboard_stats, post_admin_create_post, post_admin_assign_role,
      get_staff, get_staff_user_detail, post_staff_add, post_staff_promote,
      post_staff_demote, post_staff_delete, post_staff_metrics,
      post_staff_toggle_unsubscribe, get_performance, get_performance_user,
      get_reviews, get_static, guarded, requireRole, performance.
  all: repeat ks_step; auto using ks_seed_metrics.
Qed.

(** X1.  Only POST /login, GET /logout and POST /signup write to the
    session: after a request to any other route the session, with its
    user id, failure counter and lockout timestamp, is what it was. *)
Theorem session_changed_only_by_auth_routes digest r req clock d s :
  r ≠ POST_login → r ≠ GET_logout → r ≠ POST_signup →
  session_after (run digest r req clock d s) = s.
Proof.
  intros H1 H2 H3.
  assert (K : keeps_session (serve digest r req)).
  { unfold serve, middleware. repeat ks_step. by apply ks_handler. }
  exact (K clock (start d s)).
Qed.

Lemma session_changed_only_by_auth_routes_witness :
  session_after (run demo_digest POST_staff_delete
                     (with_body [("id", "3")] browser) (λ _, 5000) demo_db
                     (signed_in 2))
  = signed_in 2.
Proof.
  apply (session_changed_only_by_auth_routes demo_digest POST_staff_delete);
    discriminate.
Defined.

(** ** Logging out and failing again *)

Lemma run_logout digest req clock d s :
  run digest GET_logout req clock d s
  = Result d empty_session (Some (Redirect "/")) (authed_log s).
Proof. unfold run, serve. monad. rewrite middleware_spec. reflexivity. Qed.

(** X2.  GET /logout replaces the session by an empty one, whatever it
    held: the user id, the failure counter and the lockout timestamp are
    gone.  So a login with matching credentials made right after it
    succeeds, also when the session was locked out before. *)
Theorem logout_lifts_lockout digest req req' clock clock' d s row :
  credentials_match digest d req' = Some row →
  let out := run digest GET_logout req clock d s in
  let out' := run digest POST_login req' clock'
                  (db_after out) (session_after out) in
  session_after out = empty_session
  ∧ response_of out = Some (Redirect "/")
  ∧ db_after out = d
  ∧ session_after out' = Session (Some (u_id row)) (Some 0%N) None
  ∧ response_of out'
    = Some (Redirect (if String.eqb (u_role row) "admin" then "/dashboard"
                      else if String.eqb (u_role row) "staff" then "/staff"
                      else "/")).
Proof.
  intros Hc. cbn zeta. rewrite run_logout. cbn [db_after session_after response_of].
  repeat split.
  - rewrite run_login, post_login_unlocked by reflexivity.
    by rewrite (login_check_success _ _ _ _ row).
  - rewrite run_login, post_login_unlocked by reflexivity.
    by rewrite (login_check_success _ _ _ _ row).
Qed.

Lemma logout_lifts_lockout_witness :
  let out := run demo_digest GET_logout browser (λ _, 7000) demo_db locked_session in
  let out' := run demo_digest POST_login good_login (λ _, 7100)
                  (db_after out) (session_after out) in
  let row := User 3 "user@smm.local" (demo_digest "user123") "Demo User" "user"
                  (Some "@demouser") 0 1000 in
  session_after out = empty_session
  ∧ response_of out = Some (Redirect "/")
  ∧ db_after out = demo_db
  ∧ session_after out' = Session (Some (u_id row)) (Some 0%N) None
  ∧ response_of out'
    = Some (Redirect (if String.eqb (u_role row) "admin" then "/dashboard"
                      else if String.eqb (u_role row) "staff" then "/staff"
                      else "/")).
Proof.
  apply (logout_lifts_lockout demo_digest browser good_login (λ _, 7000)
           (λ _, 7100) demo_db locked_session).
  vm_compute. reflexivity.
Defined.

(** X3.  The failure counter is not reset when a lockout expires.  Once
    five failures are counted, every further attempt that reaches the
    credential check and fails it sets the lockout again, five minutes
    after the clock reading it takes. *)
Theorem failure_after_lockout_locks_again digest req clock d s n :
  failed_login s = Some n → (5 ≤ n)%N →
  locked_at s (clock 0%nat) = false →
  credentials_match digest d req = None →
  let out := run digest POST_login req clock d s in
  failed_login (session_after out) = Some (n + 1)%N
  ∧ login_locked_until (session_after out)
    = Some (clock (lock_reads s) + 5 * 60 * 1000)
  ∧ response_of out
    = Some (Send 200 (LoginView (principal d s) (Str "Invalid credentials"))).
Proof.
  intros Hn H5 Hl Hc. cbn zeta.
  rewrite run_login, post_login_unlocked by exact Hl.
  rewrite login_check_failure by done. cbn. rewrite Hn. cbn.
  destruct (N.leb_spec 6 (n + 1))%N; [|lia]. by rewrite Nat.add_0_r.
Qed.

Lemma failure_after_lockout_locks_again_witness :
  let out := run demo_digest POST_login bad_login (λ _, 400000) demo_db
                 locked_session in
  failed_login (session_after out) = Some (6 + 1)%N
  ∧ login_locked_until (session_after out)
    = Some (400000 + 5 * 60 * 1000)
  ∧ response_of out
    = Some (Send 200 (LoginView (principal demo_db locked_session)
                        (Str "Invalid credentials"))).
Proof.
  apply (failure_after_lockout_locks_again demo_digest bad_login (λ _, 400000)
           demo_db locked_session 6%N).
  - reflexivity.
  - lia.
  - reflexivity.
  - vm_compute. reflexivity.
Defined.

(** ** Which route writes which table *)

Lemma same_table_refl t d : same_table t d d.
Proof. by destruct t. Qed.

Lemma same_table_trans t a b c :
  same_table t a b → same_table t b c → same_table t a c.
Proof. destruct t; cbn; congruence. Qed.

Lemma same_table_all d d' : (∀ t, same_table t d d') → d' = d.
Proof.
  intros H.
  pose proof (H Users). pose proof (H Posts). pose proof (H Plans).
  pose proof (H Orders). pose proof (H Reviews). pose proof (H Tickets).
  pose proof (H Metrics). pose proof (H Targets). pose proof (H Statuses).
  pose proof (H Subscribers). destruct d, d'. cbn in *. congruence.
Qed.

(** A statement leaves the tables it does not name as they are. *)
Ltac same_stmt :=
  lazymatch goal with
  | H : insert_user _ _ _ _ _ _ _ = Some _ |- same_table ?t _ _ =>
      unfold insert_user in H; destruct (user_by_email _ _) in H;
      [discriminate | injection H as <-];
      tryif is_var t then destruct t; first [congruence | reflexivity]
      else reflexivity
  | |- same_table ?t _ (insert_status_or_ignore _ _) =>
      unfold insert_status_or_ignore; destruct (get _ _);
      tryif is_var t then destruct t; first [congruence | reflexivity]
      else reflexivity
  | |- same_table ?t _ (insert_user_or_ignore _ _ _ _ _ _ _) =>
      unfold insert_user_or_ignore, insert_user; destruct (user_by_email _ _);
      tryif is_var t then destruct t; first [congruence | reflexivity]
      else reflexivity
  | |- same_table ?t _ _ =>
      tryif is_var t then destruct t; first [congruence | reflexivity]
      else reflexivity
  end.

Lemma same_seed_metrics t userId n :
  t ≠ Metrics → ∀ i, keeps (same_table t) (seed_metrics userId i n).
Proof.
  intros Ht. pose proof (same_table_refl t). pose proof (same_table_trans t).
  induction n as [|n IH]; intros i; cbn [seed_metrics]; keeps_auto; auto.
  same_stmt.
Qed.

Ltac not_written H :=
  repeat match type of H with
         | _ ∉ _ :: _ => apply not_elem_of_cons in H; destruct H as [? H]
         end.

Lemma same_handler digest r req t :
  t ∉ may_write r → keeps (same_table t) (handler digest r req).
Proof.
  intros Ht. pose proof (same_table_refl t). pose proof (same_table_trans t).
  destruct r; cbn [handler may_write] in *; not_written Ht.
  all: unfold get_home, get_blogs, get_blog, get_login, post_login,
      get_logout, get_signup, post_signup, post_signup_env, get_contact,
      post_contact_submit,
      post_ticket, post_subscribe, get_pricing, get_checkout, post_checkout,
      get_dashboard, dashboard_stats, post_admin_create_post,
      post_admin_assign_role, get_staff, get_staff_user_detail, post_staff_add,
      post_staff_promote, post_staff_demote, post_staff_delete,
      post_staff_metrics, post_staff_toggle_unsubscribe, get_performance,
      get_performance_user, get_reviews, get_static, performance, login_check,
      login_success, login_failure.
  all: keeps_auto; auto using same_seed_metrics.
  all: same_stmt.
Qed.

Lemma same_run digest r req clock d s t :
  t ∉ may_write r →
  same_table t d (db_after (run digest r req clock d s)).
Proof.
  intros Ht. pose proof (same_table_refl t). pose proof (same_table_trans t).
  assert (K : keeps (same_table t) (serve digest r req)).
  { unfold serve, middleware. keeps_auto. by apply same_handler. }
  exact (K clock (start d s)).
Qed.

(** A request that changes table [t] on route [r], shown by running it. *)
Ltac written_by req s d :=
  exists req, (λ _, 5000), d, s;
  let H := fresh in
  intros H; cbn [same_table] in H; apply (f_equal rows) in H;
  vm_compute in H; discriminate H.

(** X4.  Every route writes exactly the tables its statements name.  A
    table outside [may_write r] is the same, rows and sequence, after
    any request to route [r], whatever the request, the session and the
    store; and for each table in [may_write r] there is a request to [r]
    that changes it. *)
Theorem route_writes_exactly_its_tables digest r t :
  (t ∉ may_write r →
   ∀ req clock d s, same_table t d (db_after (run digest r req clock d s)))
  ∧ (t ∈ may_write r →
     ∃ req clock d s, ¬ same_table t d (db_after (run digest r req clock d s))).
Proof.
  split; [intros Ht req clock d s; by apply same_run|].
  destruct r; cbn [may_write]; rewrite ?elem_of_cons, elem_of_nil;
    intros Ht; repeat destruct Ht as [->|Ht]; try destruct Ht.
  - written_by blog_req empty_session demo_db.
  - written_by signup_form empty_session demo_db.
  - written_by signup_form empty_session demo_db.
  - written_by signup_form empty_session demo_db.
  - written_by signup_form empty_session demo_db.
  - written_by browser empty_session demo_db.
  - written_by (with_body [("subject", "s"); ("message", "m")] browser)
      (signed_in 3) demo_db.
  - written_by (with_body [("email", "a@b.c")] browser) empty_session demo_db.
  - written_by (with_query [("plan_id", "1")] browser) (signed_in 3) demo_db.
  - written_by (with_body [("title", "T")] browser) (signed_in 1) demo_db.
  - written_by (with_body [("email", "user@smm.local"); ("role", "staff")] browser)
      (signed_in 1) demo_db.
  - written_by (with_body [("email", "n@x.y"); ("password", "p")] browser)
      (signed_in 2) demo_db.
  - written_by (with_body [("email", "n@x.y"); ("password", "p")] browser)
      (signed_in 2) demo_db.
  - written_by (with_body [("email", "n@x.y"); ("password", "p")] browser)
      (signed_in 2) demo_db.
  - written_by (with_body [("id", "3")] browser) (signed_in 2) demo_db.
  - written_by (with_body [("id", "2")] browser) (signed_in 2) demo_db.
  - written_by (with_body [("id", "3")] browser) (signed_in 2) demo_db.
  - written_by (with_body [("id", "3")] browser) (signed_in 2) demo_db.
  - written_by (with_body [("id", "3")] browser) (signed_in 2) demo_db.
  - written_by (with_body [("id", "3")] browser) (signed_in 2) demo_db.
  - written_by (with_body [("user_id", "3")] browser) (signed_in 2) demo_db.
  - written_by (with_body [("id", "3")] browser) (signed_in 2) demo_db.
  - written_by browser (signed_in 2) (delete_metrics_of (Int 2) demo_db).
  - written_by (with_params [("userId", "99")] browser) (signed_in 2) demo_db.
Qed.

(** X5.  The pages and the login and logout routes are read-only: a route
    whose handler names no table to write leaves the whole store as it
    is.  GET /blog/:id and the two performance pages are not among them. *)
Theorem read_only_routes digest r req clock d s :
  may_write r = [] →
  db_after (run digest r req clock d s) = d.
Proof.
  intros Hr. apply same_table_all. intros t.
  apply same_run. rewrite Hr. apply not_elem_of_nil.
Qed.

Lemma read_only_routes_witness :
  db_after (run demo_digest GET_dashboard browser (λ _, 5000) demo_shop
              (signed_in 1)) = demo_shop.
Proof. apply (read_only_routes demo_digest GET_dashboard). reflexivity. Defined.

(** ** What a session without a staff or admin role can change *)

Lemma authorized_admin_only d s :
  authorized d s ["staff"; "admin"] = false → authorized d s ["admin"] = false.
Proof.
  unfold authorized. destruct (principal d s) as [u|]; [|done].
  rewrite !bool_decide_eq_false, !elem_of_cons. tauto.
Qed.

Lemma run_rejected digest r roles req clock d s :
  required_roles r = Some roles → authorized d s roles = false →
  db_after (run digest r req clock d s) = d.
Proof.
  intros Hr Ha. destruct (guarded_handler digest r roles Hr) as [k Hk].
  unfold run, serve. monad. rewrite middleware_spec, Hk.
  by rewrite guarded_rejects.
Qed.

Lemma bump_views_content id d :
  with_views 0 <$> rows (posts (bump_views id d))
  = with_views 0 <$> rows (posts d).
Proof.
  unfold bump_views, update_where. db_simpl. cbn [rows].
  induction (rows (posts d)) as [|p l IH]; [done|].
  cbn [List.map fmap list_fmap]. f_equal; [|exact IH]. by destruct (sql_eq _ _).
Qed.

(** X6.  A request whose session designates no staff member and no
    admin changes no account, whatever its route and fields, unless it
    is a signup: the users, statuses, targets, metrics, plans and reviews
    tables stay as they are.  Of a post it can change the view counter
    only, and it can add no post. *)
Theorem unprivileged_requests_keep_accounts digest r req clock d s :
  authorized d s ["staff"; "admin"] = false →
  r ≠ POST_signup →
  let d' := db_after (run digest r req clock d s) in
  (∀ t, t ∈ [Users; Statuses; Targets; Metrics; Plans; Reviews] →
     same_table t d d')
  ∧ with_views 0 <$> rows (posts d') = with_views 0 <$> rows (posts d).
Proof.
  intros Ha Hr. cbn zeta.
  destruct (required_roles r) as [roles|] eqn:E.
  - assert (Hroles : authorized d s roles = false).
    { destruct r; try discriminate E; injection E as <-;
        auto using authorized_admin_only. }
    rewrite (run_rejected _ _ _ _ _ _ _ E Hroles).
    split; [intros; apply same_table_refl | done].
  - split.
    + intros t Ht. apply same_run.
      destruct r; try discriminate E; try done; cbn [may_write];
        rewrite !elem_of_cons, elem_of_nil in *; intuition congruence.
    + assert (Hp : Posts ∉ may_write r
                   → with_views 0 <$> rows (posts (db_after (run digest r req clock d s)))
                     = with_views 0 <$> rows (posts d)).
      { intros H. apply (same_run digest r req clock d s) in H.
        cbn [same_table] in H. by rewrite H. }
      destruct r; try discriminate E; try done;
        try (apply Hp; cbn [may_write]; rewrite ?elem_of_cons, elem_of_nil;
             intuition congruence).
      unfold run, serve. monad. rewrite middleware_spec.
      cbn [handler]. unfold get_blog. step.
      destruct (post_by_id _ _); cbn; apply bump_views_content.
Qed.

Lemma unprivileged_requests_keep_accounts_witness :
  let d' := db_after (run demo_digest POST_staff_promote
                        (with_body [("id", "3")] script) (λ _, 5000) demo_db
                        (signed_in 3)) in
  (∀ t, t ∈ [Users; Statuses; Targets; Metrics; Plans; Reviews] →
     same_table t demo_db d')
  ∧ with_views 0 <$> rows (posts d') = with_views 0 <$> rows (posts demo_db).
Proof.
  apply (unprivileged_requests_keep_accounts demo_digest POST_staff_promote).
  - vm_compute. reflexivity.
  - discriminate.
Defined.

(** ** The shop: plans and orders of a reachable store *)

Lemma shop_kept_refl seeded d : shop_kept seeded d d.
Proof. by intros H. Qed.

Lemma shop_kept_trans seeded a b c :
  shop_kept seeded a b → shop_kept seeded b c → shop_kept seeded a c.
Proof. unfold shop_kept. auto. Qed.

Lemma shop_kept_same seeded d d' :
  same_table Plans d d' → same_table Orders d d' → shop_kept seeded d d'.
Proof.
  cbn. intros Hp Ho [H1 H2]. split; [by rewrite Hp|].
  rewrite Ho. unfold plan_by_id in *. by rewrite Hp.
Qed.

Lemma shop_kept_seed_plans : keeps (shop_kept seeded_plans) seed_plans.
Proof.
  intros clock [d s r l t]. unfold seed_plans. step.
  destruct (truthy _) eqn:E; cbn [db snd]; [by intros H|].
  intros [[Hp|Hp] Ho]; [|rewrite Hp in E; vm_compute in E; discriminate E].
  split.
  - right. unfold insert_plan. cbn [plans]. rewrite Hp. vm_compute. reflexivity.
  - change (rows (orders (insert_plan _ _ _ (insert_plan _ _ _ (insert_plan _ _ _ d)))))
      with (rows (orders d)).
    eapply Forall_impl; [exact Ho|]. intros o [_ Hs]. exfalso.
    unfold plan_by_id in Hs. rewrite Hp in Hs. by destruct Hs.
Qed.

Lemma shop_kept_seed_plans_sibling :
  keeps (shop_kept seeded_plans_sibling) seed_plans_sibling.
Proof.
  intros clock [d s r l t]. unfold seed_plans_sibling. step.
  destruct (truthy _) eqn:E; cbn [db snd]; [by intros H|].
  intros [[Hp|Hp] Ho]; [|rewrite Hp in E; vm_compute in E; discriminate E].
  split.
  - right. unfold insert_plan. cbn [plans]. rewrite Hp. vm_compute. reflexivity.
  - change (rows (orders (insert_plan _ _ _ (insert_plan _ _ _ (insert_plan _ _ _ d)))))
      with (rows (orders d)).
    eapply Forall_impl; [exact Ho|]. intros o [_ Hs]. exfalso.
    unfold plan_by_id in Hs. rewrite Hp in Hs. by destruct Hs.
Qed.

Ltac shop_start :=
  lazymatch goal with
  | |- keeps _ seed_plans => apply shop_kept_seed_plans
  | |- keeps _ seed_plans_sibling => apply shop_kept_seed_plans_sibling
  | |- keeps _ (ensure_rows _ _ _) =>
      apply keeps_ensure_rows; try assumption; intros;
      apply shop_kept_same; same_stmt
  | |- shop_kept _ _ _ => apply shop_kept_same; same_stmt
  end.

Lemma shop_kept_initDb digest random :
  keeps (shop_kept seeded_plans) (initDb digest random).
Proof.
  pose proof (shop_kept_refl seeded_plans).
  pose proof (shop_kept_trans seeded_plans).
  unfold initDb, seed_users, seed_posts, seed_reviews, seed_post, seed_review.
  keeps_auto. all: shop_start.
Qed.

Lemma shop_kept_initDb_sibling digest random :
  keeps (shop_kept seeded_plans_sibling) (initDb_sibling digest random).
Proof.
  pose proof (shop_kept_refl seeded_plans_sibling).
  pose proof (shop_kept_trans seeded_plans_sibling).
  unfold initDb_sibling, seed_users, seed_posts, seed_reviews, seed_post,
    seed_review.
  keeps_auto. all: shop_start.
Qed.

Lemma plan_by_id_found id d p :
  plan_by_id id d = Some p → plan_by_id (Int (pl_id p)) d = Some p.
Proof.
  unfold plan_by_id, get. intros H. pose proof H as Hid.
  apply find_some in Hid as [_ Hid].
  destruct id as [z| |b]; [|done..]. cbn in Hid. apply Z.eqb_eq in Hid.
  by rewrite Hid.
Qed.

Lemma not_written_plans r : Plans ∉ may_write r.
Proof.
  destruct r; cbn [may_write]; rewrite ?elem_of_cons, elem_of_nil;
    intuition congruence.
Qed.

Lemma shop_kept_run seeded digest r req clock d s :
  shop_kept seeded d (db_after (run digest r req clock d s)).
Proof.
  assert (Hs : Orders ∉ may_write r →
               shop_kept seeded d (db_after (run digest r req clock d s))).
  { intros H. apply shop_kept_same; apply same_run;
      [apply not_written_plans | exact H]. }
  destruct r; try (apply Hs; cbn [may_write];
                   rewrite ?elem_of_cons, elem_of_nil; intuition congruence).
  clear Hs. unfold run, serve. monad. rewrite middleware_spec. cbn.
  unfold post_checkout. cbn.
  destruct (principal d s) as [u|]; step; [|apply shop_kept_refl].
  destruct (plan_by_id _ d) as [p|] eqn:Hp; cbn; [|apply shop_kept_refl].
  intros [H1 H2]. split; [exact H1|].
  unfold insert_order, insert. db_simpl. cbn [rows].
  apply Forall_app. split; [exact H2|].
  apply Forall_singleton. cbn [o_status o_plan_id]. split; [done|].
  apply plan_by_id_found in Hp. unfold plan_by_id in *. db_simpl.
  by rewrite Hp.
Qed.

Lemma reachable_shop_ok digest d : reachable digest d → shop_ok seeded_plans d.
Proof.
  induction 1 as [|random clock d s _ IH|r req clock d s _ IH].
  - split; [by left | apply Forall_nil_2].
  - by apply (shop_kept_initDb digest random clock (start d s)).
  - by apply (shop_kept_run seeded_plans digest r req clock d s).
Qed.

Lemma reachable_sibling_shop_ok digest d :
  reachable_sibling digest d → shop_ok seeded_plans_sibling d.
Proof.
  induction 1 as [|random clock d s _ IH|r req clock d s _ IH].
  - split; [by left | apply Forall_nil_2].
  - by apply (shop_kept_initDb_sibling digest random clock (start d s)).
  - by apply (shop_kept_run seeded_plans_sibling digest r req clock d s).
Qed.

(** X7.  Requests never write the plans table, and start-up seeds it
    only while it is empty.  So in every store the application can be in
    the plans are either missing (it never started) or exactly the three
    seeded ones, with ids 1 to 3 and prices 49, 69 and 129. *)
Theorem reachable_plans_are_seeded digest d :
  reachable digest d →
  (plans d = empty_table ∨ plans d = seeded_plans)
  ∧ seq seeded_plans = 3
  ∧ (λ p, (pl_id p, pl_name p, pl_price_usd p)) <$> rows seeded_plans
    = [(1, "Kickoff Plan", 49); (2, "Growth Plan", 69);
       (3, "Advanced Plan", 129)].
Proof.
  intros H. split; [apply (reachable_shop_ok digest d H)|].
  split; vm_compute; reflexivity.
Qed.

Lemma demo_db_reachable : reachable demo_digest demo_db.
Proof.
  exact (reach_start demo_digest (λ _ _, 7) (λ _, 1000) empty_db empty_session
           (reach_created demo_digest)).
Qed.

Lemma demo_shop_reachable : reachable demo_digest demo_shop.
Proof. do 2 apply reach_request. exact demo_db_reachable. Qed.

Lemma reachable_plans_are_seeded_witness :
  (plans demo_shop = empty_table ∨ plans demo_shop = seeded_plans)
  ∧ seq seeded_plans = 3
  ∧ (λ p, (pl_id p, pl_name p, pl_price_usd p)) <$> rows seeded_plans
    = [(1, "Kickoff Plan", 49); (2, "Growth Plan", 69);
       (3, "Advanced Plan", 129)].
Proof.
  apply (reachable_plans_are_seeded demo_digest demo_shop).
  exact demo_shop_reachable.
Defined.

Lemma count_none {A} (c : A → bool) (t : table A) :
  Forall (λ x, c x = false) (rows t) → count c t = 0.
Proof.
  unfold count, all. induction 1 as [|x l Hx _ IH]; [done|].
  cbn [List.filter]. by rewrite Hx.
Qed.

Lemma filter_all {A} (P : A → Prop) `{∀ x, Decision (P x)} (l : list A) :
  Forall P l → filter P l = l.
Proof.
  induction 1 as [|x l Hx _ IH]; [done|].
  rewrite filter_cons, decide_True by done. by rewrite IH.
Qed.

(** X8.  In the revision that has the checkout, orders are written by
    POST /checkout alone, which files them as paid for a plan it has just
    found, and no route changes or removes an order or a plan.  So in
    every store that revision can be in every order is paid and refers to
    an existing plan, and the admin dashboard shows no pending and no
    declined order and, as total, the sum of the plan prices over all
    orders. *)
Theorem reachable_orders_are_paid digest req clock d s me :
  reachable_sibling digest d →
  principal d s = Some me →
  u_role me = "admin" →
  Forall (λ o, o_status o = "paid"
               ∧ is_Some (plan_by_id (Int (o_plan_id o)) d))
    (rows (orders d))
  ∧ ∃ st,
      response_of (run digest GET_dashboard req clock d s)
      = Some (Send 200 (AdminDashboardView me st))
      ∧ s_pendingOrders st = 0
      ∧ s_declinedCount st = 0
      ∧ s_totalAccounting st = sum_list (price_of d <$> rows (orders d)).
Proof.
  intros Hd Hp Hr.
  pose proof (reachable_sibling_shop_ok digest d Hd) as [_ Ho].
  pose proof (reachable_sibling_schema_ok digest d Hd) as (_ & _ & Hnd & _).
  split; [exact Ho|].
  unfold run, serve. monad. rewrite middleware_spec. cbn.
  unfold get_dashboard.
  rewrite (guarded_accepts _ _ _ _ _ me) by (try done; rewrite Hr; in_list).
  unfold mbind at 1, M_bind at 1. rewrite dashboard_stats_spec.
  eexists. split; [reflexivity|].
  cbn [s_pendingOrders s_declinedCount s_totalAccounting db].
  split; [|split].
  - apply count_none. eapply Forall_impl; [exact Ho|].
    by intros o [-> _].
  - apply count_none. eapply Forall_impl; [exact Ho|].
    by intros o [-> _].
  - assert (Hall : paid_orders d = rows (orders d)).
    { unfold paid_orders. apply filter_all.
      eapply Forall_impl; [exact Ho|]. by intros o [? _]. }
    rewrite <- Hall. fold (paid_total d).
    rewrite <- paid_join_sum by done. unfold sum_paid_prices, sql_sum.
    destruct (_ <$> paid_join d) as [|x l] eqn:E; [done|].
    unfold truthy. fold (sum_list (x :: l)).
    by destruct (Z.eqb_spec (sum_list (x :: l)) 0) as [->|].
Qed.

Lemma sibling_shop_reachable : reachable_sibling demo_digest sibling_shop.
Proof.
  do 2 apply sibling_request.
  exact (sibling_start demo_digest (λ _ _, 7) (λ _, 1000) empty_db
           empty_session (sibling_created demo_digest)).
Qed.

Lemma reachable_orders_are_paid_witness :
  Forall (λ o, o_status o = "paid"
               ∧ is_Some (plan_by_id (Int (o_plan_id o)) sibling_shop))
    (rows (orders sibling_shop))
  ∧ ∃ st,
      response_of (run demo_digest GET_dashboard browser (λ _, 9000)
                       sibling_shop (signed_in 1))
      = Some (Send 200
                (AdminDashboardView
                   (User 1 "admin@smm.local" (demo_digest "admin123") "Admin"
                         "admin" (Some "@admin") 0 1000) st))
      ∧ s_pendingOrders st = 0
      ∧ s_declinedCount st = 0
      ∧ s_totalAccounting st
        = sum_list (price_of sibling_shop <$> rows (orders sibling_shop)).
Proof.
  apply (reachable_orders_are_paid demo_digest browser (λ _, 9000) sibling_shop
           (signed_in 1)).
  - exact sibling_shop_reachable.
  - vm_compute. reflexivity.
  - reflexivity.
Defined.

(** The shop of the sibling revision after the two purchases: the plans
    it seeds, and the orders with their prices. *)
Example sibling_shop_rows :
  plans sibling_shop = seeded_plans_sibling
  ∧ (λ o, (o_user_id o, o_plan_id o, o_status o, price_of sibling_shop o))
      <$> rows (orders sibling_shop)
    = [(3, 2, "paid", 89); (2, 3, "paid", 149)].
Proof. vm_compute. split; reflexivity. Qed.

(** ** Start-up *)

Lemma returns_ret {A} (a : A) : returns (mret a).
Proof. intros clock w. by eexists _, _. Qed.

Lemma returns_bind {A B} (m : M A) (f : A → M B) :
  returns m → (∀ a, returns (f a)) → returns (m ≫= f).
Proof.
  intros Hm Hf clock w. destruct (Hm clock w) as (a & w' & E).
  unfold mbind, M_bind. rewrite E. apply Hf.
Qed.

Lemma returns_tick : returns tick.
Proof. intros clock w. by eexists _, _. Qed.

Lemma returns_select {A} t (f : Db → A) : returns (select t f).
Proof. intros clock w. by eexists _, _. Qed.

Lemma returns_exec t f : returns (exec t f).
Proof. intros clock w. by eexists _, _. Qed.

Ltac returns_step :=
  lazymatch goal with
  | |- returns (mret _) => apply returns_ret
  | |- returns tick => apply returns_tick
  | |- returns (select _ _) => apply returns_select
  | |- returns (exec _ _) => apply returns_exec
  | |- returns (mbind _ _) => apply returns_bind; [|intros ?]
  | |- returns (match ?x with _ => _ end) => destruct x
  end.

Lemma same_seeds digest t :
  (t ≠ Users → keeps (same_table t) (seed_users digest))
  ∧ (t ≠ Plans → keeps (same_table t) seed_plans)
  ∧ (t ≠ Posts → keeps (same_table t) seed_posts)
  ∧ (t ≠ Reviews → keeps (same_table t) seed_reviews).
Proof.
  pose proof (same_table_refl t). pose proof (same_table_trans t).
  repeat split; intros Ht;
    unfold seed_users, seed_plans, seed_posts, seed_reviews, seed_post,
      seed_review; keeps_auto; same_stmt.
Qed.

Lemma returns_seeds digest :
  returns (seed_users digest) ∧ returns seed_plans ∧ returns seed_posts
  ∧ returns seed_reviews.
Proof.
  repeat split;
    unfold seed_users, seed_plans, seed_posts, seed_reviews, seed_post,
      seed_review; repeat returns_step.
Qed.

Lemma find_app_some {A} (c : A → bool) l l' x :
  List.find c l = Some x → List.find c (l ++ l') = Some x.
Proof.
  induction l as [|y l IH]; [done|]. cbn. by destruct (c y).
Qed.

Lemma user_by_email_kept e e' h n r ig now d :
  is_Some (user_by_email e d) →
  is_Some (user_by_email e (insert_user_or_ignore e' h n r ig now d)).
Proof.
  unfold insert_user_or_ignore, insert_user.
  destruct (user_by_email e' d); [done|]. cbn.
  unfold user_by_email, get, insert. db_simpl. cbn [rows].
  intros [u Hu]. exists u. by apply find_app_some.
Qed.

Lemma user_by_email_ensured e h n r ig now d :
  is_Some (user_by_email e (insert_user_or_ignore e h n r ig now d)).
Proof.
  unfold insert_user_or_ignore, insert_user.
  destruct (user_by_email e d) eqn:E.
  { change (is_Some (user_by_email e d)). by rewrite E. }
  cbn. unfold user_by_email, get, insert in *. db_simpl. cbn [rows].
  rewrite find_app_none by done. cbn [u_email]. by rewrite String.eqb_refl.
Qed.

Lemma seed_users_emails digest clock w e :
  e ∈ seed_emails → is_Some (user_by_email e (db (seed_users digest clock w).2)).
Proof.
  unfold seed_users. step. unfold seed_emails.
  rewrite !elem_of_cons, elem_of_nil. intros [->|[->|[->|[]]]];
    auto using user_by_email_kept, user_by_email_ensured.
Qed.

Lemma status_ensured id d :
  id ∈ st_user_id <$> rows (statuses (insert_status_or_ignore id d)).
Proof.
  unfold insert_status_or_ignore, get.
  destruct (find _ _) as [st|] eqn:E.
  - apply find_some in E as [Hin Hid]. apply Z.eqb_eq in Hid. subst id.
    apply list_elem_of_fmap. exists st. split; [done|]. by apply list_elem_of_In.
  - unfold insert. db_simpl. cbn [rows]. rewrite fmap_app, elem_of_app.
    right. cbn. apply list_elem_of_here.
Qed.

Lemma status_kept id id' d :
  id ∈ st_user_id <$> rows (statuses d) →
  id ∈ st_user_id <$> rows (statuses (insert_status_or_ignore id' d)).
Proof.
  unfold insert_status_or_ignore. destruct (get _ _); [done|].
  unfold insert. db_simpl. cbn [rows]. rewrite fmap_app, elem_of_app. by left.
Qed.

Lemma insert_status_or_ignore_others id d :
  targets (insert_status_or_ignore id d) = targets d
  ∧ metrics (insert_status_or_ignore id d) = metrics d.
Proof. unfold insert_status_or_ignore. by destruct (get _ _). Qed.

(** The loop of the start-up appends one targets row and one metrics row
    for each id, in the order of the ids, and leaves a status row for each
    of them. *)
Lemma ensure_rows_appends random ids : ∀ k clock w,
  let d' := db (ensure_rows random k ids clock w).2 in
  (∃ ts, rows (targets d') = rows (targets (db w)) ++ ts
         ∧ tg_user_id <$> ts = ids)
  ∧ (∃ ms, rows (metrics d') = rows (metrics (db w)) ++ ms
           ∧ m_user_id <$> ms = Some <$> ids)
  ∧ (∀ id, id ∈ ids → id ∈ st_user_id <$> rows (statuses d'))
  ∧ (∀ id, id ∈ st_user_id <$> rows (statuses (db w)) →
       id ∈ st_user_id <$> rows (statuses d')).
Proof.
  induction ids as [|id ids IH]; intros k clock [d s r l t]; cbn zeta.
  { cbn. split; [exists []; by rewrite app_nil_r|].
    split; [exists []; by rewrite app_nil_r|].
    split; [by intros ? ?%elem_of_nil | done]. }
  cbn [ensure_rows]. step.
  set (d1 := insert_status_or_ignore id d).
  set (d2 := insert_target id _ _ _ _ _ _ d1).
  set (d3 := insert_metric _ _ _ _ d2).
  match goal with |- context [ensure_rows random _ ids clock ?w] =>
    destruct (IH (S (S k)) clock w) as ((ts & Ht & Hts) & (ms & Hm & Hms) & Hs1 & Hs2)
  end.
  cbn [db] in Ht, Hm, Hs1, Hs2.
  destruct (insert_status_or_ignore_others id d) as [E1 E2]. fold d1 in E1, E2.
  assert (Et : rows (targets d3) = rows (targets d) ++ [Target
      (next_id tg_id (targets d1)) id "Fitness & Wellness" "@nike @adidas"
      "#fitness #workout" "United States" "Target: 18-35 health conscious"
      (clock t)]).
  { by rewrite <- E1. }
  assert (Em : rows (metrics d3) = rows (metrics d) ++ [Metric
      (next_id m_id (metrics d1)) (Some id) (Some (random k 200 + 50))
      (Some (random (S k) 100 + 20)) (clock (S t))]).
  { by rewrite <- E2. }
  change (statuses d3) with (statuses d1) in Hs2.
  split; [|split; [|split]].
  - eexists (_ :: ts). split.
    + rewrite Ht, Et, <- app_assoc. reflexivity.
    + cbn. by rewrite Hts.
  - eexists (_ :: ms). split.
    + rewrite Hm, Em, <- app_assoc. reflexivity.
    + cbn. by rewrite Hms.
  - intros i [->|Hi]%elem_of_cons; [|by apply Hs1].
    apply Hs2, status_ensured.
  - intros i Hi. by apply Hs2, status_kept.
Qed.

Lemma same_ensure_rows random ids k t :
  t ∉ [Statuses; Targets; Metrics] →
  keeps (same_table t) (ensure_rows random k ids).
Proof.
  intros Ht. not_written Ht.
  apply keeps_ensure_rows;
    first [apply same_table_refl | apply same_table_trans | intros; same_stmt].
Qed.

(** Start-up up to its last loop: the four seeding steps return, touch
    their own tables only and leave the three seeded addresses in place. *)
Lemma initDb_seeds digest random clock w :
  ∃ w4,
    initDb digest random clock w
    = (ids ← select Users user_ids; ensure_rows random 0 ids) clock w4
    ∧ (∀ t, t ∉ [Users; Plans; Posts; Reviews] → same_table t (db w) (db w4))
    ∧ (∀ e, e ∈ seed_emails → is_Some (user_by_email e (db w4))).
Proof.
  destruct (returns_seeds digest) as (Ru & Rp & Ro & Rr).
  destruct (Ru clock w) as ([] & w1 & E1).
  destruct (Rp clock w1) as ([] & w2 & E2).
  destruct (Ro clock w2) as ([] & w3 & E3).
  destruct (Rr clock w3) as ([] & w4 & E4).
  exists w4. split; [|split].
  - unfold initDb.
    unfold mbind at 1, M_bind at 1. rewrite E1.
    unfold mbind at 1, M_bind at 1. rewrite E2.
    unfold mbind at 1, M_bind at 1. rewrite E3.
    unfold mbind at 1, M_bind at 1. rewrite E4. reflexivity.
  - intros t Ht. not_written Ht.
    destruct (same_seeds digest t) as (K1 & K2 & K3 & K4).
    specialize (K1 ltac:(done) clock w). rewrite E1 in K1.
    specialize (K2 ltac:(done) clock w1). rewrite E2 in K2.
    specialize (K3 ltac:(done) clock w2). rewrite E3 in K3.
    specialize (K4 ltac:(done) clock w3). rewrite E4 in K4.
    cbn [snd] in *.
    eauto using same_table_trans.
  - intros e He.
    pose proof (seed_users_emails digest clock w e He) as H1.
    rewrite E1 in H1. cbn [snd] in H1.
    destruct (same_seeds digest Users) as (_ & K2 & K3 & K4).
    specialize (K2 ltac:(done) clock w1). rewrite E2 in K2.
    specialize (K3 ltac:(done) clock w2). rewrite E3 in K3.
    specialize (K4 ltac:(done) clock w3). rewrite E4 in K4.
    cbn [snd same_table] in *. unfold user_by_email in *.
    by rewrite K4, K3, K2.
Qed.

(** X9.  What a start-up does for the users, on any store.  It leaves the
    three seeded addresses registered and every user with a status row.
    It keeps the rows of the targets and of the metrics table and appends
    to each exactly one row for every user, at every start, so these two
    tables grow with each restart; the new rows come in the order in which
    [SELECT id FROM users] lists the users, that of their addresses.  It
    never touches the orders, the tickets and the subscribers. *)
Theorem startup_adds_rows_for_every_user digest random clock d s :
  let d' := db (initDb digest random clock (start d s)).2 in
  (∀ e, e ∈ seed_emails → is_Some (user_by_email e d'))
  ∧ (∀ u, u ∈ rows (users d') → u_id u ∈ st_user_id <$> rows (statuses d'))
  ∧ user_ids d' ≡ₚ u_id <$> rows (users d')
  ∧ (∃ ts, rows (targets d') = rows (targets d) ++ ts
           ∧ tg_user_id <$> ts = user_ids d')
  ∧ (∃ ms, rows (metrics d') = rows (metrics d) ++ ms
           ∧ m_user_id <$> ms = Some <$> user_ids d')
  ∧ orders d' = orders d ∧ tickets d' = tickets d
  ∧ subscribers d' = subscribers d.
Proof.
  cbn zeta.
  destruct (initDb_seeds digest random clock (start d s)) as (w4 & -> & Hf & He).
  unfold mbind, M_bind, select. cbn [fst snd].
  set (ids := user_ids (db w4)).
  set (w := World _ _ _ _ _).
  pose proof (ensure_rows_appends random ids 0%nat clock w) as (Ct & Cm & Cs & _).
  assert (Hs : ∀ t, t ∉ [Statuses; Targets; Metrics] →
               same_table t (db w4) (db (ensure_rows random 0 ids clock w).2)).
  { intros t Ht. apply (same_ensure_rows random ids 0%nat t Ht clock w). }
  set (d5 := db (ensure_rows random 0 ids clock w).2) in *.
  subst w. cbn [db] in *.
  assert (Hu : users d5 = users (db w4)).
  { by apply (Hs Users), (bool_decide_unpack _). }
  assert (Hi : user_ids d5 = ids).
  { subst ids. unfold user_ids. by rewrite Hu. }
  assert (Ft : targets (db w4) = targets d).
  { by apply (Hf Targets), (bool_decide_unpack _). }
  assert (Fm : metrics (db w4) = metrics d).
  { by apply (Hf Metrics), (bool_decide_unpack _). }
  assert (Fo : orders d5 = orders d).
  { transitivity (orders (db w4)).
    - by apply (Hs Orders), (bool_decide_unpack _).
    - by apply (Hf Orders), (bool_decide_unpack _). }
  assert (Fk : tickets d5 = tickets d).
  { transitivity (tickets (db w4)).
    - by apply (Hs Tickets), (bool_decide_unpack _).
    - by apply (Hf Tickets), (bool_decide_unpack _). }
  assert (Fs : subscribers d5 = subscribers d).
  { transitivity (subscribers (db w4)).
    - by apply (Hs Subscribers), (bool_decide_unpack _).
    - by apply (Hf Subscribers), (bool_decide_unpack _). }
  rewrite Ft in Ct. rewrite Fm in Cm. rewrite Hi, Fo, Fk, Fs.
  split.
  { intros e Hin. specialize (He e Hin). unfold user_by_email in *.
    by rewrite Hu. }
  split.
  { intros u Hin. apply Cs. rewrite <- Hi. apply elem_of_user_ids. by exists u. }
  split.
  { rewrite <- Hi. unfold user_ids. by rewrite by_email_perm. }
  done.
Qed.

(** A restart of the demo server, a signup, and another restart.  The
    three ignored inserts of the seeding advance the sequence of the
    users, so the new account gets id 7; its address sorts first, so the
    second restart writes its targets row before those of the seeded
    accounts. *)
Example restart_signup_restart :
  let d1 := db (initDb demo_digest (λ _ _, 7) (λ _, 2000)
                  (start demo_db empty_session)).2 in
  let d2 := db_after (run demo_digest POST_signup signup_form (λ _, 8000) d1
                        empty_session) in
  let d3 := db (initDb demo_digest (λ _ _, 7) (λ _, 9000)
                  (start d2 empty_session)).2 in
  seq (users demo_db) = 3 ∧ seq (users d1) = 6
  ∧ (λ u, (u_id u, u_email u)) <$> rows (users d2)
    = [(1, "admin@smm.local"); (2, "staff@smm.local"); (3, "user@smm.local");
       (7, "a@b.com")]
  ∧ user_ids d2 = [7; 1; 2; 3]
  ∧ tg_user_id <$> rows (targets d3) = [1; 2; 3; 1; 2; 3; 7; 7; 1; 2; 3].
Proof. vm_compute. repeat split; reflexivity. Qed.

(** ** The staff panel: roles and the unsubscribed flag *)

Lemma find_update_where {A} (key : A → Z) (f : A → A) (i id : Z) l :
  (∀ x, key (f x) = key x) →
  List.find (λ x, sql_eq (Some (key x)) (Some i))
    (List.map (λ x, if sql_eq (Some (key x)) (Some id) then f x else x) l)
  = (if i =? id then f else λ x, x)
      <$> List.find (λ x, sql_eq (Some (key x)) (Some i)) l.
Proof.
  intros Hk. induction l as [|x l IH]; [done|]. cbn [List.map List.find sql_eq].
  destruct (Z.eqb_spec (key x) id) as [E|E].
  - rewrite Hk. destruct (Z.eqb_spec (key x) i) as [E'|E']; [|exact IH].
    cbn. destruct (Z.eqb_spec i id); [done|congruence].
  - destruct (Z.eqb_spec (key x) i) as [E'|E']; [|exact IH].
    cbn. destruct (Z.eqb_spec i id); [congruence|done].
Qed.

Lemma update_where_null {A} (key : A → option Z) (f : A → A) (t : table A) :
  update_where (λ r, sql_eq (key r) None) f t = t.
Proof.
  destruct t as [l q]. unfold update_where. cbn [rows seq]. f_equal.
  induction l as [|x l IH]; [done|]. cbn [List.map]. rewrite IH.
  by destruct (key x).
Qed.

Lemma set_role_by_id_null r n d : bind n = None → set_role_by_id r n d = d.
Proof.
  intros E. unfold set_role_by_id, set_users. rewrite E.
  rewrite (update_where_null (λ u, Some (u_id u))). by destruct d.
Qed.

(** X10.  POST /staff/promote and POST /staff/demote, from a staff or
    admin session, set the role of the user with the posted id to staff,
    respectively to user, whatever role that user had: the handlers look
    at neither the target's role nor the caller's, so a staff member
    demotes an admin, or itself, the same way.  Every other user is read
    back as before.  The id is read as JavaScript's [Number] reads it, so
    [1.0], [1e0] and [0x1] all name user 1; an id that is missing, not a
    number or not a whole number changes nothing. *)
Theorem staff_sets_role_of_anyone digest r role req clock d s me :
  (r = POST_staff_promote ∧ role = "staff")
  ∨ (r = POST_staff_demote ∧ role = "user") →
  principal d s = Some me →
  u_role me ∈ ["staff"; "admin"] →
  let out := run digest r req clock d s in
  response_of out = Some (Redirect "/staff")
  ∧ match Number (field (body req) "id") with
    | Int id =>
        ∀ i, user_by_id (Int i) (db_after out)
             = (if i =? id then with_role role else λ u, u)
                 <$> user_by_id (Int i) d
    | _ => db_after out = d
    end.
Proof.
  intros Hr Hp Hm. cbn zeta.
  assert (∃ l, run digest r req clock d s
               = Result (set_role_by_id role (Number (field (body req) "id")) d)
                   s (Some (Redirect "/staff")) l) as [l E].
  { destruct Hr as [[-> ->]|[-> ->]]; unfold run, serve; monad;
      rewrite middleware_spec; cbn;
      unfold post_staff_promote, post_staff_demote;
      rewrite (guarded_accepts _ _ _ _ _ me) by done; step;
      eexists; reflexivity. }
  rewrite E. cbn [response_of db_after]. split; [done|].
  destruct (Number _) as [id| |b]; [|by apply set_role_by_id_null..].
  intros i. unfold user_by_id, get, set_role_by_id, update_where. db_simpl.
  cbn [rows]. by apply (find_update_where u_id).
Qed.

Lemma staff_sets_role_of_anyone_witness :
  let req := with_body [("id", "1")] browser in
  let out := run demo_digest POST_staff_demote req (λ _, 5000) demo_db
                 (signed_in 2) in
  response_of out = Some (Redirect "/staff")
  ∧ match Number (field (body req) "id") with
    | Int id =>
        ∀ i, user_by_id (Int i) (db_after out)
             = (if i =? id then with_role "user" else λ u, u)
                 <$> user_by_id (Int i) demo_db
    | _ => db_after out = demo_db
    end.
Proof.
  apply (staff_sets_role_of_anyone demo_digest POST_staff_demote "user" _ _ _ _
           (User 2 "staff@smm.local" (demo_digest "staff123") "Team Member"
                 "staff" (Some "@staff") 0 1000)).
  - right. split; reflexivity.
  - vm_compute. reflexivity.
  - in_list.
Defined.

Lemma toggle_run digest req clock d s me :
  principal d s = Some me →
  u_role me ∈ ["staff"; "admin"] →
  ∃ l, run digest POST_staff_toggle_unsubscribe req clock d s
       = Result
           (match user_by_id (Number (field (body req) "id")) d with
            | Some u =>
                set_unsubscribed
                  (if truthy (Num (Int (u_unsubscribed u))) then 0 else 1)
                  (Number (field (body req) "id")) d
            | None => d
            end)
           s (Some (Redirect "/staff")) l.
Proof.
  intros Hp Hm. unfold run, serve. monad. rewrite middleware_spec. cbn.
  unfold post_staff_toggle_unsubscribe.
  rewrite (guarded_accepts _ _ _ _ _ me) by done. step.
  destruct (user_by_id _ d); step; eexists; reflexivity.
Qed.

Lemma set_unsubscribed_lookup x id i d :
  user_by_id (Int i) (set_unsubscribed x (Int id) d)
  = (if i =? id then with_unsubscribed x else λ u, u) <$> user_by_id (Int i) d.
Proof.
  unfold user_by_id, get, set_unsubscribed, update_where. db_simpl.
  cbn [rows]. by apply (find_update_where u_id).
Qed.

(** X11.  POST /staff/toggle_unsubscribe flips the unsubscribed flag of
    the user with the posted id, 0 to 1 and anything else to 0, and
    leaves every other user as it was; posted twice for a user whose
    flag is 0 or 1, it leaves every user as it was at first. *)
Theorem toggle_unsubscribe_twice digest req clock clock' d s me id u :
  principal d s = Some me →
  u_role me ∈ ["staff"; "admin"] →
  Number (field (body req) "id") = Int id →
  user_by_id (Int id) d = Some u →
  u_unsubscribed u = 0 ∨ u_unsubscribed u = 1 →
  let out := run digest POST_staff_toggle_unsubscribe req clock d s in
  let out' := run digest POST_staff_toggle_unsubscribe req clock'
                  (db_after out) (session_after out) in
  (∀ i, user_by_id (Int i) (db_after out)
        = (if i =? id then with_unsubscribed (1 - u_unsubscribed u)
           else λ u, u) <$> user_by_id (Int i) d)
  ∧ (∀ i, user_by_id (Int i) (db_after out') = user_by_id (Int i) d)
  ∧ response_of out = Some (Redirect "/staff")
  ∧ response_of out' = Some (Redirect "/staff").
Proof.
  intros Hp Hm Hid Hu Hflag. cbn zeta.
  destruct (toggle_run digest req clock d s me Hp Hm) as [l E].
  rewrite E, Hid, Hu. cbn [db_after session_after response_of].
  set (x := if truthy _ then 0 else 1).
  assert (Hx : x = 1 - u_unsubscribed u).
  { subst x. by destruct Hflag as [-> | ->]. }
  set (f := λ i, if i =? id then with_unsubscribed x else λ u : user, u).
  assert (Hl : ∀ i, user_by_id (Int i) (set_unsubscribed x (Int id) d)
                    = f i <$> user_by_id (Int i) d).
  { intros i. apply set_unsubscribed_lookup. }
  assert (Hp' : principal (set_unsubscribed x (Int id) d) s
                = Some (with_unsubscribed
                          (if bool_decide (u_id me = id) then x
                           else u_unsubscribed me) me)).
  { unfold principal in *. destruct (uid s) as [j|]; [|done].
    destruct (truthy _); [|done]. rewrite Hl, Hp. cbn. subst f. cbn.
    assert (u_id me = j) as <-.
    { unfold user_by_id, get in Hp. apply find_some in Hp as [_ Hp].
      cbn in Hp. by apply Z.eqb_eq in Hp. }
    case_bool_decide as Hd.
    - rewrite Hd, Z.eqb_refl. done.
    - destruct (Z.eqb_spec (u_id me) id); [done|]. by destruct me. }
  destruct (toggle_run digest req clock' (set_unsubscribed x (Int id) d) s _
              Hp' Hm) as [l' E'].
  rewrite E', Hid, Hl, Hu. cbn [db_after response_of fmap option_fmap option_map].
  subst f. cbn beta. rewrite Z.eqb_refl. cbn [u_unsubscribed with_unsubscribed].
  set (y := if truthy _ then 0 else 1).
  assert (Hy : y = u_unsubscribed u).
  { subst y. rewrite Hx. by destruct Hflag as [-> | ->]. }
  split; [by rewrite <- Hx|]. split; [|done].
  intros i. rewrite !set_unsubscribed_lookup.
  destruct (Z.eqb_spec i id) as [->|];
    [|destruct (user_by_id (Int i) d); reflexivity].
  rewrite Hu, Hy. cbn. by destruct u.
Qed.

Lemma toggle_unsubscribe_twice_witness :
  let req := with_body [("id", "3")] browser in
  let u := User 3 "user@smm.local" (demo_digest "user123") "Demo User" "user"
                (Some "@demouser") 0 1000 in
  let out := run demo_digest POST_staff_toggle_unsubscribe req (λ _, 5000)
                 demo_db (signed_in 2) in
  let out' := run demo_digest POST_staff_toggle_unsubscribe req (λ _, 6000)
                  (db_after out) (session_after out) in
  (∀ i, user_by_id (Int i) (db_after out)
        = (if i =? 3 then with_unsubscribed (1 - u_unsubscribed u)
           else λ u, u) <$> user_by_id (Int i) demo_db)
  ∧ (∀ i, user_by_id (Int i) (db_after out') = user_by_id (Int i) demo_db)
  ∧ response_of out = Some (Redirect "/staff")
  ∧ response_of out' = Some (Redirect "/staff").
Proof.
  apply (toggle_unsubscribe_twice demo_digest (with_body [("id", "3")] browser)
           (λ _, 5000) (λ _, 6000) demo_db (signed_in 2)
           (User 2 "staff@smm.local" (demo_digest "staff123") "Team Member"
                 "staff" (Some "@staff") 0 1000)).
  - vm_compute. reflexivity.
  - in_list.
  - vm_compute. reflexivity.
  - vm_compute. reflexivity.
  - left. reflexivity.
Defined.

(** ** The admin forms *)

Lemma find_map_same {A} (c : A → bool) (g : A → A) l :
  (∀ x, c (g x) = c x) → List.find c (List.map g l) = g <$> List.find c l.
Proof.
  intros Hc. induction l as [|x l IH]; [done|]. cbn [List.map List.find].
  rewrite Hc. by destruct (c x).
Qed.

(** X12.  POST /admin/assign_role, from an admin session, gives the role
    it is posted, any string at all and user when none is posted, to the
    account whose address is the posted one in lower case; every other
    account is read back as before, and without an address nothing
    changes. *)
Theorem assign_role_sets_any_role digest req clock d s me :
  principal d s = Some me →
  u_role me = "admin" →
  let out := run digest POST_admin_assign_role req clock d s in
  let email := toLowerCase (ToString (field (body req) "email" ||| Str "")) in
  let role := ToString (field (body req) "role" ||| Str "user") in
  response_of out = Some (Redirect "/dashboard")
  ∧ (email = "" → db_after out = d)
  ∧ (email ≠ "" →
     ∀ i, user_by_id (Int i) (db_after out)
          = (λ u, if String.eqb (u_email u) email then with_role role u else u)
              <$> user_by_id (Int i) d).
Proof.
  intros Hp Hr. cbn zeta.
  set (email := toLowerCase _). set (role := ToString (_ ||| Str "user")).
  assert (∃ l, run digest POST_admin_assign_role req clock d s
               = Result (if negb (truthy (Str email)) then d
                         else set_role_by_email role email d)
                   s (Some (Redirect "/dashboard")) l) as [l E].
  { unfold run, serve. monad. rewrite middleware_spec. cbn.
    unfold post_admin_assign_role.
    rewrite (guarded_accepts _ _ _ _ _ me) by (try done; rewrite Hr; in_list).
    cbn. fold email role. destruct (truthy (Str email)); step;
      eexists; reflexivity. }
  rewrite E. cbn [response_of db_after]. split; [done|]. split.
  - by intros ->.
  - intros He i. replace (truthy (Str email)) with true
      by (by destruct email). cbn [negb].
    unfold user_by_id, get, set_role_by_email, update_where. db_simpl.
    cbn [rows]. apply (find_map_same (λ u, sql_eq (Some (u_id u)) (Some i))).
    intros u. by destruct (String.eqb _ _).
Qed.

Lemma assign_role_sets_any_role_witness :
  let req := with_body [("email", "User@SMM.local"); ("role", "owner")] browser in
  let out := run demo_digest POST_admin_assign_role req (λ _, 5000) demo_db
                 (signed_in 1) in
  let email := toLowerCase (ToString (field (body req) "email" ||| Str "")) in
  let role := ToString (field (body req) "role" ||| Str "user") in
  response_of out = Some (Redirect "/dashboard")
  ∧ (email = "" → db_after out = demo_db)
  ∧ (email ≠ "" →
     ∀ i, user_by_id (Int i) (db_after out)
          = (λ u, if String.eqb (u_email u) email then with_role role u else u)
              <$> user_by_id (Int i) demo_db).
Proof.
  apply (assign_role_sets_any_role demo_digest
           (with_body [("email", "User@SMM.local"); ("role", "owner")] browser)
           (λ _, 5000) demo_db (signed_in 1)
           (User 1 "admin@smm.local" (demo_digest "admin123") "Admin" "admin"
                 (Some "@admin") 0 1000)).
  - vm_compute. reflexivity.
  - reflexivity.
Defined.

Example assign_role_example :
  let req := with_body [("email", "User@SMM.local"); ("role", "owner")] browser in
  let out := run demo_digest POST_admin_assign_role req (λ _, 5000) demo_db
                 (signed_in 1) in
  u_role <$> user_by_id (Int 3) (db_after out) = Some "owner".
Proof. vm_compute. reflexivity. Qed.

Lemma post_by_id_inserted title author image excerpt body' now d :
  post_by_id (Int (next_id p_id (posts d)))
    (insert_post title author image excerpt body' now d)
  = Some (Post (next_id p_id (posts d)) title author image excerpt body' 0 now).
Proof.
  unfold post_by_id, get, insert_post, insert. db_simpl. cbn [rows].
  rewrite find_app_none.
  - cbn. by rewrite Z.eqb_refl.
  - apply find_none_iff. intros p Hp. cbn. apply Z.eqb_neq.
    apply (next_id_fresh p_id) in Hp. lia.
Qed.

(** X13.  A post the admin creates is served.  POST /admin/create_post
    with a title appends one post, with the next id, the admin's name
    (the address when the name is empty) as author and no views; a
    request for /blog/ followed by that id then renders this post, from
    any session, and counts the view. *)
Theorem created_post_is_served digest req req' clock clock' d s s' me :
  principal d s = Some me →
  u_role me = "admin" →
  truthy (field (body req) "title") = true →
  Number (field (params req') "id") = Int (next_id p_id (posts d)) →
  let out := run digest POST_admin_create_post req clock d s in
  let p := Post (next_id p_id (posts d))
             (ToString (field (body req) "title"))
             (ToString (Str (u_name me) ||| Str (u_email me)))
             (ToString (field (body req) "image" ||| Str ""))
             (ToString (field (body req) "excerpt" ||| Str ""))
             (ToString (field (body req) "body" ||| Str "")) 0 (clock 0%nat) in
  let out' := run digest GET_blog req' clock' (db_after out) s' in
  rows (posts (db_after out)) = rows (posts d) ++ [p]
  ∧ response_of out = Some (Redirect "/dashboard")
  ∧ response_of out'
    = Some (Send 200 (BlogView (principal (db_after out) s') (with_views 1 p)))
  ∧ post_by_id (Int (p_id p)) (db_after out') = Some (with_views 1 p).
Proof.
  intros Hp Hr Ht Hid. cbn zeta.
  assert (∃ l, run digest POST_admin_create_post req clock d s
               = Result
                   (insert_post (ToString (field (body req) "title"))
                      (ToString (Str (u_name me) ||| Str (u_email me)))
                      (ToString (field (body req) "image" ||| Str ""))
                      (ToString (field (body req) "excerpt" ||| Str ""))
                      (ToString (field (body req) "body" ||| Str ""))
                      (clock 0%nat) d)
                   s (Some (Redirect "/dashboard")) l) as [l E].
  { unfold run, serve. monad. rewrite middleware_spec. cbn.
    unfold post_admin_create_post.
    rewrite (guarded_accepts _ _ _ _ _ me) by (try done; rewrite Hr; in_list).
    cbn. rewrite Ht. step. eexists; reflexivity. }
  rewrite E. cbn [db_after response_of p_id].
  set (d1 := insert_post _ _ _ _ _ _ d).
  split; [reflexivity|]. split; [reflexivity|].
  assert (Hb : post_by_id (Int (next_id p_id (posts d)))
                 (bump_views (Int (next_id p_id (posts d))) d1)
               = Some (with_views 1
                         (Post (next_id p_id (posts d))
                            (ToString (field (body req) "title"))
                            (ToString (Str (u_name me) ||| Str (u_email me)))
                            (ToString (field (body req) "image" ||| Str ""))
                            (ToString (field (body req) "excerpt" ||| Str ""))
                            (ToString (field (body req) "body" ||| Str ""))
                            0 (clock 0%nat)))).
  { rewrite bump_views_get. subst d1. by rewrite post_by_id_inserted. }
  unfold run, serve. monad. rewrite middleware_spec. cbn.
  unfold get_blog. step. rewrite Hid, Hb. cbn. done.
Qed.

Lemma created_post_is_served_witness :
  let req := with_body [("title", "Launch <day>"); ("body", "# Hello")] browser in
  let req' := with_params [("id", "7")] browser in
  let me := User 1 "admin@smm.local" (demo_digest "admin123") "Admin" "admin"
                 (Some "@admin") 0 1000 in
  let out := run demo_digest POST_admin_create_post req (λ _, 5000) demo_db
                 (signed_in 1) in
  let p := Post (next_id p_id (posts demo_db))
             (ToString (field (body req) "title"))
             (ToString (Str (u_name me) ||| Str (u_email me)))
             (ToString (field (body req) "image" ||| Str ""))
             (ToString (field (body req) "excerpt" ||| Str ""))
             (ToString (field (body req) "body" ||| Str "")) 0 5000 in
  let out' := run demo_digest GET_blog req' (λ _, 6000) (db_after out)
                  empty_session in
  rows (posts (db_after out)) = rows (posts demo_db) ++ [p]
  ∧ response_of out = Some (Redirect "/dashboard")
  ∧ response_of out'
    = Some (Send 200 (BlogView (principal (db_after out) empty_session)
                        (with_views 1 p)))
  ∧ post_by_id (Int (p_id p)) (db_after out') = Some (with_views 1 p).
Proof.
  apply (created_post_is_served demo_digest
           (with_body [("title", "Launch <day>"); ("body", "# Hello")] browser)
           (with_params [("id", "7")] browser) (λ _, 5000) (λ _, 6000)
           demo_db (signed_in 1) empty_session
           (User 1 "admin@smm.local" (demo_digest "admin123") "Admin" "admin"
                 (Some "@admin") 0 1000)).
  - vm_compute. reflexivity.
  - reflexivity.
  - reflexivity.
  - vm_compute. reflexivity.
Defined.

(** ** Tickets and subscriptions *)

(** X14.  POST /ticket answers 403 without touching the store when the
    session designates no user.  For a signed-in user it always files one
    open ticket under the user's id, address and Instagram name, with the
    posted subject and message, and redirects to the referring page: a
    field that was not posted is bound as NULL and the ticket is stored
    all the same.  POST /contact_submit files its ticket without a user
    id, also for a signed-in user. *)
Theorem tickets_of_the_two_forms digest req clock d s :
  let out := run digest POST_ticket req clock d s in
  let out' := run digest POST_contact_submit req clock d s in
  match principal d s with
  | None =>
      response_of out = Some (Send 403 (Text "Forbidden")) ∧ db_after out = d
  | Some u =>
      db_after out
      = insert_ticket (Some (u_id u)) (u_email u) (u_instagram u)
          (body req !! "subject") (body req !! "message") (clock 0%nat) d
      ∧ response_of out = Some (Redirect (referer_or_home req))
  end
  ∧ rows (tickets (db_after out'))
    = rows (tickets d)
      ++ [Ticket (next_id t_id (tickets d)) None
            (ToString (field (body req) "email" ||| Str ""))
            (Some (ToString (field (body req) "instagram" ||| Str "")))
            (Some ("Contact: "
                   +:+ ToString (field (body req) "name" ||| Str "Guest")))
            (Some (ToString (field (body req) "message" ||| Str "")))
            "open" (clock 0%nat)]
  ∧ response_of out' = Some (Redirect "/contact").
Proof.
  cbn zeta. split.
  - unfold run, serve. monad. rewrite middleware_spec. cbn.
    unfold post_ticket. cbn.
    destruct (principal d s) as [u|]; [|by step].
    unfold field.
    destruct (body req !! "subject") as [sub|];
      destruct (body req !! "message") as [msg|]; by step.
  - unfold run, serve. monad. rewrite middleware_spec. cbn.
    unfold post_contact_submit. by step.
Qed.

(** The demo user files a ticket without a subject. *)
Example ticket_without_subject :
  let out := run demo_digest POST_ticket (with_body [("message", "Hi")] browser)
                 (λ _, 5000) demo_db (signed_in 3) in
  rows (tickets (db_after out))
  = [Ticket 1 (Some 3) "user@smm.local" (Some "@demouser") None (Some "Hi")
       "open" 5000]
  ∧ response_of out = Some (Redirect "/").
Proof. vm_compute. split; reflexivity. Qed.

Lemma grows_only_refl d : grows_only d d.
Proof. by repeat split. Qed.

Lemma grows_only_trans a b c : grows_only a b → grows_only b c → grows_only a c.
Proof.
  intros (?&?&?&?&?) (?&?&?&?&?). repeat split; by etrans.
Qed.

Ltac grows_stmt :=
  lazymatch goal with
  | H : insert_user _ _ _ _ _ _ _ = Some _ |- _ =>
      unfold insert_user in H; destruct (user_by_email _ _) in H;
      [discriminate | injection H as <-]
  | |- grows_only _ (insert_status_or_ignore _ _) =>
      unfold insert_status_or_ignore; destruct (get _ _)
  | |- _ => idtac
  end;
  repeat split; first [reflexivity | by eexists].

(** X15.  Orders, tickets, subscribers, plans and reviews are never
    edited or deleted: after any request, and after start-up, each of
    these tables still begins with the rows it had before. *)
Theorem orders_tickets_subscribers_only_grow digest r req random clock d s :
  grows_only d (db_after (run digest r req clock d s))
  ∧ grows_only d (db (initDb digest random clock (start d s)).2).
Proof.
  split.
  - apply (run_keeps_statements grows_only grows_only_refl grows_only_trans);
      intros; grows_stmt.
  - apply (keeps_initDb grows_only grows_only_refl grows_only_trans);
      intros; grows_stmt.
Qed.

Lemma subscribe_run digest req clock d s :
  ∃ l, run digest POST_subscribe req clock d s
       = Result
           (let email := trim (ToString (field (body req) "email" ||| Str "")) in
            if truthy (Str email)
            then insert_subscriber email (clock 0%nat) d else d)
           s (Some (Redirect (referer_or_home req))) l.
Proof.
  unfold run, serve. monad. rewrite middleware_spec. cbn.
  unfold post_subscribe. cbn.
  destruct (truthy _); step; eexists; reflexivity.
Qed.

(** X16.  POST /subscribe stores the posted address with the white space
    around it removed, in a new row, whether or not the address is
    subscribed already; when nothing but white space is posted it stores
    nothing.  Either way it answers with a redirect to the referring
    page, and leaves the session alone. *)
Theorem subscribe_trims_and_appends digest req clock d s :
  let out := run digest POST_subscribe req clock d s in
  response_of out = Some (Redirect (referer_or_home req))
  ∧ session_after out = s
  ∧ match trim (ToString (field (body req) "email" ||| Str "")) with
    | EmptyString => db_after out = d
    | email =>
        rows (subscribers (db_after out))
        = rows (subscribers d)
          ++ [Subscriber (next_id s_id (subscribers d)) email (clock 0%nat)]
    end.
Proof.
  cbn zeta. destruct (subscribe_run digest req clock d s) as [l ->].
  cbn [response_of session_after db_after]. split; [done|]. split; [done|].
  by destruct (trim _).
Qed.

(** A form feed alone is no address; a vertical tab after the address
    is not stored. *)
Example subscribe_white_space :
  let post e := run demo_digest POST_subscribe (with_body [("email", e)] browser)
                    (λ _, 5000) demo_db empty_session in
  db_after (post (String "012" "")) = demo_db
  ∧ s_email <$> rows (subscribers
                        (db_after (post ("ann@b.com" +:+ String "011" ""))))
    = ["ann@b.com"].
Proof. vm_compute. split; reflexivity. Qed.

Lemma inbox_kept_refl d : inbox_kept d d.
Proof. by intros H. Qed.

Lemma inbox_kept_trans a b c : inbox_kept a b → inbox_kept b c → inbox_kept a c.
Proof. unfold inbox_kept. auto. Qed.

Lemma inbox_kept_same d d' :
  same_table Tickets d d' → same_table Subscribers d d' → inbox_kept d d'.
Proof.
  cbn. intros Ht Hs [H1 H2]. unfold inbox_ok. by rewrite Ht, Hs.
Qed.

Lemma inbox_kept_ticket u e ig a b now d :
  inbox_kept d (insert_ticket u e ig a b now d).
Proof.
  intros [H1 H2]. split; [|exact H2].
  unfold insert_ticket, insert. db_simpl. cbn [rows].
  apply Forall_app. split; [exact H1|]. by apply Forall_singleton.
Qed.

Lemma inbox_kept_initDb digest random : keeps inbox_kept (initDb digest random).
Proof.
  apply (keeps_initDb inbox_kept inbox_kept_refl inbox_kept_trans);
    intros; apply inbox_kept_same; same_stmt.
Qed.

Lemma inbox_kept_run digest r req clock d s :
  inbox_kept d (db_after (run digest r req clock d s)).
Proof.
  assert (Hs : Tickets ∉ may_write r → Subscribers ∉ may_write r →
               inbox_kept d (db_after (run digest r req clock d s))).
  { intros H1 H2. by apply inbox_kept_same; apply same_run. }
  pose proof inbox_kept_refl. pose proof inbox_kept_trans.
  destruct r;
    try (apply Hs; cbn [may_write]; rewrite ?elem_of_cons, elem_of_nil;
         intuition congruence); clear Hs.
  - assert (K : keeps inbox_kept (serve digest POST_contact_submit req)).
    { unfold serve, middleware. cbn [handler]. unfold post_contact_submit.
      keeps_auto. apply inbox_kept_ticket. }
    exact (K clock (start d s)).
  - assert (K : keeps inbox_kept (serve digest POST_ticket req)).
    { unfold serve, middleware. cbn [handler]. unfold post_ticket.
      keeps_auto. apply inbox_kept_ticket. }
    exact (K clock (start d s)).
  - destruct (subscribe_run digest req clock d s) as [l ->].
    cbn [db_after]. cbn zeta. destruct (truthy (Str _)) eqn:E; [|done].
    intros [H1 H2]. split; [exact H1|].
    unfold insert_subscriber, insert. db_simpl. cbn [rows].
    apply Forall_app. split; [exact H2|]. apply Forall_singleton.
    cbn [s_email]. intros E'. rewrite E' in E. discriminate E.
Qed.

(** X17.  No route closes a ticket and POST /subscribe stores no empty
    address, so in every store the application can be in all tickets are
    open and every subscriber has a non-empty address. *)
Theorem reachable_inbox digest d :
  reachable digest d →
  Forall (λ t, t_status t = "open") (rows (tickets d))
  ∧ Forall (λ x, s_email x ≠ "") (rows (subscribers d)).
Proof.
  induction 1 as [|random clock d s _ IH|r req clock d s _ IH].
  - split; apply Forall_nil_2.
  - by apply (inbox_kept_initDb digest random clock (start d s)).
  - by apply (inbox_kept_run digest r req clock d s).
Qed.

Lemma demo_inbox_reachable : reachable demo_digest demo_inbox.
Proof. do 2 apply reach_request. exact demo_db_reachable. Qed.

Lemma reachable_inbox_witness :
  Forall (λ t, t_status t = "open") (rows (tickets demo_inbox))
  ∧ Forall (λ x, s_email x ≠ "") (rows (subscribers demo_inbox)).
Proof.
  apply (reachable_inbox demo_digest demo_inbox). exact demo_inbox_reachable.
Defined.

Example demo_inbox_rows :
  t_subject <$> rows (tickets demo_inbox) = [Some "Contact: Guest"]
  ∧ s_email <$> rows (subscribers demo_inbox) = ["ann@b.com"].
Proof. vm_compute. split; reflexivity. Qed.

(** ** The performance pages *)

Lemma max_id_app {A} (id : A → Z) l x :
  max_id id (l ++ [x]) = Z.max (max_id id l) (Z.max (id x) 0).
Proof.
  unfold max_id. induction l as [|y l IH]; cbn [foldr app]; [lia|].
  rewrite IH. lia.
Qed.

Lemma next_id_insert_metric uid likes follows now d :
  next_id m_id (metrics (insert_metric uid likes follows now d))
  = next_id m_id (metrics d) + 1.
Proof.
  unfold insert_metric, insert. db_simpl. unfold next_id at 1. cbn [rows seq].
  rewrite max_id_app. cbn [m_id].
  pose proof (next_id_pos m_id (metrics d)). unfold next_id in *. lia.
Qed.

(** Running the primitives without unfolding anything else. *)
Ltac light_step :=
  unfold mbind, M_bind, mret, M_ret, select, select2, exec, tick, respond,
    send, send_status, redirect, throw, finish;
  cbn [fst snd db sess res log ticks db_after response_of session_after
       accesses].

Lemma performance_run digest req clock d s me :
  principal d s = Some me →
  u_role me ∈ ["staff"; "admin"] →
  run digest GET_performance_user req clock d s
  = finish (performance me
              (Number (field (params req) "userId" ||| Num (Int (u_id me))))
              clock (World d s None (authed_log s ++ authed_log s) 0)).
Proof.
  intros Hp Hm. unfold run, serve. monad. rewrite middleware_spec. cbn.
  unfold get_performance_user.
  by rewrite (guarded_accepts _ _ _ _ _ me).
Qed.

Lemma seed_metrics_spec userId n : ∀ i clock w,
  ∃ l, seed_metrics userId i n clock w
       = (Ok (), World (seeded userId clock i (ticks w) n (db w)) (sess w)
                   (res w) l (n + ticks w)).
Proof.
  induction n as [|n IH]; intros i clock w; cbn [seed_metrics seeded].
  { destruct w. eexists. reflexivity. }
  light_step.
  match goal with |- context [seed_metrics _ _ n clock ?w'] =>
    destruct (IH (i + 1) clock w') as [l ->] end.
  cbn [db sess res ticks]. rewrite Nat.add_succ_r. eexists. reflexivity.
Qed.

Lemma seeded_users userId clock n : ∀ i t d,
  users (seeded userId clock i t n d) = users d.
Proof. induction n as [|n IH]; intros i t d; cbn [seeded]; [done|]. by rewrite IH. Qed.

Lemma seeded_user_by_id userId clock n i t id d :
  user_by_id id (seeded userId clock i t n d) = user_by_id id d.
Proof. unfold user_by_id. by rewrite seeded_users. Qed.

Lemma seeded_six n clock d :
  rows (metrics (seeded n clock 0 0 6 d))
  = rows (metrics d)
    ++ ((λ i, Metric (next_id m_id (metrics d) + i) (bind n)
                (Some (10 + i * 5)) (Some (8 + i * 3))
                (clock (Z.to_nat i))) <$> [0; 1; 2; 3; 4; 5]).
Proof.
  cbn [seeded].
  rewrite !insert_metric_rows, !next_id_insert_metric.
  rewrite <- !app_assoc. cbn [app fmap list_fmap bind]. f_equal.
  repeat (apply (f_equal2 cons); [f_equal; first [lia | f_equal; lia]|]).
  reflexivity.
Qed.

(** X18.  GET /performance/:userId, from a staff or admin session, looks
    at the metrics of the user id in the path (the caller's own without
    one); the id is read as [Number] reads it, and the property is stated
    for the ids that are whole numbers or no numbers at all.  When there
    are metrics for the id the request writes nothing.  When there are
    none it first stores six snapshots for that id, with likes 10 to 35
    and follows 8 to 23, and it does so before it looks the user up: for
    an id without a user the six rows are stored and the answer is a
    500. *)
Theorem performance_seeds_before_lookup digest req clock d s me :
  principal d s = Some me →
  u_role me ∈ ["staff"; "admin"] →
  (∀ b, Number (field (params req) "userId" ||| Num (Int (u_id me)))
        ≠ Other b) →
  let n := Number (field (params req) "userId" ||| Num (Int (u_id me))) in
  let out := run digest GET_performance_user req clock d s in
  let k := next_id m_id (metrics d) in
  (metrics_of n d ≠ [] → db_after out = d)
  ∧ (metrics_of n d = [] →
     rows (metrics (db_after out))
     = rows (metrics d)
       ++ ((λ i, Metric (k + i) (bind n) (Some (10 + i * 5)) (Some (8 + i * 3))
                   (clock (Z.to_nat i))) <$> [0; 1; 2; 3; 4; 5]))
  ∧ (user_by_id n d = None →
     response_of out = Some (Send 500 (Text "Internal Server Error")))
  ∧ (∀ u, user_by_id n d = Some u →
     response_of out
     = Some (Send 200
               (Html "Performance" (Some me)
                  (escapeHtml (Str (u_email u))
                   :: (json_number ∘ m_likes <$> metrics_of n (db_after out))
                   ++ (json_number ∘ m_follows
                         <$> metrics_of n (db_after out)))))).
Proof.
  intros Hp Hm _. cbn zeta. rewrite (performance_run _ _ _ _ _ me) by done.
  set (n := Number _).
  unfold performance. light_step.
  destruct (bool_decide_reflect (metrics_of n d = [])) as [He|He].
  - destruct (seed_metrics_spec n 6 0
                clock (World d s None ((authed_log s ++ authed_log s)
                                       ++ [Read Metrics]) 0)) as [l ->].
    light_step. rewrite seeded_user_by_id.
    destruct (user_by_id n d) as [u|] eqn:Hu; light_step.
    + split; [done|]. split; [intros _; apply seeded_six|]. split; [done|].
      by intros u' [= <-].
    + split; [done|]. split; [intros _; apply seeded_six|]. split; done.
  - light_step. destruct (user_by_id n d) as [u|] eqn:Hu; light_step.
    + split; [done|]. split; [done|]. split; [done|]. by intros u' [= <-].
    + split; [done|]. split; [done|]. split; done.
Qed.

Lemma performance_seeds_before_lookup_witness :
  let req := with_params [("userId", "9.9e1")] browser in
  let me := User 2 "staff@smm.local" (demo_digest "staff123") "Team Member"
                 "staff" (Some "@staff") 0 1000 in
  let clock := λ k : nat, 5000 + Z.of_nat k in
  let n := Number (field (params req) "userId" ||| Num (Int (u_id me))) in
  let out := run demo_digest GET_performance_user req clock demo_db
                 (signed_in 2) in
  let k := next_id m_id (metrics demo_db) in
  (metrics_of n demo_db ≠ [] → db_after out = demo_db)
  ∧ (metrics_of n demo_db = [] →
     rows (metrics (db_after out))
     = rows (metrics demo_db)
       ++ ((λ i, Metric (k + i) (bind n) (Some (10 + i * 5)) (Some (8 + i * 3))
                   (clock (Z.to_nat i))) <$> [0; 1; 2; 3; 4; 5]))
  ∧ (user_by_id n demo_db = None →
     response_of out = Some (Send 500 (Text "Internal Server Error")))
  ∧ (∀ u, user_by_id n demo_db = Some u →
     response_of out
     = Some (Send 200
               (Html "Performance" (Some me)
                  (escapeHtml (Str (u_email u))
                   :: (json_number ∘ m_likes <$> metrics_of n (db_after out))
                   ++ (json_number ∘ m_follows
                         <$> metrics_of n (db_after out)))))).
Proof.
  apply (performance_seeds_before_lookup demo_digest
           (with_params [("userId", "9.9e1")] browser)
           (λ k : nat, 5000 + Z.of_nat k) demo_db (signed_in 2)
           (User 2 "staff@smm.local" (demo_digest "staff123") "Team Member"
                 "staff" (Some "@staff") 0 1000)).
  - vm_compute. reflexivity.
  - in_list.
  - intros b. vm_compute. discriminate.
Defined.

(** A staff member asks for the performance of user 99, who does not
    exist: six snapshots for user 99 are stored and the answer is a 500. *)
Example performance_of_a_missing_user :
  let out := run demo_digest GET_performance_user
                 (with_params [("userId", "99")] browser)
                 (λ k : nat, 5000 + Z.of_nat k) demo_db (signed_in 2) in
  response_of out = Some (Send 500 (Text "Internal Server Error"))
  ∧ length (rows (metrics (db_after out)))
    = (length (rows (metrics demo_db)) + 6)%nat
  ∧ user_by_id (Int 99) (db_after out) = None
  ∧ length (metrics_of (Int 99) (db_after out)) = 6%nat.
Proof. vm_compute. repeat split; reflexivity. Qed.

(** The same for user 1, whose id is written [1e0]: the user has
    metrics, nothing is written and the page is served. *)
Example performance_of_the_first_user :
  let out := run demo_digest GET_performance_user
                 (with_params [("userId", "1e0")] browser)
                 (λ k : nat, 5000 + Z.of_nat k) demo_db (signed_in 2) in
  db_after out = demo_db
  ∧ ∃ page, response_of out = Some (Send 200 page).
Proof. split; [|eexists]; vm_compute; reflexivity. Qed.

(** ** More on [escapeHtml] *)

Lemma escapeHtml_Str s : escapeHtml (Str s) = replace_special s.
Proof. unfold escapeHtml, Js.or, truthy. by destruct s. Qed.

Lemma string_length_app s t :
  String.length (s +:+ t) = (String.length s + String.length t)%nat.
Proof.
  induction s as [|c s IH]; [done|].
  change (String c s +:+ t) with (String c (s +:+ t)). cbn. by f_equal.
Qed.

Lemma entity_length c :
  (1 ≤ String.length (entity c))%nat
  ∧ (c ∈ specials → (1 < String.length (entity c))%nat).
Proof.
  destruct (entity_cases c) as [[Hc (t & Ht & ->)]|[Hc ->]].
  - revert Ht. unfold entity_tails. rewrite !elem_of_cons, elem_of_nil.
    intros [->|[->|[->|[->|[->|[]]]]]]; cbn; split; intros; lia.
  - cbn. split; [lia | done].
Qed.

Lemma replace_special_length s :
  (String.length s ≤ String.length (replace_special s))%nat
  ∧ (∀ c, c ∈ specials → occurs c s →
       (String.length s < String.length (replace_special s))%nat).
Proof.
  induction s as [|x s [IH1 IH2]]; [by split|].
  cbn [replace_special occurs]. rewrite string_length_app. cbn [String.length].
  destruct (entity_length x) as [H1 H2]. split; [lia|].
  intros c Hc [->|Ho]; [specialize (H2 Hc); lia|].
  specialize (IH2 c Hc Ho). lia.
Qed.

Lemma entity_head c c' s t :
  entity c +:+ s = entity c' +:+ t → c = c' ∧ s = t.
Proof.
  unfold entity.
  destruct (Ascii.eqb_spec c "&") as [->|?];
    [|destruct (Ascii.eqb_spec c "<") as [->|?];
      [|destruct (Ascii.eqb_spec c ">") as [->|?];
        [|destruct (Ascii.eqb_spec c "034") as [->|?];
          [|destruct (Ascii.eqb_spec c "039") as [->|?]]]]];
  (destruct (Ascii.eqb_spec c' "&") as [->|?];
    [|destruct (Ascii.eqb_spec c' "<") as [->|?];
      [|destruct (Ascii.eqb_spec c' ">") as [->|?];
        [|destruct (Ascii.eqb_spec c' "034") as [->|?];
          [|destruct (Ascii.eqb_spec c' "039") as [->|?]]]]]);
  cbn; intros H; try discriminate H; injection H as H; by subst.
Qed.

(** X19.  [escapeHtml] loses nothing and changes only what it must:
    two different strings are never escaped to the same text, and a
    string is left as it is exactly when it holds none of the five
    special characters. *)
Theorem escapeHtml_injective_and_fixed_points :
  (∀ s t, escapeHtml (Str s) = escapeHtml (Str t) → s = t)
  ∧ (∀ s, escapeHtml (Str s) = s ↔ ∀ c, c ∈ specials → ¬ occurs c s).
Proof.
  split.
  - intros s t. rewrite !escapeHtml_Str. revert t.
    induction s as [|c s IH]; intros [|c' t]; cbn [replace_special]; intros H.
    + done.
    + exfalso. destruct (entity_length c') as [Hl _].
      apply (f_equal String.length) in H. rewrite string_length_app in H.
      cbn in H. lia.
    + exfalso. destruct (entity_length c) as [Hl _].
      apply (f_equal String.length) in H. rewrite string_length_app in H.
      cbn in H. lia.
    + apply entity_head in H as [-> H]. by rewrite (IH t).
  - intros s. rewrite escapeHtml_Str. split.
    + intros H c Hc Ho.
      destruct (replace_special_length s) as [_ Hlt].
      specialize (Hlt c Hc Ho). rewrite H in Hlt. lia.
    + induction s as [|x s IH]; [done|]. intros H. cbn [replace_special].
      destruct (entity_cases x) as [[Hx _]|[_ ->]].
      * exfalso. apply (H x Hx). by left.
      * cbn. f_equal. apply IH. intros c Hc Ho. apply (H c Hc). by right.
Qed.

(** ** Signing up, then logging in *)

Lemma signup_run digest req clock d s :
  truthy (field (body req) "email") = true →
  truthy (field (body req) "password") = true →
  let email := toLowerCase (ToString (field (body req) "email")) in
  let uid' := next_id u_id (users d) in
  let new_user :=
    User uid' email (digest (ToString (field (body req) "password")))
         (ToString (field (body req) "name" ||| Str "")) "user"
         (Some (ToString (field (body req) "instagram" ||| Str ""))) 0
         (clock 0%nat) in
  user_by_email email d = None →
  ∃ d' l,
    run digest POST_signup req clock d s
    = Result d' (Session (Some uid') (failed_login s) (login_locked_until s))
        (Some (Redirect "/")) l
    ∧ user_by_email email d' = Some new_user.
Proof.
  intros He Hp. cbn zeta. intros Hdup.
  set (email := toLowerCase (ToString (field (body req) "email"))) in *.
  set (uid' := next_id u_id (users d)).
  set (new_user := User uid' email _ _ _ _ _ _).
  set (d1 := set_users (insert u_id (λ i, User i email
             (digest (ToString (field (body req) "password")))
             (ToString (field (body req) "name" ||| Str "")) "user"
             (Some (ToString (field (body req) "instagram" ||| Str ""))) 0
             (clock 0%nat))) d).
  assert (E1 : insert_user email
           (digest (ToString (field (body req) "password")))
           (ToString (field (body req) "name" ||| Str "")) "user"
           (Some (ToString (field (body req) "instagram" ||| Str "")))
           (clock 0%nat) d = Some d1).
  { unfold insert_user. by rewrite Hdup. }
  assert (E2 : user_by_email email d1 = Some new_user).
  { unfold user_by_email, get in *. subst d1. unfold insert. db_simpl.
    cbn [rows]. rewrite find_app_none by done. cbn [u_email].
    by rewrite String.eqb_refl. }
  assert (E3 : ∀ a b c,
             user_by_email email
               (insert_metric (Int uid') (Int 10) (Int 8) a
                  (insert_target uid' "" "" "" "" "" b
                     (insert_status_or_ignore c d1)))
             = Some new_user).
  { intros a b c. rewrite <- E2. unfold user_by_email, insert_status_or_ignore.
    by destruct (get _ (statuses d1)). }
  unfold run, serve. monad. rewrite middleware_spec. cbn.
  unfold post_signup, post_signup_env, attempt. cbn. rewrite He, Hp. step.
  fold email.
  unfold sha256. rewrite E1. cbn. rewrite E2. cbn.
  eexists _, _. split; [reflexivity|]. apply E3.
Qed.

(** X20.  An account made by POST /signup can log in.  After a signup
    with an address that was free, a POST /login from a session that is
    not locked out, with the same password and with the same address in
    any mix of upper and lower case, is accepted: it stores the new
    user's id in the session and redirects to /. *)
Theorem signup_then_login digest req req' clock clock' d s s' :
  truthy (field (body req) "email") = true →
  truthy (field (body req) "password") = true →
  user_by_email (toLowerCase (ToString (field (body req) "email"))) d = None →
  toLowerCase (ToString (field (body req') "email" ||| Str ""))
  = toLowerCase (ToString (field (body req) "email")) →
  ToString (field (body req') "password")
  = ToString (field (body req) "password") →
  locked_at s' (clock' 0%nat) = false →
  let out := run digest POST_signup req clock d s in
  let out' := run digest POST_login req' clock' (db_after out) s' in
  response_of out = Some (Redirect "/")
  ∧ uid (session_after out) = Some (next_id u_id (users d))
  ∧ response_of out' = Some (Redirect "/")
  ∧ session_after out'
    = Session (Some (next_id u_id (users d))) (Some 0%N) None.
Proof.
  intros He Hp Hfree Hmail Hpw Hl. cbn zeta.
  destruct (signup_run digest req clock d s He Hp Hfree) as (d' & l & -> & Hu).
  cbn [db_after response_of session_after uid].
  split; [done|]. split; [done|].
  rewrite run_login, post_login_unlocked by exact Hl.
  match goal with |- context [login_check _ _ _ ?w] =>
    rewrite (login_check_success digest _ clock' w
               (User (next_id u_id (users d))
                  (toLowerCase (ToString (field (body req) "email")))
                  (digest (ToString (field (body req) "password")))
                  (ToString (field (body req) "name" ||| Str "")) "user"
                  (Some (ToString (field (body req) "instagram" ||| Str ""))) 0
                  (clock 0%nat))) end.
  - done.
  - unfold credentials_match. cbn [body with_user add_ticks db].
    rewrite Hmail, Hu. cbn [u_password_hash]. rewrite Hpw.
    by rewrite String.eqb_refl.
  - done.
Qed.

Lemma signup_then_login_witness :
  let req' := with_body [("email", "a@B.COM"); ("password", "pw1")] browser in
  let out := run demo_digest POST_signup signup_form (λ _, 8000) demo_db
                 empty_session in
  let out' := run demo_digest POST_login req' (λ _, 9000) (db_after out)
                  empty_session in
  response_of out = Some (Redirect "/")
  ∧ uid (session_after out) = Some (next_id u_id (users demo_db))
  ∧ response_of out' = Some (Redirect "/")
  ∧ session_after out'
    = Session (Some (next_id u_id (users demo_db))) (Some 0%N) None.
Proof.
  apply (signup_then_login demo_digest signup_form
           (with_body [("email", "a@B.COM"); ("password", "pw1")] browser)
           (λ _, 8000) (λ _, 9000) demo_db empty_session empty_session).
  - reflexivity.
  - reflexivity.
  - vm_compute. reflexivity.
  - vm_compute. reflexivity.
  - reflexivity.
  - reflexivity.
Defined.

(** ** New staff members *)

Lemma staff_add_run digest req clock d s me :
  principal d s = Some me →
  u_role me ∈ ["staff"; "admin"] →
  truthy (field (body req) "email") = true →
  truthy (field (body req) "password") = true →
  let email := toLowerCase (ToString (field (body req) "email")) in
  let uid' := next_id u_id (users d) in
  let new_user :=
    User uid' email (digest (ToString (field (body req) "password")))
         (ToString (field (body req) "name" ||| Str "")) "staff" None 0
         (clock 0%nat) in
  ∃ d' l,
    run digest POST_staff_add req clock d s
    = Result d' s (Some (Redirect "/staff")) l
    ∧ match user_by_email email d with
      | Some _ => d' = d
      | None =>
          user_by_email email d' = Some new_user
          ∧ user_by_id (Int uid') d' = Some new_user
          ∧ rows (users d') = rows (users d) ++ [new_user]
          ∧ rows (metrics d')
            = rows (metrics d)
              ++ [Metric (next_id m_id (metrics d)) (Some uid') (Some 0)
                    (Some 0) (clock 1%nat)]
          ∧ uid' ∈ st_user_id <$> rows (statuses d')
          ∧ targets d' = targets d
      end.
Proof.
  intros Hme Hrole He Hp. cbn zeta.
  set (email := toLowerCase (ToString (field (body req) "email"))) in *.
  set (uid' := next_id u_id (users d)).
  set (new_user := User uid' email _ _ _ _ _ _).
  unfold run, serve. monad. rewrite middleware_spec. cbn.
  unfold post_staff_add. rewrite (guarded_accepts _ _ _ _ _ me) by done.
  cbn. rewrite He, Hp. step. fold email. unfold sha256.
  destruct (user_by_email email d) as [dup|] eqn:Hdup.
  { unfold insert_user. rewrite Hdup. cbn. eexists _, _. by split. }
  set (d1 := set_users (insert u_id (λ i, User i email
             (digest (ToString (field (body req) "password")))
             (ToString (field (body req) "name" ||| Str "")) "staff" None 0
             (clock 0%nat))) d).
  assert (E1 : insert_user email
           (digest (ToString (field (body req) "password")))
           (ToString (field (body req) "name" ||| Str "")) "staff" None
           (clock 0%nat) d = Some d1).
  { unfold insert_user. by rewrite Hdup. }
  assert (E2 : user_by_email email d1 = Some new_user).
  { unfold user_by_email, get in *. subst d1. unfold insert. db_simpl.
    cbn [rows]. rewrite find_app_none by done. cbn [u_email].
    by rewrite String.eqb_refl. }
  assert (E4 : user_by_id (Int uid') d1 = Some new_user).
  { unfold user_by_id, get. subst d1. unfold insert. db_simpl. cbn [rows].
    rewrite find_app_none.
    - cbn. by rewrite Z.eqb_refl.
    - apply find_none_iff. intros u Hin. cbn. apply Z.eqb_neq.
      apply (next_id_fresh u_id) in Hin. fold uid' in Hin. lia. }
  assert (E5 : ∀ (A : Type) (f : Db → A),
             (∀ x t, f (set_statuses t x) = f x) →
             f (insert_status_or_ignore uid' d1) = f d1).
  { intros A f Hf. unfold insert_status_or_ignore.
    destruct (get _ (statuses d1)); [done | apply Hf]. }
  rewrite E1. cbn. rewrite E2. cbn.
  eexists _, _. split; [reflexivity|].
  cbn [db snd]. repeat split.
  - unfold user_by_email. change (users (insert_metric _ _ _ _ ?x)) with (users x).
    rewrite (E5 _ users) by done. exact E2.
  - unfold user_by_id. change (users (insert_metric _ _ _ _ ?x)) with (users x).
    rewrite (E5 _ users) by done. exact E4.
  - change (users (insert_metric _ _ _ _ ?x)) with (users x).
    by rewrite (E5 _ users).
  - rewrite insert_metric_rows. by rewrite !(E5 _ metrics).
  - change (statuses (insert_metric _ _ _ _ ?x)) with (statuses x).
    apply status_ensured.
  - change (targets (insert_metric _ _ _ _ ?x)) with (targets x).
    by rewrite (E5 _ targets).
Qed.

(** X21.  POST /staff/add with an address and a password, from a staff or
    admin session, always answers with a redirect to /staff.  When the
    address is taken it changes nothing, without a word.  When it is
    free it appends a user with role staff and no Instagram name, makes
    sure of a status row and appends one metrics row of zeros, but no
    targets row; the new member can then log in, lands on /staff and
    passes the role gate of the staff panel. *)
Theorem staff_add_makes_a_staff_member digest req req' clock clock' d s s' me :
  principal d s = Some me →
  u_role me ∈ ["staff"; "admin"] →
  truthy (field (body req) "email") = true →
  truthy (field (body req) "password") = true →
  toLowerCase (ToString (field (body req') "email" ||| Str ""))
  = toLowerCase (ToString (field (body req) "email")) →
  ToString (field (body req') "password")
  = ToString (field (body req) "password") →
  locked_at s' (clock' 0%nat) = false →
  let email := toLowerCase (ToString (field (body req) "email")) in
  let uid' := next_id u_id (users d) in
  let out := run digest POST_staff_add req clock d s in
  let out' := run digest POST_login req' clock' (db_after out) s' in
  response_of out = Some (Redirect "/staff")
  ∧ match user_by_email email d with
    | Some _ => db_after out = d
    | None =>
        rows (users (db_after out))
        = rows (users d)
          ++ [User uid' email (digest (ToString (field (body req) "password")))
                (ToString (field (body req) "name" ||| Str "")) "staff" None 0
                (clock 0%nat)]
        ∧ rows (metrics (db_after out))
          = rows (metrics d)
            ++ [Metric (next_id m_id (metrics d)) (Some uid') (Some 0)
                  (Some 0) (clock 1%nat)]
        ∧ uid' ∈ st_user_id <$> rows (statuses (db_after out))
        ∧ targets (db_after out) = targets d
        ∧ response_of out' = Some (Redirect "/staff")
        ∧ authorized (db_after out') (session_after out') ["staff"; "admin"]
          = true
    end.
Proof.
  intros Hme Hrole He Hp Hmail Hpw Hl. cbn zeta.
  destruct (staff_add_run digest req clock d s me Hme Hrole He Hp)
    as (d' & l & -> & H).
  cbn [db_after response_of]. split; [done|].
  destruct (user_by_email _ d); [done|].
  destruct H as (Hu & Hid & Hrows & Hmet & Hst & Htg).
  split; [done|]. split; [done|]. split; [done|]. split; [done|].
  rewrite run_login, post_login_unlocked by exact Hl.
  match goal with |- context [login_check _ _ _ ?w] =>
    rewrite (login_check_success digest _ clock' w
               (User (next_id u_id (users d))
                  (toLowerCase (ToString (field (body req) "email")))
                  (digest (ToString (field (body req) "password")))
                  (ToString (field (body req) "name" ||| Str "")) "staff" None 0
                  (clock 0%nat))) end.
  - cbn. split; [done|]. unfold authorized, principal. cbn [uid].
    replace (truthy (Num (Int (next_id u_id (users d))))) with true.
    2:{ unfold truthy. pose proof (next_id_pos u_id (users d)).
        by destruct (Z.eqb_spec (next_id u_id (users d)) 0); [lia|]. }
    by rewrite Hid.
  - unfold credentials_match. cbn [body with_user add_ticks db].
    rewrite Hmail, Hu. cbn [u_password_hash]. rewrite Hpw.
    by rewrite String.eqb_refl.
  - done.
Qed.

Lemma staff_add_makes_a_staff_member_witness :
  let req := with_body [("email", "New@smm.local"); ("password", "pw2");
                        ("name", "New")] browser in
  let req' := with_body [("email", "new@smm.local"); ("password", "pw2")]
                browser in
  let clock := λ k : nat, 5000 + Z.of_nat k in
  let email := toLowerCase (ToString (field (body req) "email")) in
  let uid' := next_id u_id (users demo_db) in
  let out := run demo_digest POST_staff_add req clock demo_db (signed_in 2) in
  let out' := run demo_digest POST_login req' (λ _, 9000) (db_after out)
                  empty_session in
  response_of out = Some (Redirect "/staff")
  ∧ match user_by_email email demo_db with
    | Some _ => db_after out = demo_db
    | None =>
        rows (users (db_after out))
        = rows (users demo_db)
          ++ [User uid' email
                (demo_digest (ToString (field (body req) "password")))
                (ToString (field (body req) "name" ||| Str "")) "staff" None 0
                (clock 0%nat)]
        ∧ rows (metrics (db_after out))
          = rows (metrics demo_db)
            ++ [Metric (next_id m_id (metrics demo_db)) (Some uid') (Some 0)
                  (Some 0) (clock 1%nat)]
        ∧ uid' ∈ st_user_id <$> rows (statuses (db_after out))
        ∧ targets (db_after out) = targets demo_db
        ∧ response_of out' = Some (Redirect "/staff")
        ∧ authorized (db_after out') (session_after out') ["staff"; "admin"]
          = true
    end.
Proof.
  apply (staff_add_makes_a_staff_member demo_digest
           (with_body [("email", "New@smm.local"); ("password", "pw2");
                       ("name", "New")] browser)
           (with_body [("email", "new@smm.local"); ("password", "pw2")] browser)
           (λ k : nat, 5000 + Z.of_nat k) (λ _, 9000) demo_db (signed_in 2)
           empty_session
           (User 2 "staff@smm.local" (demo_digest "staff123") "Team Member"
                 "staff" (Some "@staff") 0 1000)).
  - vm_compute. reflexivity.
  - in_list.
  - reflexivity.
  - reflexivity.
  - vm_compute. reflexivity.
  - reflexivity.
  - reflexivity.
Defined.

(** ** Deleted accounts *)

Lemma find_delete_where {A} (key : A → Z) (i id : Z) l :
  List.find (λ x, sql_eq (Some (key x)) (Some i))
    (List.filter (λ x, negb (sql_eq (Some (key x)) (Some id))) l)
  = if i =? id then None
    else List.find (λ x, sql_eq (Some (key x)) (Some i)) l.
Proof.
  unfold sql_eq. induction l as [|x l IH]; [cbn; by destruct (i =? id)|].
  cbn [List.filter List.find].
  destruct (Z.eqb_spec (key x) id) as [E|E]; cbn [negb].
  - rewrite IH. destruct (Z.eqb_spec i id) as [->|Hi]; [done|].
    destruct (Z.eqb_spec (key x) i); [congruence|done].
  - cbn [List.find]. rewrite IH.
    destruct (Z.eqb_spec (key x) i) as [E'|E']; [|done].
    destruct (Z.eqb_spec i id); [congruence|done].
Qed.

(** X22.  POST /staff/delete removes the user with the posted id, whoever
    that is: the handler checks neither the target's role nor whether it
    is the caller.  Afterwards a session that still carries the deleted
    id designates nobody, so its requests are those of a visitor, while
    every other user is read back as before. *)
Theorem deleted_user_is_signed_out digest req clock d s me id :
  principal d s = Some me →
  u_role me ∈ ["staff"; "admin"] →
  Number (field (body req) "id") = Int id →
  let d' := db_after (run digest POST_staff_delete req clock d s) in
  (∀ s', uid s' = Some id → principal d' s' = None)
  ∧ (∀ s' roles, uid s' = Some id → authorized d' s' roles = false)
  ∧ (∀ i, i ≠ id → user_by_id (Int i) d' = user_by_id (Int i) d).
Proof.
  intros Hp Hr Hid. cbn zeta.
  assert (Hl : ∀ i, user_by_id (Int i)
                      (db_after (run digest POST_staff_delete req clock d s))
                    = if i =? id then None else user_by_id (Int i) d).
  { intros i. unfold run, serve. monad. rewrite middleware_spec. cbn.
    unfold post_staff_delete. rewrite (guarded_accepts _ _ _ _ _ me) by done.
    cbn. rewrite Hid. monad.
    unfold user_by_id, get, delete_metrics_of, delete_statuses_of,
      delete_targets_of, delete_user, delete_where. db_simpl. cbn [rows].
    apply (find_delete_where u_id). }
  assert (Hn : ∀ s', uid s' = Some id →
               principal (db_after (run digest POST_staff_delete req clock d s)) s'
               = None).
  { intros s' Hs. unfold principal. rewrite Hs.
    destruct (truthy _); [|done]. by rewrite Hl, Z.eqb_refl. }
  split; [exact Hn|]. split.
  - intros s' roles Hs. unfold authorized. by rewrite Hn.
  - intros i Hi. rewrite Hl. by destruct (Z.eqb_spec i id).
Qed.

Lemma deleted_user_is_signed_out_witness :
  let d' := db_after (run demo_digest POST_staff_delete
                        (with_body [("id", "1")] browser) (λ _, 5000) demo_db
                        (signed_in 2)) in
  (∀ s', uid s' = Some 1 → principal d' s' = None)
  ∧ (∀ s' roles, uid s' = Some 1 → authorized d' s' roles = false)
  ∧ (∀ i, i ≠ 1 → user_by_id (Int i) d' = user_by_id (Int i) demo_db).
Proof.
  apply (deleted_user_is_signed_out demo_digest
           (with_body [("id", "1")] browser) (λ _, 5000) demo_db (signed_in 2)
           (User 2 "staff@smm.local" (demo_digest "staff123") "Team Member"
                 "staff" (Some "@staff") 0 1000)).
  - vm_compute. reflexivity.
  - in_list.
  - vm_compute. reflexivity.
Defined.

(** ** The checkout page *)

(** X23.  GET /checkout looks the plan up before it looks at the session,
    POST /checkout the other way round: for a plan that does not exist a
    visitor gets a 404 from the page and a redirect to /login from the
    form.  The page never writes; for an existing plan it sends a
    visitor to /login and shows a signed-in user the escaped plan name
    and the price. *)
Theorem checkout_page_checks_plan_first digest req clock d s :
  let out := run digest GET_checkout req clock d s in
  let out' := run digest POST_checkout req clock d s in
  db_after out = d
  ∧ session_after out = s
  ∧ response_of out
    = Some (match plan_by_id (Number (field (query req) "plan_id")) d with
            | None => Send 404 (Text "Plan not found")
            | Some p =>
                match principal d s with
                | None => Redirect "/login"
                | Some u =>
                    Send 200 (Html "Checkout" (Some u)
                                [escapeHtml (Str (pl_name p));
                                 currency (pl_price_usd p)])
                end
            end)
  ∧ (principal d s = None → response_of out' = Some (Redirect "/login")).
Proof.
  cbn zeta. split; [|split; [|split]].
  - unfold run, serve. monad. rewrite middleware_spec. cbn.
    unfold get_checkout. step.
    destruct (plan_by_id _ d); [destruct (principal d s)|]; by step.
  - unfold run, serve. monad. rewrite middleware_spec. cbn.
    unfold get_checkout. step.
    destruct (plan_by_id _ d); [destruct (principal d s)|]; by step.
  - unfold run, serve. monad. rewrite middleware_spec. cbn.
    unfold get_checkout. step.
    destruct (plan_by_id _ d); [destruct (principal d s)|]; by step.
  - intros Hp. unfold run, serve. monad. rewrite middleware_spec. cbn.
    unfold post_checkout. cbn. rewrite Hp. by step.
Qed.

Example checkout_of_a_missing_plan :
  let req := with_query [("plan_id", "9")] browser in
  response_of (run demo_digest GET_checkout req (λ _, 0) sibling_db empty_session)
  = Some (Send 404 (Text "Plan not found"))
  ∧ response_of (run demo_digest POST_checkout req (λ _, 0) sibling_db
                     empty_session)
    = Some (Redirect "/login")
  ∧ response_of (run demo_digest GET_checkout
                     (with_query [("plan_id", "2.0")] browser) (λ _, 0)
                     sibling_db empty_session)
    = Some (Redirect "/login").
Proof. vm_compute. repeat split; reflexivity. Qed.

(** ** Addresses are stored in lower case *)

Lemma byte_of_byte z : 0 ≤ z < 256 → byte (of_byte z) = z.
Proof.
  intros H. unfold byte, of_byte. rewrite N_ascii_embedding; lia.
Qed.

Lemma byte_range a : 0 ≤ byte a < 256.
Proof.
  unfold byte. pose proof (N_ascii_bounded a). lia.
Qed.

Lemma continuation_tail x :
  0 ≤ x → continuation (of_byte (0x80 + x mod 64)) = Some (x mod 64).
Proof.
  intros H. unfold continuation.
  pose proof (Z.mod_pos_bound x 64 ltac:(lia)).
  rewrite byte_of_byte by lia.
  replace ((128 <=? 128 + x mod 64) && (128 + x mod 64 <? 192)) with true
    by (symmetry; apply andb_true_intro; split; lia).
  f_equal. lia.
Qed.

Ltac dlia := Z.div_mod_to_equations; lia.

Lemma code_points_utf8_bytes c r :
  scalar c = true → code_points (utf8_bytes c r) = cons c <$> code_points r.
Proof.
  unfold scalar, utf8_bytes. intros H.
  assert (0 ≤ c < 0x110000 ∧ ¬ (0xD800 ≤ c < 0xE000)) as [Hc Hs] by lia.
  clear H.
  destruct (Z.ltb_spec c 0x80).
  { cbn [code_points]. rewrite byte_of_byte by dlia. cbv zeta.
    by replace (c <? 128) with true by dlia. }
  destruct (Z.ltb_spec c 0x800).
  { cbn [code_points]. rewrite continuation_tail by dlia.
    rewrite byte_of_byte by dlia. cbv zeta.
    replace (192 + c / 64 <? 128) with false by dlia.
    replace (192 + c / 64 <? 224) with true by dlia.
    replace ((192 + c / 64 - 192) * 64 + c mod 64) with c by dlia.
    by replace (128 <=? c) with true by dlia. }
  destruct (Z.ltb_spec c 0x10000).
  { cbn [code_points]. rewrite !continuation_tail by dlia.
    rewrite byte_of_byte by dlia. cbv zeta.
    replace (224 + c / 4096 <? 128) with false by dlia.
    replace (224 + c / 4096 <? 224) with false by dlia.
    replace (224 + c / 4096 <? 240) with true by dlia.
    replace ((224 + c / 4096 - 224) * 4096 + (c / 64) mod 64 * 64 + c mod 64)
      with c by dlia.
    replace (2048 <=? c) with true by dlia.
    unfold scalar.
    by replace ((0 <=? c) && (c <? 55296) || (57344 <=? c) && (c <? 1114112))
      with true by dlia. }
  cbn [code_points]. rewrite !continuation_tail by dlia.
  rewrite byte_of_byte by dlia. cbv zeta.
  replace (240 + c / 262144 <? 128) with false by dlia.
  replace (240 + c / 262144 <? 224) with false by dlia.
  replace (240 + c / 262144 <? 240) with false by dlia.
  replace ((240 + c / 262144 - 240) * 262144 + (c / 4096) mod 64 * 4096
           + (c / 64) mod 64 * 64 + c mod 64) with c by dlia.
  replace (65536 <=? c) with true by dlia.
  by replace (c <? 1114112) with true by dlia.
Qed.

Lemma code_points_utf8 l :
  Forall (λ c, scalar c = true) l → code_points (utf8 l) = Some l.
Proof.
  induction 1 as [|c l Hc _ IH]; [done|].
  cbn [utf8 foldr]. rewrite code_points_utf8_bytes by done.
  fold (utf8 l). by rewrite IH.
Qed.

Lemma continuation_range a x : continuation a = Some x → 0 ≤ x < 64.
Proof.
  unfold continuation. destruct (_ && _) eqn:E; [|done].
  intros [= <-]. lia.
Qed.

Lemma code_points_scalar_bounded n : ∀ s l,
  (String.length s ≤ n)%nat → code_points s = Some l →
  Forall (λ c, scalar c = true) l.
Proof.
  induction n as [|n IH]; intros s l Hn.
  { destruct s; [|cbn in Hn; lia]. intros [= <-]. constructor. }
  destruct s as [|a r]; [intros [= <-]; constructor|].
  cbn [code_points]. cbv zeta. pose proof (byte_range a) as Ha.
  cbn [String.length] in Hn.
  destruct (Z.ltb_spec (byte a) 0x80).
  { destruct (code_points r) as [l'|] eqn:E; [|done]. intros [= <-].
    constructor; [unfold scalar; lia|]. eapply IH; [|exact E]. lia. }
  destruct (Z.ltb_spec (byte a) 0xE0).
  { destruct r as [|a1 r1]; [done|].
    destruct (continuation a1) as [x1|] eqn:E1; [|done].
    apply continuation_range in E1.
    destruct (Z.leb_spec 0x80 ((byte a - 192) * 64 + x1)); [|done].
    destruct (code_points r1) as [l'|] eqn:E; [|done]. intros [= <-].
    constructor; [unfold scalar; lia|]. eapply IH; [|exact E].
    cbn [String.length] in Hn. lia. }
  destruct (Z.ltb_spec (byte a) 0xF0).
  { destruct r as [|a1 [|a2 r2]]; [done..|].
    destruct (continuation a1) as [x1|]; [|done].
    destruct (continuation a2) as [x2|]; [|done].
    destruct (_ && scalar _) eqn:Hs; [|done].
    apply andb_prop in Hs as [_ Hs].
    destruct (code_points r2) as [l'|] eqn:E; [|done]. intros [= <-].
    constructor; [done|]. eapply IH; [|exact E].
    cbn [String.length] in Hn. lia. }
  destruct r as [|a1 [|a2 [|a3 r3]]]; [done..|].
  destruct (continuation a1) as [x1|]; [|done].
  destruct (continuation a2) as [x2|]; [|done].
  destruct (continuation a3) as [x3|]; [|done].
  destruct (_ && (_ <? _)) eqn:Hs; [|done].
  destruct (code_points r3) as [l'|] eqn:E; [|done]. intros [= <-].
  constructor; [unfold scalar; lia|]. eapply IH; [|exact E].
  cbn [String.length] in Hn. lia.
Qed.

Lemma code_points_scalar s l :
  code_points s = Some l → Forall (λ c, scalar c = true) l.
Proof. by apply (code_points_scalar_bounded (String.length s)). Qed.

Lemma lower_table_fixed :
  forallb (λ e, forallb lower_fixed (lower_images e)) lower_table = true.
Proof. vm_compute. reflexivity. Qed.

Lemma lower_table_steps :
  forallb (λ '(_, _, step, _), 0 <? step) lower_table = true.
Proof. vm_compute. reflexivity. Qed.

Lemma mapped_lower_images c lo hi step delta :
  0 < step → mapped c (lo, hi, step, delta) = true →
  c + delta ∈ lower_images (lo, hi, step, delta).
Proof.
  unfold mapped, lower_images. intros Hs H.
  assert (lo ≤ c ≤ hi ∧ (c - lo) mod step = 0) as [Hc Hm] by lia. clear H.
  apply list_elem_of_fmap. exists (Z.to_nat ((c - lo) / step)).
  pose proof (Z.div_mod (c - lo) step ltac:(lia)) as Hd.
  pose proof (Z.div_pos (c - lo) step ltac:(lia) Hs).
  pose proof (Z.div_le_mono (c - lo) (hi - lo) step Hs ltac:(lia)).
  split; [rewrite Z2Nat.id by done; lia|].
  apply elem_of_seq. lia.
Qed.

Lemma lower1_fixed c :
  scalar c = true → c ≠ 0x3A3 → c ≠ 0x130 → lower_fixed (lower1 c) = true.
Proof.
  intros Hs H1 H2. unfold lower1 at 1.
  destruct (List.find _ _) as [[[[lo hi] step] delta]|] eqn:E.
  - apply find_some in E as [Hin Hm].
    pose proof lower_table_fixed as Hf. pose proof lower_table_steps as Ht.
    rewrite forallb_forall in Hf, Ht.
    specialize (Hf _ Hin). specialize (Ht _ Hin). cbn beta iota in Ht.
    rewrite forallb_forall in Hf. apply Hf, list_elem_of_In.
    apply mapped_lower_images; [lia|done].
  - unfold lower_fixed, lower1. rewrite E, Hs.
    repeat (apply andb_true_intro; split); lia.
Qed.

Lemma lower_from_fixed l : ∀ b,
  Forall (λ c, scalar c = true) l →
  Forall (λ c, lower_fixed c = true) (lower_from b l).
Proof.
  induction l as [|c l IH]; intros b H; [constructor|].
  apply Forall_cons in H as [Hc Hl]. cbn [lower_from].
  apply Forall_app. split; [|by apply IH].
  destruct (Z.eqb_spec c 0x3A3).
  { by destruct (_ && _); repeat constructor. }
  destruct (Z.eqb_spec c 0x130).
  { by repeat constructor. }
  repeat constructor. by apply lower1_fixed.
Qed.

Lemma lower_from_id l : ∀ b,
  Forall (λ c, lower_fixed c = true) l → lower_from b l = l.
Proof.
  induction l as [|c l IH]; intros b H; [done|].
  apply Forall_cons in H as [Hc Hl]. cbn [lower_from]. rewrite IH by done.
  unfold lower_fixed in Hc.
  replace (c =? 0x3A3) with false by lia.
  replace (c =? 0x130) with false by lia.
  cbn [app]. f_equal. lia.
Qed.

Lemma toLowerCase_idemp s : toLowerCase (toLowerCase s) = toLowerCase s.
Proof.
  unfold toLowerCase at 2 3. destruct (code_points s) as [l|] eqn:E.
  - pose proof (lower_from_fixed l false (code_points_scalar s l E)) as Hf.
    unfold toLowerCase. rewrite code_points_utf8.
    + by rewrite lower_from_id.
    + eapply Forall_impl; [exact Hf|]. unfold lower_fixed. intros c Hc.
      apply andb_prop in Hc as [_ Hc]. exact Hc.
  - unfold toLowerCase. by rewrite E.
Qed.

Lemma emails_kept_refl d : emails_kept d d.
Proof. by intros H. Qed.

Lemma emails_kept_trans a b c :
  emails_kept a b → emails_kept b c → emails_kept a c.
Proof. unfold emails_kept. auto. Qed.

Lemma emails_kept_same d d' : same_table Users d d' → emails_kept d d'.
Proof. cbn. intros E H. unfold emails_lower. by rewrite E. Qed.

Lemma emails_kept_insert e h n r ig now d d' :
  toLowerCase e = e → insert_user e h n r ig now d = Some d' → emails_kept d d'.
Proof.
  intros He H Hl. unfold insert_user in H.
  destruct (user_by_email e d); [discriminate|]. injection H as <-.
  unfold emails_lower, insert. db_simpl. cbn [rows].
  apply Forall_app. split; [exact Hl|]. by apply Forall_singleton.
Qed.

Lemma emails_kept_insert_or_ignore e h n r ig now d :
  toLowerCase e = e → emails_kept d (insert_user_or_ignore e h n r ig now d).
Proof.
  intros He. unfold insert_user_or_ignore.
  destruct (insert_user e h n r ig now d) eqn:E; cbn;
    [by eapply emails_kept_insert | by intros H].
Qed.

Lemma emails_kept_update (c : user → bool) (f : user → user) d :
  (∀ u, u_email (f u) = u_email u) →
  emails_kept d (set_users (update_where c f) d).
Proof.
  intros Hf Hl. unfold emails_lower, update_where in *. db_simpl. cbn [rows].
  apply Forall_forall. intros u (v & <- & Hv%list_elem_of_In)%list_elem_of_In%in_map_iff.
  rewrite Forall_forall in Hl. specialize (Hl v Hv).
  destruct (c v); [by rewrite Hf | done].
Qed.

Lemma emails_kept_delete id d : emails_kept d (delete_user id d).
Proof.
  intros Hl. unfold emails_lower, delete_user, delete_where in *. db_simpl.
  cbn [rows]. apply Forall_forall.
  intros u [Hu _]%list_elem_of_In%filter_In. rewrite Forall_forall in Hl.
  by apply Hl, list_elem_of_In.
Qed.

Ltac emails_stmt :=
  lazymatch goal with
  | H : insert_user _ _ _ _ _ _ _ = Some _ |- emails_kept _ _ =>
      eapply emails_kept_insert; [|exact H]; apply toLowerCase_idemp
  | |- emails_kept _ (insert_user_or_ignore _ _ _ _ _ _ _) =>
      apply emails_kept_insert_or_ignore; reflexivity
  | |- emails_kept _ (set_role_by_email _ _ _) =>
      by apply emails_kept_update
  | |- emails_kept _ (set_role_by_id _ _ _) => by apply emails_kept_update
  | |- emails_kept _ (set_unsubscribed _ _ _) => by apply emails_kept_update
  | |- emails_kept _ (delete_user _ _) => apply emails_kept_delete
  | |- emails_kept _ _ => apply emails_kept_same; same_stmt
  end.

Lemma emails_kept_run digest r req clock d s :
  emails_kept d (db_after (run digest r req clock d s)).
Proof.
  pose proof emails_kept_refl. pose proof emails_kept_trans.
  apply (run_keeps emails_kept); try assumption; intros;
    try emails_stmt.
  - unfold post_signup, post_signup_env. keeps_auto; emails_stmt.
  - unfold post_staff_add. keeps_auto; emails_stmt.
Qed.

Lemma emails_kept_initDb digest random : keeps emails_kept (initDb digest random).
Proof.
  pose proof emails_kept_refl. pose proof emails_kept_trans.
  unfold initDb, seed_users, seed_plans, seed_posts, seed_reviews, seed_post,
    seed_review.
  keeps_auto.
  all: lazymatch goal with
       | |- keeps _ (ensure_rows _ _ _) =>
           apply keeps_ensure_rows; try assumption; intros; emails_stmt
       | |- _ => emails_stmt
       end.
Qed.

Lemma reachable_emails_lower digest d : reachable digest d → emails_lower d.
Proof.
  induction 1 as [|random clock d s _ IH|r req clock d s _ IH].
  - apply Forall_nil_2.
  - by apply (emails_kept_initDb digest random clock (start d s)).
  - by apply (emails_kept_run digest r req clock d s).
Qed.

Lemma NoDup_fmap_inj {A B} (f : A → B) (l : list A) x y :
  NoDup (f <$> l) → x ∈ l → y ∈ l → f x = f y → x = y.
Proof.
  induction l as [|z l IH]; [by intros _ ?%elem_of_nil|].
  rewrite fmap_cons, NoDup_cons, !elem_of_cons.
  intros [Hz Hnd] [->|Hx] [->|Hy] E; auto.
  - exfalso. apply Hz. rewrite E. by apply list_elem_of_fmap_2.
  - exfalso. apply Hz. rewrite <- E. by apply list_elem_of_fmap_2.
Qed.

(** X24.  Every address is stored in lower case, that is, as
    [toLowerCase] leaves it: signup and the staff form lower the address
    they are posted, the seeded ones are written that way, and no
    statement edits an address.  With the UNIQUE constraint this makes
    accounts unique up to case: in every store the application can be in,
    two users whose addresses have the same lower-case form are the same
    user. *)
Theorem reachable_accounts_unique_up_to_case digest d :
  reachable digest d →
  (∀ u, u ∈ rows (users d) → toLowerCase (u_email u) = u_email u)
  ∧ (∀ u v, u ∈ rows (users d) → v ∈ rows (users d) →
       toLowerCase (u_email u) = toLowerCase (u_email v) → u = v).
Proof.
  intros H. pose proof (reachable_emails_lower digest d H) as Hl.
  pose proof (reachable_schema_ok digest d H) as (_ & Hnd & _).
  unfold emails_lower in Hl. rewrite Forall_forall in Hl.
  split; [exact Hl|]. intros u v Hu Hv E.
  rewrite (Hl u Hu), (Hl v Hv) in E.
  by apply (NoDup_fmap_inj u_email (rows (users d))).
Qed.

Lemma reachable_accounts_unique_up_to_case_witness :
  (∀ u, u ∈ rows (users demo_shop) → toLowerCase (u_email u) = u_email u)
  ∧ (∀ u v, u ∈ rows (users demo_shop) → v ∈ rows (users demo_shop) →
       toLowerCase (u_email u) = toLowerCase (u_email v) → u = v).
Proof.
  apply (reachable_accounts_unique_up_to_case demo_digest demo_shop).
  exact demo_shop_reachable.
Defined.

(** ** One's own performance page *)

Lemma performance_result me n clock w :
  res w = None →
  let d' := if bool_decide (metrics_of n (db w) = [])
            then seeded n clock 0 (ticks w) 6 (db w) else db w in
  ∃ l t,
    performance me n clock w
    = match user_by_id n (db w) with
      | Some u =>
          (Ok (),
           World d' (sess w)
             (Some (Send 200
                      (Html "Performance" (Some me)
                         (escapeHtml (Str (u_email u))
                          :: (json_number ∘ m_likes <$> metrics_of n d')
                          ++ (json_number ∘ m_follows <$> metrics_of n d')))))
             l t)
      | None => (Throw, World d' (sess w) None l t)
      end.
Proof.
  destruct w as [d s r l t]. cbn [res db sess ticks]. intros ->. cbn zeta.
  unfold performance. light_step.
  destruct (bool_decide_reflect (metrics_of n d = [])) as [He|He].
  - destruct (seed_metrics_spec n 6 0 clock (World d s None (l ++ [Read Metrics]) t))
      as [l' ->].
    light_step. rewrite seeded_user_by_id.
    destruct (user_by_id n d); light_step; eexists _, _; reflexivity.
  - light_step. destruct (user_by_id n d); light_step; eexists _, _; reflexivity.
Qed.

Lemma principal_id d s me : principal d s = Some me → uid s = Some (u_id me).
Proof.
  unfold principal. destruct (uid s) as [i|]; [|done].
  destruct (truthy _); [|done]. unfold user_by_id, get.
  intros [_ H]%find_some. cbn in H. apply Z.eqb_eq in H. by rewrite H.
Qed.

Lemma principal_lookup d s me :
  principal d s = Some me → user_by_id (Int (u_id me)) d = Some me.
Proof.
  intros H. pose proof (principal_id d s me H) as Hi.
  unfold principal in H. rewrite Hi in H. by destruct (truthy _).
Qed.

Lemma seeded_metrics_of id clock t d :
  metrics_of (Int id) (seeded (Int id) clock 0 t 6 d) ≠ [].
Proof.
  unfold metrics_of, all. cbn [seeded].
  rewrite !insert_metric_rows, <- !app_assoc.
  rewrite List.filter_app. cbn [app List.filter m_user_id bind sql_eq].
  rewrite Z.eqb_refl. by destruct (List.filter _ (rows (metrics d))).
Qed.

(** X25.  GET /performance, from a staff or admin session, always shows
    the caller's own page: the caller exists, so the lookup that fails on
    the other performance route cannot fail here.  The first request of
    a caller without metrics seeds them; a second request finds them and
    writes nothing. *)
Theorem own_performance_seeds_once digest req req' clock clock' d s me :
  principal d s = Some me →
  u_role me ∈ ["staff"; "admin"] →
  let out := run digest GET_performance req clock d s in
  let out' := run digest GET_performance req' clock'
                  (db_after out) (session_after out) in
  response_of out
  = Some (Send 200
            (Html "Performance" (Some me)
               (escapeHtml (Str (u_email me))
                :: (json_number ∘ m_likes
                      <$> metrics_of (Int (u_id me)) (db_after out))
                ++ (json_number ∘ m_follows
                      <$> metrics_of (Int (u_id me)) (db_after out)))))
  ∧ metrics_of (Int (u_id me)) (db_after out) ≠ []
  ∧ db_after out' = db_after out
  ∧ response_of out' = response_of out.
Proof.
  intros Hp Hm. cbn zeta.
  assert (Hrun : ∀ rq ck d0, principal d0 s = Some me →
            run digest GET_performance rq ck d0 s
            = finish (performance me (Int (u_id me)) ck
                        (World d0 s None (authed_log s ++ authed_log s) 0))).
  { intros rq ck d0 H0. unfold run, serve. monad. rewrite middleware_spec. cbn.
    unfold get_performance. by rewrite (guarded_accepts _ _ _ _ _ me). }
  rewrite (Hrun req clock d Hp).
  destruct (performance_result me (Int (u_id me)) clock
              (World d s None (authed_log s ++ authed_log s) 0) eq_refl)
    as (l & t & ->).
  cbn [db sess ticks]. rewrite (principal_lookup d s me Hp).
  set (d' := if bool_decide _ then _ else d).
  unfold finish. cbn [fst snd db sess res log db_after session_after response_of].
  assert (Hne : metrics_of (Int (u_id me)) d' ≠ []).
  { subst d'. case_bool_decide as He; [apply seeded_metrics_of | exact He]. }
  assert (Hu : users d' = users d).
  { subst d'. case_bool_decide; [apply seeded_users | done]. }
  assert (Hp' : principal d' s = Some me).
  { unfold principal, user_by_id in *. by rewrite Hu. }
  split; [done|]. split; [exact Hne|].
  rewrite (Hrun req' clock' d' Hp').
  destruct (performance_result me (Int (u_id me)) clock'
              (World d' s None (authed_log s ++ authed_log s) 0) eq_refl)
    as (l' & t' & ->).
  cbn [db sess ticks]. rewrite (principal_lookup d' s me Hp').
  rewrite bool_decide_eq_false_2 by exact Hne.
  cbn [fst snd db sess res log db_after session_after response_of].
  done.
Qed.

Lemma own_performance_seeds_once_witness :
  let me := User 1 "admin@smm.local" (demo_digest "admin123") "Admin" "admin"
                 (Some "@admin") 0 1000 in
  let d := delete_metrics_of (Int 1) demo_db in
  let out := run demo_digest GET_performance browser (λ _, 5000) d
                 (signed_in 1) in
  let out' := run demo_digest GET_performance browser (λ _, 6000)
                  (db_after out) (session_after out) in
  response_of out
  = Some (Send 200
            (Html "Performance" (Some me)
               (escapeHtml (Str (u_email me))
                :: (json_number ∘ m_likes
                      <$> metrics_of (Int (u_id me)) (db_after out))
                ++ (json_number ∘ m_follows
                      <$> metrics_of (Int (u_id me)) (db_after out)))))
  ∧ metrics_of (Int (u_id me)) (db_after out) ≠ []
  ∧ db_after out' = db_after out
  ∧ response_of out' = response_of out.
Proof.
  apply (own_performance_seeds_once demo_digest browser browser (λ _, 5000)
           (λ _, 6000) (delete_metrics_of (Int 1) demo_db) (signed_in 1)
           (User 1 "admin@smm.local" (demo_digest "admin123") "Admin" "admin"
                 (Some "@admin") 0 1000)).
  - vm_compute. reflexivity.
  - in_list.
Defined.
